(** * liquid_notebooks: the liquid-tag preprocessor and its notebook tag

  A shallow embedding of the three Python modules of the plugin
  ([mdx_liquid_tags.py], [liquid_tags.py], [notebook.py]) together with the
  small part of the Python runtime they rely on (string methods, slices,
  the [re] matcher, dictionaries), followed by the properties of the
  program that were checked against it.

  Python [str] values are modelled by [string]; a character is a code
  point below 256. Exceptions are values of [Py.exn]; a computation that
  may raise returns a [Py.result]. *)

From Stdlib Require Import ZArith String Ascii List Bool Lia.
From Stdlib Require Import DecimalString DecimalZ DecimalPos.
From stdpp Require Import base option list gmap strings.

Local Open Scope string_scope.

(** ** The Python runtime used by the plugin *)

Module Py.

(** The exception classes the program raises, or makes the runtime raise. *)
Inductive exn : Type :=
| AttributeError (msg : string)
| ValueError (msg : string)
| KeyError (key : string)
| TypeError (msg : string)
| OSError (msg : string)
| Exception (msg : string).

Inductive result (A : Type) : Type :=
| Ok (a : A)
| Raise (e : exn).
Arguments Ok {A} a.
Arguments Raise {A} e.

Definition bind {A B} (m : result A) (k : A -> result B) : result B :=
  match m with
  | Ok a => k a
  | Raise e => Raise e
  end.

Definition is_ok {A} (m : result A) : bool :=
  match m with Ok _ => true | Raise _ => false end.

(** [str.isspace] on one character, which is also what [\s] matches in a
    [str] pattern: TAB..CR, FS..US, space, NEL and NBSP. *)
Definition isspace (c : ascii) : bool :=
  let n := nat_of_ascii c in
  (((9 <=? n) && (n <=? 13)) || ((28 <=? n) && (n <=? 32))
   || (n =? 133) || (n =? 160))%nat.

Definition isdigit (c : ascii) : bool :=
  let n := nat_of_ascii c in ((48 <=? n) && (n <=? 57))%nat.

Definition islower_az (c : ascii) : bool :=
  let n := nat_of_ascii c in ((97 <=? n) && (n <=? 122))%nat.

Definition newline : ascii := ascii_of_nat 10.
Definition dquote : ascii := ascii_of_nat 34.
(** The one-character string written ["\n"] in the source. *)
Definition nl : string := String newline "".

(** The values that settings and configuration dictionaries hold. Mutable
    objects (lists, dictionaries, class instances) live in a heap and are
    held by reference; [VClass] is a class object itself. *)
Definition loc := nat.
Inductive value : Type :=
| VNone
| VBool (b : bool)
| VInt (z : Z)
| VStr (s : string)
| VRef (l : loc)
| VClass (name : string).

(** A new object: a location that no object of the heap has. *)
Definition alloc {O : Type} (o : O) (h : gmap loc O) : loc * gmap loc O :=
  let l := fresh (dom h) in (l, <[l := o]> h).

(** [s[:n]] and [s[n:]] for a natural [n]. *)
Fixpoint take (n : nat) (s : string) : string :=
  match n, s with
  | S n', String c s' => String c (take n' s')
  | _, _ => ""
  end.

Fixpoint drop (n : nat) (s : string) : string :=
  match n, s with
  | S n', String _ s' => drop n' s'
  | _, _ => s
  end.

(** The bounds of [seq[start:stop]] on a sequence of length [len], as
    CPython's [PySlice_AdjustIndices] computes them for step 1. [None] is an
    omitted bound. The result [(lo, hi)] selects the indices
    [lo <= i < hi]; it is empty when [hi <= lo]. *)
Definition clamp_index (len : nat) (i : Z) : nat :=
  let l := Z.of_nat len in
  let i' := if (i <? 0)%Z then (i + l)%Z else i in
  if (i' <? 0)%Z then 0
  else if (l <=? i')%Z then len
  else Z.to_nat i'.

Definition slice_bounds (len : nat) (start stop : option Z) : nat * nat :=
  (match start with None => 0 | Some i => clamp_index len i end,
   match stop with None => len | Some i => clamp_index len i end).

Definition slice_str (start stop : option Z) (s : string) : string :=
  let '(lo, hi) := slice_bounds (String.length s) start stop in
  take (hi - lo) (drop lo s).

Definition slice_list {A} (start stop : option Z) (l : list A) : list A :=
  let '(lo, hi) := slice_bounds (length l) start stop in
  List.firstn (hi - lo) (List.skipn lo l).

(** [sep.join(ls)] *)
Fixpoint join (sep : string) (ls : list string) : string :=
  match ls with
  | [] => ""
  | [x] => x
  | x :: xs => x +:+ sep +:+ join sep xs
  end.

(** [s.split(c)] for a separator of one character: never the empty list. *)
Fixpoint split (c : ascii) (s : string) : list string :=
  match s with
  | "" => [""]
  | String a s' =>
      if Ascii.eqb a c then "" :: split c s'
      else match split c s' with
           | h :: t => String a h :: t
           | [] => [String a ""]
           end
  end.

(** [s.lstrip()], [s.rstrip()] and [s.strip()] without argument. *)
Fixpoint lstrip (s : string) : string :=
  match s with
  | String a s' => if isspace a then lstrip s' else s
  | "" => ""
  end.

Fixpoint rstrip (s : string) : string :=
  match s with
  | "" => ""
  | String a s' =>
      match rstrip s' with
      | "" => if isspace a then "" else String a ""
      | r => String a r
      end
  end.

Definition strip (s : string) : string := rstrip (lstrip s).

(** [int(s)] on the texts the program can pass to it: an optional sign
    followed by decimal digits. Anything else is the [ValueError] of
    [int]. *)
Fixpoint digits_value (acc : Z) (s : string) : option Z :=
  match s with
  | "" => Some acc
  | String c s' =>
      if isdigit c
      then digits_value (10 * acc + Z.of_nat (nat_of_ascii c - 48))%Z s'
      else None
  end.

Definition int_error (s : string) : exn :=
  ValueError ("invalid literal for int() with base 10: '" +:+ s +:+ "'").

Definition int (s : string) : result Z :=
  match s with
  | "" => Raise (int_error s)
  | String c s' =>
      if Ascii.eqb c "-"%char then
        match s' with
        | "" => Raise (int_error s)
        | _ => match digits_value 0 s' with
               | Some v => Ok (- v)%Z
               | None => Raise (int_error s)
               end
        end
      else if Ascii.eqb c "+"%char then
        match s' with
        | "" => Raise (int_error s)
        | _ => match digits_value 0 s' with
               | Some v => Ok v
               | None => Raise (int_error s)
               end
        end
      else match digits_value 0 s with
           | Some v => Ok v
           | None => Raise (int_error s)
           end
  end.

(** [''.join(itertools.chain( *zip(xs, ys)))]: [zip] stops at the shorter
    list, [chain] flattens the pairs in order. *)
Fixpoint zip_chain (xs ys : list string) : list string :=
  match xs, ys with
  | x :: xs', y :: ys' => x :: y :: zip_chain xs' ys'
  | _, _ => []
  end.

End Py.

(** ** The [re] module

  A backtracking matcher with Python's priorities: a greedy repetition
  tries one more iteration before it tries to stop, a lazy one the other
  way round, an optional group is tried present before absent, and the
  first complete match found is the answer. Group captures are spans of
  positions in the subject, as in a Python match object. *)

Module Re.

Inductive regex : Type :=
| Eps
| Chr (p : ascii -> bool)          (* one character of a class *)
| Cat (r1 r2 : regex)
| Opt (r : regex)                  (* r?  *)
| Star (r : regex)                 (* r*  *)
| LazyStar (r : regex)             (* r*? *)
| Group (n : nat) (r : regex)      (* capturing group number n *)
| Bol                              (* ^ without MULTILINE *)
| Eol.                             (* $ without MULTILINE *)

Definition Plus (r : regex) : regex := Cat r (Star r).   (* r+ *)
Fixpoint Seq (rs : list regex) : regex :=               (* r1 r2 ... rn *)
  match rs with
  | [] => Eps
  | [r] => r
  | r :: rs' => Cat r (Seq rs')
  end.
Definition Lit (c : ascii) : regex := Chr (Ascii.eqb c).
Fixpoint Str (s : string) : regex :=
  match s with
  | "" => Eps
  | String c s' => Cat (Lit c) (Str s')
  end.

(** The groups captured so far are a map from group number to span; a
    continuation receives the position, the rest of the subject and the
    groups, and answers with the end of the match and its groups. *)
Definition cont := nat -> string -> gmap nat (nat * nat) -> option (nat * gmap nat (nat * nat)).

(** A greedy repetition of [body]: one more iteration is tried first, and
    when the match cannot be completed after it, the repetition stops here.
    An iteration that consumed nothing ends the repetition. *)
Definition star_loop
    (body : nat -> string -> gmap nat (nat * nat) -> cont -> option (nat * gmap nat (nat * nat)))
    (k : cont) : nat -> nat -> string -> gmap nat (nat * nat) -> option (nat * gmap nat (nat * nat)) :=
  fix loop (fuel : nat) (pos : nat) (rest : string) (g : gmap nat (nat * nat)) :=
    match fuel with
    | O => k pos rest g
    | S fuel' =>
        match body pos rest g
                (fun pos' rest' g' =>
                   if (pos <? pos')%nat then loop fuel' pos' rest' g' else None) with
        | Some m => Some m
        | None => k pos rest g
        end
    end.

(** A lazy repetition: stopping here is tried first. *)
Definition lazy_loop
    (body : nat -> string -> gmap nat (nat * nat) -> cont -> option (nat * gmap nat (nat * nat)))
    (k : cont) : nat -> nat -> string -> gmap nat (nat * nat) -> option (nat * gmap nat (nat * nat)) :=
  fix loop (fuel : nat) (pos : nat) (rest : string) (g : gmap nat (nat * nat)) :=
    match k pos rest g with
    | Some m => Some m
    | None =>
        match fuel with
        | O => None
        | S fuel' =>
            body pos rest g
              (fun pos' rest' g' =>
                 if (pos <? pos')%nat then loop fuel' pos' rest' g' else None)
        end
    end.

(** [exec r pos rest g k]: match [r] at position [pos], where [rest] is
    the subject from [pos] on and [g] the groups captured so far, then
    continue with [k]. Every iteration of a repetition consumes at least
    one character, so the length of [rest] bounds their number. *)
Fixpoint exec (r : regex) (pos : nat) (rest : string) (g : gmap nat (nat * nat))
         (k : cont) {struct r} : option (nat * gmap nat (nat * nat)) :=
  match r with
  | Eps => k pos rest g
  | Chr p =>
      match rest with
      | String c rest' => if p c then k (S pos) rest' g else None
      | "" => None
      end
  | Cat r1 r2 =>
      exec r1 pos rest g (fun pos' rest' g' => exec r2 pos' rest' g' k)
  | Opt r1 =>
      match exec r1 pos rest g k with
      | Some m => Some m
      | None => k pos rest g
      end
  | Star r1 => star_loop (exec r1) k (S (String.length rest)) pos rest g
  | LazyStar r1 => lazy_loop (exec r1) k (S (String.length rest)) pos rest g
  | Group n r1 =>
      exec r1 pos rest g (fun pos' rest' g' => k pos' rest' (<[n := (pos, pos')]> g'))
  | Bol => if (pos =? 0)%nat then k pos rest g else None
  | Eol =>
      match rest with
      | "" => k pos rest g
      | String c "" => if Ascii.eqb c Py.newline then k pos rest g else None
      | _ => None
      end
  end.

(** A match object: the subject, the span of the whole match and the
    spans of the groups that took part in it. *)
Record Match : Type := mkMatch {
  m_string : string;
  m_start : nat;
  m_end : nat;
  m_spans : gmap nat (nat * nat)
}.

(** [m.group(n)] for [n >= 1]: [None] when the group took no part. *)
Definition group (m : Match) (n : nat) : option string :=
  match m_spans m !! n with
  | Some (a, b) => Some (Py.take (b - a) (Py.drop a (m_string m)))
  | None => None
  end.

Definition exec_at (r : regex) (pos : nat) (rest : string) : option (nat * gmap nat (nat * nat)) :=
  exec r pos rest ∅ (fun e _ g => Some (e, g)).

(** [pattern.match(s)]: a match starting at position 0. *)
Definition match_ (r : regex) (s : string) : option Match :=
  match exec_at r 0 s with
  | Some (e, g) => Some (mkMatch s 0 e g)
  | None => None
  end.

(** [pattern.search(s)]: the leftmost match. *)
Fixpoint search_from (r : regex) (s : string) (pos : nat) (rest : string) : option Match :=
  match exec_at r pos rest with
  | Some (e, g) => Some (mkMatch s pos e g)
  | None =>
      match rest with
      | "" => None
      | String _ rest' => search_from r s (S pos) rest'
      end
  end.

Definition search (r : regex) (s : string) : option Match :=
  search_from r s 0 s.

(** The left-to-right scan behind [findall] and [split]: the pairs
    (literal text before a match, matched text) in order, and the literal
    text after the last match. After a match the scan resumes where the
    match ended. No pattern of this program matches the empty string; a
    match of no character is passed over like a failure. *)
Fixpoint scan (r : regex) (fuel pos : nat) (rest seg : string) : list (string * string) * string :=
  match fuel with
  | O => ([], seg +:+ rest)
  | S fuel' =>
      let skip :=
        match rest with
        | "" => ([], seg)
        | String c rest' => scan r fuel' (S pos) rest' (seg +:+ String c "")
        end in
      match exec_at r pos rest with
      | Some (e, _) =>
          if (pos <? e)%nat then
            let '(ms, last) := scan r fuel' e (Py.drop (e - pos) rest) "" in
            ((seg, Py.take (e - pos) rest) :: ms, last)
          else skip
      | None => skip
      end
  end.

Definition scan_all (r : regex) (s : string) : list (string * string) * string :=
  scan r (S (String.length s)) 0 s "".

(** [pattern.findall(s)] for a pattern without capturing groups. *)
Definition findall (r : regex) (s : string) : list string :=
  (scan_all r s).1.*2.

(** [pattern.split(s)] for a pattern without capturing groups. *)
Definition split (r : regex) (s : string) : list string :=
  ((scan_all r s).1.*1 ++ [(scan_all r s).2])%list.

(** [pattern.sub('', s, 1)]: the leftmost match removed, [s] itself when
    there is none. *)
Definition sub_empty_once (r : regex) (s : string) : string :=
  match search r s with
  | Some m => Py.take (m_start m) s +:+ Py.drop (m_end m) s
  | None => s
  end.

End Re.


(** ** mdx_liquid_tags.py *)

Module MdxLiquidTags.

(** [LIQUID_TAG = re.compile(r"\{%.*?%\}", re.MULTILINE | re.DOTALL)]:
    with DOTALL the dot matches every character. *)
Definition dot_all : ascii -> bool := fun _ => true.
Definition LIQUID_TAG : Re.regex :=
  Re.Cat (Re.Lit "{") (Re.Cat (Re.Lit "%")
    (Re.Cat (Re.LazyStar (Re.Chr dot_all))
       (Re.Cat (Re.Lit "%") (Re.Lit "}")))).

(** [EXTRACT_TAG]: a non-capturing group of [\s*], the capturing group
    [(\S+)] (group 1), and a second non-capturing group of [\s*]. *)
Definition nonspace (c : ascii) : bool := negb (Py.isspace c).
Definition EXTRACT_TAG : Re.regex :=
  Re.Cat (Re.Star (Re.Chr Py.isspace))
    (Re.Cat (Re.Group 1 (Re.Plus (Re.Chr nonspace)))
       (Re.Star (Re.Chr Py.isspace))).

Definition LT_CONFIG : gmap string Py.value :=
  {[ "NOTEBOOK_DIR" := Py.VStr "notebooks" ]}.
Definition LT_HELP : gmap string string :=
  {[ "NOTEBOOK_DIR" := "Notebook directory for notebook subplugin" ]}.

(** An instance of the extension class [LiquidTags]. The class defines no
    [config] and [__init__] binds none in the instance, so [self.config] is
    the class attribute [config] of [markdown.Extension]: one dictionary,
    which every instance reads and writes. It maps an option to the pair
    [[value, help]]. The record holds the content of that dictionary as the
    instance reads it. *)
Record LiquidTags : Type := mkLiquidTags {
  config : gmap string (Py.value * string)
}.

(** [LiquidTags.__init__(self, config)]: line 57 writes the defaults of
    [LT_CONFIG] with their help texts into [self.config], then
    [Extension.__init__( **config)] sets each given option there and raises
    [KeyError] for an option that has no default. The result is the content
    of the shared dictionary when the constructor returns: what the new
    instance reads, and every instance made before it. The program writes no
    key into that dictionary but those of [LT_CONFIG], which line 57 writes
    anew in each construction. *)
Definition default_config : gmap string (Py.value * string) :=
  map_imap (fun k v => Some (v, default "" (LT_HELP !! k))) LT_CONFIG.

Definition setConfig (key : string) (v : Py.value)
    (c : Py.result (gmap string (Py.value * string))) : Py.result (gmap string (Py.value * string)) :=
  Py.bind c (fun c =>
    match c !! key with
    | Some (_, help) => Py.Ok (<[key := (v, help)]> c)
    | None => Py.Raise (Py.KeyError key)
    end).

Definition LiquidTags_init (kwargs : gmap string Py.value) : Py.result LiquidTags :=
  Py.bind (map_fold setConfig (Py.Ok default_config) kwargs)
    (fun c => Py.Ok (mkLiquidTags c)).

(** [Extension.getConfig(key, default='')] *)
Definition getConfig (self : LiquidTags) (key : string) : Py.value :=
  match config self !! key with
  | Some (v, _) => v
  | None => Py.VStr ""
  end.

(** An instance of [_LiquidTagsPreprocessor]: [configs] is what the
    constructor was given, the extension instance. *)
Record _LiquidTagsPreprocessor : Type := mkPreprocessor {
  configs : LiquidTags
}.

(** A tag handler [func(preprocessor, tag, markup)]. [World] is what a
    handler can read and change outside the preprocessor (files,
    subprocesses, the HTML stash): a handler is a function of that state
    too, and returns the new one with its replacement text or exception. *)
Abbreviation handler World :=
  (_LiquidTagsPreprocessor -> string -> string -> World -> Py.result string * World)%type.

Section PreprocessorRun.

Context {World : Type}.

(** The body of the loop of [run] for one element [markup] of
    [liquid_tags]: the text that [liquid_tags[i]] holds afterwards. *)
Definition expand_tag (self : _LiquidTagsPreprocessor) (_tags : gmap string (handler World))
    (span : string) (w : World) : Py.result string * World :=
  let markup := Py.slice_str (Some 2%Z) (Some (-2)%Z) span in
  match Re.match_ EXTRACT_TAG markup with
  | None =>
      (Py.Raise (Py.AttributeError "'NoneType' object has no attribute 'groups'"), w)
  | Some m =>
      let markup := Re.sub_empty_once EXTRACT_TAG markup in
      match Re.group m 1 with
      | Some tag =>
          match _tags !! tag with
          | Some func => func self tag (Py.strip markup) w
          | None => (Py.Ok span, w)
          end
      | None => (Py.Ok span, w)
      end
  end.

(** The loop [for i, markup in enumerate(liquid_tags)]: spans are handled
    first to last, and the first exception ends the loop. *)
Fixpoint expand_tags (self : _LiquidTagsPreprocessor) (_tags : gmap string (handler World))
    (liquid_tags : list string) (w : World) : Py.result (list string) * World :=
  match liquid_tags with
  | [] => (Py.Ok [], w)
  | span :: rest =>
      match expand_tag self _tags span w with
      | (Py.Raise e, w1) => (Py.Raise e, w1)
      | (Py.Ok r, w1) =>
          match expand_tags self _tags rest w1 with
          | (Py.Raise e, w2) => (Py.Raise e, w2)
          | (Py.Ok rs, w2) => (Py.Ok (r :: rs), w2)
          end
      end
  end.

(** [_LiquidTagsPreprocessor.run(self, lines)]; [_tags] is the class
    attribute that holds the registry. *)
Definition run (self : _LiquidTagsPreprocessor) (_tags : gmap string (handler World))
    (lines : list string) (w : World) : Py.result (list string) * World :=
  let page := Py.join Py.nl lines in
  let liquid_tags := Re.findall LIQUID_TAG page in
  match expand_tags self _tags liquid_tags w with
  | (Py.Raise e, w1) => (Py.Raise e, w1)
  | (Py.Ok liquid_tags, w1) =>
      let liquid_tags := (liquid_tags ++ [""])%list in
      let page :=
        Py.join "" (Py.zip_chain (Re.split LIQUID_TAG page) liquid_tags) in
      (Py.Ok (Py.split Py.newline page), w1)
  end.

(** [LiquidTags.register(tag)(func)]: the decorator applied to [func]. The
    state is the registry [_LiquidTagsPreprocessor._tags] and the warnings
    issued so far ([warnings.warn] under the default filter reports and
    returns). The decorator returns [func]. *)
Definition override_warning (tag : string) : string :=
  "Enhanced Markdown: overriding tag '" +:+ tag +:+ "'".

Definition register (tag : string) (func : handler World)
    (st : gmap string (handler World) * list string) : handler World * (gmap string (handler World) * list string) :=
  let '(_tags, warned) := st in
  let warned :=
    match _tags !! tag with
    | Some _ => (warned ++ [override_warning tag])%list
    | None => warned
    end in
  (func, (<[tag := func]> _tags, warned)).

End PreprocessorRun.

End MdxLiquidTags.

(** ** liquid_tags.py *)

Module LiquidTagsPlugin.
Import MdxLiquidTags.

(** The objects reachable from a generator's settings: lists, dictionaries
    and instances of [LiquidTags]. An instance is held with the content of
    the dictionary [config] as it reads it; the dictionary is the one of the
    class, so a write into it shows in every instance. *)
Inductive obj : Type :=
| OList (items : list Py.value)
| ODict (d : gmap string Py.value)
| OLiquidTags (ext : LiquidTags).

(** What a construction does to an object that exists: the constructor has
    written into the dictionary [config] of the class, which an instance
    made earlier reads too, so such an instance holds from then on the
    options that the constructor left. Lists and dictionaries of the
    settings are not touched. *)
Definition written_config (ext : LiquidTags) (o : obj) : obj :=
  match o with
  | OLiquidTags _ => OLiquidTags ext
  | _ => o
  end.

Record Generator : Type := mkGenerator {
  settings : Py.loc
}.

(** [x == LiquidTags] for an element [x] of the extensions list: only the
    class object itself is equal to the class; an instance of the class is
    not ([markdown.Extension] defines no [__eq__]). *)
Definition eq_LiquidTags_class (x : Py.value) : bool :=
  match x with
  | Py.VClass name => String.eqb name "LiquidTags"
  | _ => false
  end.

(** The loop [for k in gen.settings: if k in configs: configs[k] = ...] *)
Definition override_configs (settings configs : gmap string Py.value) : gmap string Py.value :=
  map_fold (fun k v cfg =>
              match cfg !! k with
              | Some _ => <[k := v]> cfg
              | None => cfg
              end) configs settings.

(** Lines 9 to 19 of [addLiquidTags]: the extensions list the function
    works on, created (and stored in the settings) when there is none. *)
Definition find_ext_list (gen : Generator) (st : gmap string Py.value)
    (h : gmap Py.loc obj) : Py.result Py.value * gmap Py.loc obj :=
  match st !! "MARKDOWN" with
  | Some markdown_conf =>
      match markdown_conf with
      | Py.VRef m =>
          match h !! m with
          | Some (ODict conf) =>
              match conf !! "extensions" with
              | Some ext_list => (Py.Ok ext_list, h)
              | None =>
                  let '(l, h1) := Py.alloc (OList []) h in
                  (Py.Ok (Py.VRef l),
                   <[m := ODict (<["extensions" := Py.VRef l]> conf)]> h1)
              end
          | _ => (Py.Raise (Py.AttributeError "setdefault"), h)
          end
      | _ => (Py.Raise (Py.AttributeError "setdefault"), h)
      end
  | None =>
      match st !! "MD_EXTENSIONS" with
      | Some ext_list => (Py.Ok ext_list, h)
      | None =>
          let '(l, h1) := Py.alloc (OList []) h in
          let '(d, h2) := Py.alloc (ODict {[ "extensions" := Py.VRef l ]}) h1 in
          (Py.Ok (Py.VRef l),
           <[settings gen := ODict (<["MARKDOWN" := Py.VRef d]> st)]> h2)
      end
  end.

(** Lines 20 to 26: the membership test and the append. The construction
    on line 26 writes its options into the dictionary that all instances
    share, then the new instance joins the list. Its [KeyError] cannot occur
    here, since [configs] has the keys of [LT_CONFIG] only. *)
Definition install (gen : Generator) (ext_list : Py.value)
    (h : gmap Py.loc obj) : Py.result unit * gmap Py.loc obj :=
  match ext_list with
  | Py.VRef l =>
      match h !! l with
      | Some (OList items) =>
          if existsb eq_LiquidTags_class items then (Py.Ok tt, h)
          else
            match h !! settings gen with
            | Some (ODict st) =>
                let configs := override_configs st LT_CONFIG in
                match LiquidTags_init configs with
                | Py.Raise e => (Py.Raise e, h)
                | Py.Ok ext =>
                    let '(i, h1) :=
                      Py.alloc (OLiquidTags ext) (written_config ext <$> h) in
                    (Py.Ok tt, <[l := OList (items ++ [Py.VRef i])]> h1)
                end
            | _ => (Py.Raise (Py.TypeError "settings is not iterable"), h)
            end
      | Some (ODict _) => (Py.Raise (Py.AttributeError "append"), h)
      | _ => (Py.Raise (Py.TypeError "extensions is not iterable"), h)
      end
  | Py.VStr _ => (Py.Raise (Py.TypeError "'in <string>' requires string as left operand"), h)
  | _ => (Py.Raise (Py.TypeError "extensions is not iterable"), h)
  end.

(** [addLiquidTags(gen)] *)
Definition addLiquidTags (gen : Generator) (h : gmap Py.loc obj) : Py.result unit * gmap Py.loc obj :=
  match h !! settings gen with
  | Some (ODict st) =>
      match find_ext_list gen st h with
      | (Py.Raise e, h1) => (Py.Raise e, h1)
      | (Py.Ok ext_list, h1) => install gen ext_list h1
      end
  | _ => (Py.Raise (Py.TypeError "settings is not a mapping"), h)
  end.

(** The extensions list of the settings as a reader of the settings finds
    it: [settings['MARKDOWN']['extensions']], or
    [settings['MD_EXTENSIONS']] when there is no ['MARKDOWN']. *)
Definition extensions (gen : Generator) (h : gmap Py.loc obj) : option (list Py.value) :=
  match h !! settings gen with
  | Some (ODict st) =>
      let ext_list :=
        match st !! "MARKDOWN" with
        | Some (Py.VRef m) =>
            match h !! m with
            | Some (ODict conf) => conf !! "extensions"
            | _ => None
            end
        | Some _ => None
        | None => st !! "MD_EXTENSIONS"
        end in
      match ext_list with
      | Some (Py.VRef l) =>
          match h !! l with
          | Some (OList items) => Some items
          | _ => None
          end
      | _ => None
      end
  | _ => None
  end.

(** The entries of an extensions list that are instances of [LiquidTags]. *)
Definition is_LiquidTags_instance (h : gmap Py.loc obj) (x : Py.value) : bool :=
  match x with
  | Py.VRef i => match h !! i with Some (OLiquidTags _) => true | _ => false end
  | _ => false
  end.

Definition count_LiquidTags (gen : Generator) (h : gmap Py.loc obj) : option nat :=
  match extensions gen h with
  | Some items => Some (length (filter (fun x => is_LiquidTags_instance h x = true) items))
  | None => None
  end.

End LiquidTagsPlugin.

(** ** notebook.py *)

Module Notebook.
Import MdxLiquidTags.

Definition WRAPPER_ID : string := "nb-wrapper".

(** [CSS_WRAPPER.format(css)] *)
Definition CSS_WRAPPER_format (css : string) : string :=
  Py.nl +:+ "<style type=" +:+ String Py.dquote "text/css"
    +:+ String Py.dquote ">" +:+ Py.nl +:+ css +:+ Py.nl +:+ "</style>" +:+ Py.nl.

Definition SYNTAX : string :=
  "{% notebook /path/to/notebook.ipynb [ cells[start:end] ] [ language[language] ] %}".

(** [FORMAT]: fourteen groups, of which 2, 6, 7 and 12 are named [src],
    [start], [end] and [language]. *)
Definition digit_star : Re.regex := Re.Star (Re.Chr Py.isdigit).
Definition language_char (c : ascii) : bool :=
  Py.islower_az c || Py.isdigit c || Ascii.eqb c "+" || Ascii.eqb c "-".
Definition spaces : Re.regex := Re.Plus (Re.Chr Py.isspace).

Definition FORMAT : Re.regex :=
  Re.Seq [
    Re.Bol;
    Re.Opt (Re.Group 1 spaces);
    Re.Group 2 (Re.Plus (Re.Chr nonspace));
    Re.Opt (Re.Group 3 spaces);
    Re.Opt (Re.Group 4 (Re.Seq [
      Re.Group 5 (Re.Str "cells[");
      Re.Group 6 (Re.Cat (Re.Opt (Re.Lit "-")) digit_star);
      Re.Lit ":";
      Re.Group 7 (Re.Cat (Re.Opt (Re.Lit "-")) digit_star);
      Re.Group 8 (Re.Lit "]") ]));
    Re.Opt (Re.Group 9 spaces);
    Re.Opt (Re.Group 10 (Re.Seq [
      Re.Group 11 (Re.Str "language[");
      Re.Group 12 (Re.Cat (Re.Opt (Re.Lit "-")) (Re.Star (Re.Chr language_char)));
      Re.Group 13 (Re.Lit "]") ]));
    Re.Opt (Re.Group 14 spaces);
    Re.Eol ].

(** The parsed arguments of the tag: [src], [start], [end], [language]. *)
Record Args : Type := mkArgs {
  src : option string;
  start : Z;
  end_ : option Z;
  language : option string
}.

(** Truth of a group of [groupdict()]: [None] and the empty text are false. *)
Definition truthy (o : option string) : bool :=
  match o with
  | Some (String _ _) => true
  | _ => false
  end.

Definition syntax_error : Py.exn :=
  Py.ValueError ("Error processing input, expected syntax: " +:+ SYNTAX).

(** Lines 97 to 116 of [notebook]: matching and the conversion of the
    bounds. *)
Definition notebook_args (markup : string) : Py.result Args :=
  match Re.search FORMAT markup with
  | Some m =>
      let src := Re.group m 2 in
      let start := Re.group m 6 in
      let end_ := Re.group m 7 in
      let language := Re.group m 12 in
      Py.bind (if truthy start then Py.int (default "" start) else Py.Ok 0%Z)
        (fun start =>
           Py.bind (if truthy end_
                    then Py.bind (Py.int (default "" end_)) (fun e => Py.Ok (Some e))
                    else Py.Ok None)
             (fun end_ => Py.Ok (mkArgs src start end_ language)))
  | None => Py.Raise syntax_error
  end.

(** [os.path.join] of posixpath. *)
Definition starts_with_sep (s : string) : bool :=
  match s with String c _ => Ascii.eqb c "/" | "" => false end.
Fixpoint ends_with_sep (s : string) : bool :=
  match s with
  | "" => false
  | String c "" => Ascii.eqb c "/"
  | String _ s' => ends_with_sep s'
  end.
Definition path_join (path b : string) : string :=
  if starts_with_sep b then b
  else if (String.eqb path "" || ends_with_sep path)%bool then path +:+ b
  else path +:+ "/" +:+ b.

Section Notebook.

(** A cell and the metadata of a notebook are JSON objects the plugin never
    looks into. *)
Context {Cell Meta : Type}.

Record NotebookNode : Type := mkNotebookNode {
  cells : list Cell;
  metadata : Meta;
  nbformat : Z;
  nbformat_minor : Z
}.

(** The resources of a conversion; the plugin reads
    [resources['inlining']['css']]. *)
Record Resources : Type := mkResources {
  inlining_css : list string
}.

(** *** SubCell *)

(** The traits of a [SubCell]: a [SliceIndex] is an integer or [None]. *)
Record SubCell : Type := mkSubCell {
  sc_start : option Z;
  sc_end : option Z
}.

(** Notebook and resources objects are mutable and passed by reference. A
    notebook object owns its cells: the model holds them by value, so a
    deep copy of a notebook is a new object with an equal record. *)
Inductive obj : Type :=
| ONotebook (nb : NotebookNode)
| OResources (r : Resources).

Definition deepcopy (o : obj) (h : gmap Py.loc obj) : Py.loc * gmap Py.loc obj :=
  Py.alloc o h.

(** [SubCell.preprocess(self, nb, resources)] *)
Definition preprocess (self : SubCell) (nb resources : Py.loc)
    (h : gmap Py.loc obj) : Py.result (Py.loc * Py.loc) * gmap Py.loc obj :=
  match h !! nb with
  | Some o =>
      let '(nbc, h1) := deepcopy o h in
      match h1 !! nbc with
      | Some (ONotebook node) =>
          let sliced := Py.slice_list (sc_start self) (sc_end self) (cells node) in
          let node' := mkNotebookNode sliced (metadata node) (nbformat node)
                         (nbformat_minor node) in
          (Py.Ok (nbc, resources), <[nbc := ONotebook node']> h1)
      | _ => (Py.Raise (Py.AttributeError "cells"), h1)
      end
  | None => (Py.Raise (Py.AttributeError "cells"), h)
  end.

(** *** The tag handler *)

(** The configuration given to the exporter. *)
Record ExportConfig : Type := mkExportConfig {
  highlight_class : string;
  SubCell_start : Z;
  SubCell_end : option Z;
  template_file : string;
  highlight_language : option string
}.

Record CompletedProcess : Type := mkCompletedProcess {
  returncode : Z;
  stdout : string
}.

(** What the handler asks of the world outside, in the order it asks. *)
Inductive event : Type :=
| PathExists (path : string)
| ReadNotebook (path : string)
| FromNotebookNode (c : ExportConfig) (nb : NotebookNode)
| SubprocessRun (args : list string) (input : string)
| StashStore (content : string) (safe : bool).

(** The collaborators: each answer may depend on everything that happened
    before. [read_notebook] is [open], [read] and [nbformat.reads];
    [from_notebook_node] is the HTML exporter; [subprocess_run] raises when
    the program cannot be started. *)
Record Collaborators : Type := mkCollaborators {
  os_path_exists : list event -> string -> bool;
  read_notebook : list event -> string -> Py.result NotebookNode;
  from_notebook_node :
    list event -> ExportConfig -> NotebookNode -> Py.result (string * Resources);
  subprocess_run : list event -> list string -> string -> Py.result CompletedProcess;
  htmlStash_store : list event -> string -> bool -> string
}.

Variable env : Collaborators.
(** The contents of css_include.css and js_include.html, read when the
    module is imported. *)
Variables CSS_INCLUDE JS_INCLUDE : string.

Definition css_error : Py.exn :=
  Py.Exception ("Failed to process notebook CSS. Is less installed?"
                +:+ "Specifically, can you run " +:+ String Py.dquote "lessc --version"
                +:+ String Py.dquote "?").

(** The local function [run(args)] of [notebook]. *)
Definition run_less (css_as_less : string) (args : list string) (hist : list event)
    : Py.result CompletedProcess * list event :=
  (subprocess_run env hist args css_as_less,
   (hist ++ [SubprocessRun args css_as_less])%list).

(** Lines 161 to 169: the compilation of the LESS text, with its second
    attempt. The result is [process.stdout]. *)
Definition compile_css (css_as_less : string) (hist : list event)
    : Py.result string * list event :=
  let less_args := ["lessc"; "-"; "--clean-css"] in
  match run_less css_as_less less_args hist with
  | (Py.Raise e, hist1) => (Py.Raise e, hist1)
  | (Py.Ok process, hist1) =>
      let second :=
        if (returncode process =? 0)%Z then (Py.Ok process, hist1)
        else run_less css_as_less (removelast less_args) hist1 in
      match second with
      | (Py.Raise e, hist2) => (Py.Raise e, hist2)
      | (Py.Ok process, hist2) =>
          if (negb (returncode process =? 0)%Z || String.eqb (stdout process) "")%bool
          then (Py.Raise css_error, hist2)
          else (Py.Ok (stdout process), hist2)
      end
  end.

(** Lines 118 to 177: what [notebook] does with parsed arguments. *)
Definition render_notebook (preprocessor : _LiquidTagsPreprocessor) (a : Args) (hist : list event)
    : Py.result string * list event :=
  match getConfig (configs preprocessor) "NOTEBOOK_DIR", src a with
  | Py.VStr nb_dir, Some src =>
      let nb_path := path_join (path_join "content" nb_dir) src in
      let found := os_path_exists env hist nb_path in
      let hist := (hist ++ [PathExists nb_path])%list in
      if negb found
      then (Py.Raise (Py.ValueError ("File " +:+ nb_path +:+ " could not be found")), hist)
      else
        let c := mkExportConfig ".highlight-ipynb" (start a) (end_ a)
                   "pelican_basic" (language a) in
        let nb := read_notebook env hist nb_path in
        let hist := (hist ++ [ReadNotebook nb_path])%list in
        match nb with
        | Py.Raise e => (Py.Raise e, hist)
        | Py.Ok nb_json =>
            let out := from_notebook_node env hist c nb_json in
            let hist := (hist ++ [FromNotebookNode c nb_json])%list in
            match out with
            | Py.Raise e => (Py.Raise e, hist)
            | Py.Ok (body, resources) =>
                let resource_css :=
                  Py.join Py.nl (inlining_css resources ++ [CSS_INCLUDE])%list in
                let css_as_less :=
                  "div#" +:+ WRAPPER_ID +:+ " { " +:+ resource_css +:+ " }" in
                match compile_css css_as_less hist with
                | (Py.Raise e, hist) => (Py.Raise e, hist)
                | (Py.Ok process_stdout, hist) =>
                    let scoped_css := CSS_WRAPPER_format process_stdout in
                    let augmented_body :=
                      Py.join Py.nl [scoped_css; body; JS_INCLUDE] in
                    (Py.Ok (htmlStash_store env hist augmented_body true),
                     (hist ++ [StashStore augmented_body true])%list)
                end
            end
        end
  | _, _ => (Py.Raise (Py.TypeError "expected str, bytes or os.PathLike object"), hist)
  end.

(** [notebook(preprocessor, tag, markup)], registered for the tag
    [notebook]. *)
Definition notebook (preprocessor : _LiquidTagsPreprocessor) (tag markup : string)
    (hist : list event) : Py.result string * list event :=
  match notebook_args markup with
  | Py.Raise e => (Py.Raise e, hist)
  | Py.Ok a => render_notebook preprocessor a hist
  end.

End Notebook.

End Notebook.

(** ** notebook.py: the highlighter *)

(** [s.startswith(p)], written with the prefix first. *)
Fixpoint starts_with (p s : string) : bool :=
  match p, s with
  | "", _ => true
  | String a p', String b s' => Ascii.eqb a b && starts_with p' s'
  | _, _ => false
  end.

(** [custom_highlighter] and the [str.replace] it ends with. *)
Module Highlighter.

(** [s.replace(old, new)] for a non-empty [old]: the occurrences of [old]
    are found from left to right and do not overlap. [skip] counts the
    characters of [s] that belong to the occurrence just replaced. *)
Fixpoint replace_from (old new : string) (skip : nat) (s : string) : string :=
  match s with
  | "" => ""
  | String c s' =>
      match skip with
      | S k => replace_from old new k s'
      | O =>
          if starts_with old s
          then new +:+ replace_from old new (String.length old - 1) s'
          else String c (replace_from old new 0 s')
      end
  end.

Definition replace (old new s : string) : string := replace_from old new 0 s.

Definition pre_ipynb : string :=
  "<pre class=" +:+ String Py.dquote "ipynb" +:+ String Py.dquote ">".

Section Highlighter.

(** [_pygments_highlight(source, formatter, language)] of nbconvert, as a
    function of the source, the CSS class of the formatter and the
    language; it raises for a language that has no lexer. *)
Variable _pygments_highlight : string -> string -> string -> Py.result string.

(** [custom_highlighter(source, language, metadata)]; the metadata are not
    used. *)
Definition custom_highlighter (source : string) (language : option string)
    : Py.result string :=
  let cssclass := "highlight-ipynb" in
  let language := if Notebook.truthy language then default "" language else "ipython" in
  Py.bind (_pygments_highlight source cssclass language)
    (fun output => Py.Ok (replace "<pre>" pre_ipynb output)).

End Highlighter.

End Highlighter.

(** * Vocabulary of the properties *)

(** ** Lines and the reassembly rule *)

Fixpoint contains_char (c : ascii) (s : string) : bool :=
  match s with
  | "" => false
  | String a s' => Ascii.eqb a c || contains_char c s'
  end.

Definition no_newline (s : string) : Prop :=
  contains_char Py.newline s = false.

(** The reassembly rule in the words of the specification: segment 0, then
    replacement 0, then segment 1, ..., then the last segment. *)
Fixpoint alternating (segments replacements : list string) : string :=
  match segments with
  | [] => ""
  | seg :: segs =>
      match replacements with
      | [] => seg
      | rep :: reps => seg +:+ rep +:+ alternating segs reps
      end
  end.

(** ** Tag spans and their replacements *)

Section Spans.
Import MdxLiquidTags.
Context {World : Type}.
Implicit Types (self : _LiquidTagsPreprocessor) (w : World) (span : string).
Implicit Types (_tags : gmap string (handler World)).

(** The parts of a tag span, after the data model of the specification:
    the text between the delimiters, its first token, and the rest with the
    surrounding white space removed. *)
Definition span_body (span : string) : string :=
  Py.slice_str (Some 2%Z) (Some (-2)%Z) span.

Definition span_tag (span : string) : option string :=
  match Re.match_ EXTRACT_TAG (span_body span) with
  | Some m => Re.group m 1
  | None => None
  end.

Definition span_argument (span : string) : string :=
  Py.strip (Re.sub_empty_once EXTRACT_TAG (span_body span)).

(** A span whose tag name is extracted and is not in the registry. *)
Definition unregistered _tags span : Prop :=
  exists tag, span_tag span = Some tag /\ _tags !! tag = None.

(** The replacements of a list of spans, first to last: a registered tag
    calls its handler in the state the earlier handlers left, and its
    return value replaces the span; an unregistered tag leaves the span. *)
Inductive replaced self _tags : list string -> World -> list string -> World -> Prop :=
| replaced_nil w :
    replaced self _tags [] w [] w
| replaced_registered span spans tag func rep reps w w1 w2 :
    span_tag span = Some tag ->
    _tags !! tag = Some func ->
    func self tag (span_argument span) w = (Py.Ok rep, w1) ->
    replaced self _tags spans w1 reps w2 ->
    replaced self _tags (span :: spans) w (rep :: reps) w2
| replaced_unregistered span spans tag reps w w2 :
    span_tag span = Some tag ->
    _tags !! tag = None ->
    replaced self _tags spans w reps w2 ->
    replaced self _tags (span :: spans) w (span :: reps) w2.

End Spans.



(** ** Texts of the notebook tag *)

(** [str(z)]: the decimal numeral of an integer, the way the author of a
    tag writes a bound. *)
Definition str_int (z : Z) : string := NilZero.string_of_int (Z.to_int z).

(** The text of a bound of [cells[start:end]]: a numeral, or nothing. *)
Definition bound_text (o : option Z) : string :=
  match o with
  | Some z => str_int z
  | None => ""
  end.

Fixpoint all_chars (p : ascii -> bool) (s : string) : bool :=
  match s with
  | "" => true
  | String c s' => p c && all_chars p s'
  end.

(** [s] is empty or begins with a character outside the class [p]. *)
Definition stops_at (p : ascii -> bool) (s : string) : bool :=
  match s with
  | "" => true
  | String c _ => negb (p c)
  end.

(** A path as [FORMAT] takes it: one token without white space. *)
Definition path_token (s : string) : Prop :=
  s <> "" /\ all_chars MdxLiquidTags.nonspace s = true.

(** The texts of [-?[0-9]*]. *)
Definition signed_digits (s : string) : Prop :=
  exists ds, all_chars Py.isdigit ds = true /\ (s = ds \/ s = "-" +:+ ds).

Definition bound_end (c : ascii) : bool := Py.isdigit c || Ascii.eqb "-" c.

(** ** Inputs of the examples *)

Section Examples.
Import MdxLiquidTags.

(** A preprocessor whose extension has the default configuration. *)
Definition a_preprocessor : _LiquidTagsPreprocessor :=
  mkPreprocessor (mkLiquidTags default_config).

(** Two handlers that record their call in the state, a list of calls. *)
Definition shout : handler (list (string * string)) :=
  fun _ tag markup calls => (Py.Ok ("<" +:+ tag +:+ ":" +:+ markup +:+ ">"),
                             calls ++ [(tag, markup)])%list.
Definition hush : handler (list (string * string)) :=
  fun _ tag markup calls => (Py.Ok "", calls ++ [(tag, markup)])%list.

Definition two_tags : gmap string (handler (list (string * string))) :=
  {[ "a" := shout; "b" := hush ]}.

(** A handler that fails, as [notebook] does for a file that is missing. *)
Definition boom : handler (list (string * string)) :=
  fun _ tag markup calls =>
    (Py.Raise (Py.ValueError ("File " +:+ markup +:+ " could not be found")),
     calls ++ [(tag, markup)])%list.

Definition failing_tags : gmap string (handler (list (string * string))) :=
  {[ "a" := shout; "boom" := boom ]}.

End Examples.

Section InstallExamples.
Import LiquidTagsPlugin.

(** A generator whose settings object, at location 0, is an empty
    dictionary. *)
Definition a_generator : Generator := mkGenerator 0.
Definition empty_settings : gmap Py.loc obj := {[ 0 := ODict ∅ ]}.

(** A generator whose settings already name two extensions under
    ['MARKDOWN']. *)
Definition markdown_settings : gmap Py.loc obj :=
  {[ 0 := ODict {[ "MARKDOWN" := Py.VRef 1 ]};
     1 := ODict {[ "extensions" := Py.VRef 2 ]};
     2 := OList [Py.VStr "markdown.extensions.extra"; Py.VStr "markdown.extensions.meta"] ]}.

End InstallExamples.

Section NotebookExamples.
Import Notebook.

(** Collaborators for the examples: every path exists, the notebook read
    has three cells, the exporter returns a fixed body and one style sheet,
    [lessc] fails with the clean-css plugin and succeeds without it, and the
    stash answers with one token. *)
Definition three_cells : @NotebookNode string unit :=
  mkNotebookNode ["c0"; "c1"; "c2"] tt 4 2.

Definition lessc_without_plugin (args : list string) : CompletedProcess :=
  if (length args =? 3)%nat then mkCompletedProcess 1 ""
  else mkCompletedProcess 0 "div#nb-wrapper p{margin:0}".

Definition some_collaborators : @Collaborators string unit :=
  mkCollaborators
    (fun _ _ => true)
    (fun _ _ => Py.Ok three_cells)
    (fun _ _ _ => Py.Ok ("<div>body</div>", mkResources ["p { margin: 0 }"]))
    (fun _ args _ => Py.Ok (lessc_without_plugin args))
    (fun hist _ _ => "token").

(** The two command lines of the compilation step. *)
Definition first_attempt {Cell Meta : Type} (css : string) : @event Cell Meta :=
  SubprocessRun ["lessc"; "-"; "--clean-css"] css.
Definition second_attempt {Cell Meta : Type} (css : string) : @event Cell Meta :=
  SubprocessRun ["lessc"; "-"] css.

(** A heap with a notebook at location 0 and its resources at location 1. *)
Definition a_heap : gmap Py.loc (@obj string unit) :=
  {[ 0 := ONotebook three_cells; 1 := OResources (mkResources []) ]}.

End NotebookExamples.

(** ** Pages made of plain texts and spans *)

(** [pat not in s]: no occurrence of [pat] begins anywhere in [s]. *)
Fixpoint free_of (pat s : string) : bool :=
  match s with
  | "" => true
  | String c s' => negb (starts_with pat s) && free_of pat s'
  end.

(** A span with its delimiters, and the spans that [LIQUID_TAG] matches:
    the body ends before the first closing delimiter. *)
Definition tag_span (body : string) : string := "{%" +:+ body +:+ "%}".

Definition well_formed_span (span : string) : Prop :=
  exists body, span = tag_span body /\ free_of "%}" body = true.

(** The page made of plain texts and spans in turn, then a last plain
    text. *)
Fixpoint assemble (pieces : list (string * string)) (last : string) : string :=
  match pieces with
  | [] => last
  | (seg, span) :: ps => seg +:+ span +:+ assemble ps last
  end.

(** A piece of such a page: a plain text without [{%], then a span. *)
Definition plain_piece (p : string * string) : Prop :=
  free_of "{%" p.1 = true /\ well_formed_span p.2.

(** The longest beginning of a text within a class, and what follows it. *)
Fixpoint take_while (p : ascii -> bool) (s : string) : string :=
  match s with
  | "" => ""
  | String c s' => if p c then String c (take_while p s') else ""
  end.

Fixpoint drop_while (p : ascii -> bool) (s : string) : string :=
  match s with
  | "" => ""
  | String c s' => if p c then drop_while p s' else s
  end.

(** The continuation of the lazy repetition of [LIQUID_TAG]: the closing
    delimiter, then the end of the match. *)
Definition close_k : Re.cont :=
  fun p r g' => Re.exec (Re.Cat (Re.Lit "%") (Re.Lit "}")) p r g'
                  (fun e _ g => Some (e, g)).

(** ** Registrations and options *)

Section RegistrationVocabulary.
Import MdxLiquidTags.

(** The decorator applied to each pair of a list, first to last. *)
Definition register_all {World : Type} (regs : list (string * handler World))
    (st : gmap string (handler World) * list string)
    : gmap string (handler World) * list string :=
  fold_left (fun st reg => (register reg.1 reg.2 st).2) regs st.

(** What holds of the options set so far, while the constructor goes
    through the given ones. *)
Definition init_inv (m : gmap string Py.value)
    (r : Py.result (gmap string (Py.value * string))) : Prop :=
  match r with
  | Py.Ok c =>
      (forall k, is_Some (m !! k) -> k = "NOTEBOOK_DIR")
      /\ c = {[ "NOTEBOOK_DIR" :=
                  (default (Py.VStr "notebooks") (m !! "NOTEBOOK_DIR"),
                   "Notebook directory for notebook subplugin") ]}
  | Py.Raise (Py.KeyError k) => is_Some (m !! k) /\ k <> "NOTEBOOK_DIR"
  | Py.Raise _ => False
  end.

End RegistrationVocabulary.

(** ** The objects of the settings *)

Section InstallationVocabulary.
Import LiquidTagsPlugin.

(** The list object [l] is the extensions list that a reader of the
    settings finds. *)
Definition reads_ext_list (gen : Generator) (h : gmap Py.loc obj) (l : Py.loc) : Prop :=
  exists st,
    h !! settings gen = Some (ODict st)
    /\ ((exists m conf,
           st !! "MARKDOWN" = Some (Py.VRef m)
           /\ h !! m = Some (ODict conf)
           /\ conf !! "extensions" = Some (Py.VRef l))
        \/ (st !! "MARKDOWN" = None /\ st !! "MD_EXTENSIONS" = Some (Py.VRef l))).

(** What a call may do to an object: at most one more element at the end
    of a list, at most more keys in a dictionary; an instance stays an
    instance, with the options that the dictionary of the class holds after
    the call. *)
Definition grown (o o' : obj) : Prop :=
  match o with
  | OLiquidTags _ => exists ext', o' = OLiquidTags ext'
  | OList items => o' = OList items \/ exists i, o' = OList (items ++ [Py.VRef i])
  | ODict d => exists d', o' = ODict d' /\ d ⊆ d'
  end.

(** The options of an instance made when the setting [NOTEBOOK_DIR] was
    ['x'], and those of one made when it is ['y']. *)
Definition dir_x : MdxLiquidTags.LiquidTags :=
  MdxLiquidTags.mkLiquidTags
    {[ "NOTEBOOK_DIR" := (Py.VStr "x", "Notebook directory for notebook subplugin") ]}.
Definition dir_y : MdxLiquidTags.LiquidTags :=
  MdxLiquidTags.mkLiquidTags
    {[ "NOTEBOOK_DIR" := (Py.VStr "y", "Notebook directory for notebook subplugin") ]}.

(** Settings whose extensions list holds an instance made when
    [NOTEBOOK_DIR] was ['x']; the setting is ['y'] now. *)
Definition changed_settings : gmap Py.loc obj :=
  {[ 0 := ODict {[ "MARKDOWN" := Py.VRef 1; "NOTEBOOK_DIR" := Py.VStr "y" ]};
     1 := ODict {[ "extensions" := Py.VRef 2 ]};
     2 := OList [Py.VRef 3];
     3 := OLiquidTags dir_x ]}.

(** Settings without an extensions list, beside an instance that was made
    for other settings. *)
Definition bare_settings : gmap Py.loc obj :=
  {[ 0 := ODict {[ "NOTEBOOK_DIR" := Py.VStr "y" ]};
     3 := OLiquidTags dir_x ]}.

(** Settings whose deprecated extensions list names the class itself. *)
Definition class_settings : gmap Py.loc obj :=
  {[ 0 := ODict {[ "MD_EXTENSIONS" := Py.VRef 1 ]};
     1 := OList [Py.VStr "markdown.extensions.extra"; Py.VClass "LiquidTags"] ]}.

End InstallationVocabulary.

(** Settings that [addLiquidTags] can work on: what is found under
    ['MARKDOWN'] is a dictionary whose ['extensions'], when present, is a
    list, and without ['MARKDOWN'] what is found under ['MD_EXTENSIONS'] is
    a list. *)
Definition usable_settings (st : gmap string Py.value)
    (h : gmap Py.loc LiquidTagsPlugin.obj) : Prop :=
  match st !! "MARKDOWN" with
  | Some v =>
      exists m conf,
        v = Py.VRef m /\ h !! m = Some (LiquidTagsPlugin.ODict conf)
        /\ match conf !! "extensions" with
           | Some v' => exists l items,
               v' = Py.VRef l /\ h !! l = Some (LiquidTagsPlugin.OList items)
           | None => True
           end
  | None =>
      match st !! "MD_EXTENSIONS" with
      | Some v' => exists l items,
          v' = Py.VRef l /\ h !! l = Some (LiquidTagsPlugin.OList items)
      | None => True
      end
  end.

(** ** The clauses of the notebook tag *)

(** The two optional clauses of the argument text of the notebook tag. *)
Definition cells_clause (c : option (string * string)) : string :=
  match c with
  | Some (A, B) => "cells[" +:+ A +:+ ":" +:+ B +:+ "]"
  | None => ""
  end.

Definition language_clause (l : option string) : string :=
  match l with
  | Some X => "language[" +:+ X +:+ "]"
  | None => ""
  end.

(** The text of a cells clause with integer bounds. *)
Definition cell_range_text (c : option (option Z * option Z)) : option (string * string) :=
  (fun ab => (bound_text ab.1, bound_text ab.2)) <$> c.

(** The span that an optional group of white space records. *)
Definition gap_span (n pos : nat) (gap : string) (g : gmap nat (nat * nat))
    : gmap nat (nat * nat) :=
  match gap with
  | "" => g
  | _ => <[n := (pos, pos + String.length gap)]> g
  end.

(** ** Requests of the notebook handler *)

(** A request to the HTML stash. *)
Definition is_stash {Cell Meta : Type} (ev : @Notebook.event Cell Meta) : bool :=
  match ev with
  | Notebook.StashStore _ _ => true
  | _ => false
  end.

(** A history without a request to the stash. *)
Definition no_stash {Cell Meta : Type} (evs : list (@Notebook.event Cell Meta)) : Prop :=
  Forall (fun ev => is_stash ev = false) evs.

(** The path that the handler looks for, for a directory name that is
    relative and has no trailing separator. *)
Definition notebook_path (nb_dir src : string) : string :=
  if Notebook.starts_with_sep src then src
  else "content/" +:+ nb_dir +:+ "/" +:+ src.

(** The text given to the LESS compiler and the HTML that is stored. *)
Definition less_input (CSS_INCLUDE : string) (css : list string) : string :=
  "div#" +:+ Notebook.WRAPPER_ID +:+ " { "
    +:+ Py.join Py.nl (css ++ [CSS_INCLUDE])%list +:+ " }".

Definition stored_html (JS_INCLUDE out body : string) : string :=
  Py.join Py.nl [Notebook.CSS_WRAPPER_format out; body; JS_INCLUDE].

(** Collaborators that find no file, and collaborators without [lessc]. *)
Definition no_files : @Notebook.Collaborators string unit :=
  Notebook.mkCollaborators
    (fun _ _ => false)
    (fun _ _ => Py.Raise (Py.OSError "No such file or directory"))
    (fun _ _ _ => Py.Ok ("", Notebook.mkResources []))
    (fun _ args _ => Py.Ok (lessc_without_plugin args))
    (fun _ _ _ => "token").

Definition no_lessc : @Notebook.Collaborators string unit :=
  Notebook.mkCollaborators
    (fun _ _ => true)
    (fun _ _ => Py.Ok three_cells)
    (fun _ _ _ => Py.Ok ("<div>body</div>", Notebook.mkResources ["p { margin: 0 }"]))
    (fun _ _ _ => Py.Raise (Py.OSError "No such file or directory: 'lessc'"))
    (fun _ _ _ => "token").

(** A highlighter for the examples: the source in a [pre] element. *)
Definition plain_highlight (source cssclass language : string) : Py.result string :=
  Py.Ok ("<div class=" +:+ cssclass +:+ "><pre>" +:+ source +:+ "</pre></div>").

(** A page with one notebook tag between two lines. *)
Definition a_page : list string :=
  ["Intro"; "{% notebook nb.ipynb cells[1:2] %}"; "Outro"].

(** ** The texts of a pattern *)

(** The texts of a repetition: pieces in turn, none of them empty, each at
    the position where the piece before it ended. *)
Inductive repeated (P : nat -> string -> string -> Prop) : nat -> string -> string -> Prop :=
| repeated_nil (pos : nat) (v : string) : repeated P pos "" v
| repeated_cons (pos : nat) (u1 u2 v : string) :
    u1 <> "" -> P pos u1 (u2 +:+ v) ->
    repeated P (pos + String.length u1) u2 v ->
    repeated P pos (u1 +:+ u2) v.

(** [denotes r pos u v]: the text [u] is one that the pattern [r] stands
    for, at position [pos] of a subject that goes on with [v] after it. *)
Fixpoint denotes (r : Re.regex) (pos : nat) (u v : string) : Prop :=
  match r with
  | Re.Eps => u = ""
  | Re.Chr p => exists c, u = String c "" /\ p c = true
  | Re.Cat r1 r2 =>
      exists u1 u2, u = u1 +:+ u2 /\ denotes r1 pos u1 (u2 +:+ v)
                    /\ denotes r2 (pos + String.length u1) u2 v
  | Re.Opt r1 => denotes r1 pos u v \/ u = ""
  | Re.Star r1 => repeated (denotes r1) pos u v
  | Re.LazyStar r1 => repeated (denotes r1) pos u v
  | Re.Group _ r1 => denotes r1 pos u v
  | Re.Bol => u = "" /\ pos = 0
  | Re.Eol => u = "" /\ (v = "" \/ v = String Py.newline "")
  end.

(** The argument texts of the notebook tag, as a grammar: a path, then an
    optional cells clause and an optional language clause, with white space
    allowed before and after each part. A path is any run of characters
    that are not white space; a bound of the cells clause is an optional
    minus sign followed by digits, possibly none; a language is made of the
    characters [a-z0-9+-]. *)
Definition notebook_grammar (markup : string) : Prop :=
  exists (lead src gap1 gap2 gap3 : string) (c : option (string * string))
         (l : option string),
    markup = lead +:+ src +:+ gap1 +:+ cells_clause c +:+ gap2
               +:+ language_clause l +:+ gap3
    /\ all_chars Py.isspace lead = true
    /\ path_token src
    /\ all_chars Py.isspace gap1 = true
    /\ (forall A B, c = Some (A, B) -> signed_digits A /\ signed_digits B)
    /\ all_chars Py.isspace gap2 = true
    /\ (forall X, l = Some X -> all_chars Notebook.language_char X = true)
    /\ all_chars Py.isspace gap3 = true.

(** * Properties *)

(** ** Strings *)

Lemma sapp_cons (c : ascii) (s t : string) :
  String c s +:+ t = String c (s +:+ t).
Proof. reflexivity. Qed.

Lemma sapp_nil_l (s : string) : "" +:+ s = s.
Proof. reflexivity. Qed.

Lemma sapp_nil_r (s : string) : s +:+ "" = s.
Proof.
  induction s as [|c s IH]; [reflexivity|]. by rewrite sapp_cons, IH.
Qed.

Lemma sapp_assoc (s t u : string) : (s +:+ t) +:+ u = s +:+ (t +:+ u).
Proof.
  induction s as [|c s IH]; [reflexivity|]. by rewrite !sapp_cons, IH.
Qed.

Lemma take_drop (n : nat) (s : string) : Py.take n s +:+ Py.drop n s = s.
Proof.
  revert s. induction n as [|n IH]; intros [|c s]; try reflexivity.
  cbn [Py.take Py.drop]. by rewrite sapp_cons, IH.
Qed.

Lemma join_empty_cons (x : string) (xs : list string) :
  Py.join "" (x :: xs) = x +:+ Py.join "" xs.
Proof. destruct xs; cbn [Py.join]; [by rewrite sapp_nil_r | reflexivity]. Qed.

(** ** Lines: [split] undoes [join], and [join] undoes [split] *)

Lemma split_not_nil (c : ascii) (s : string) : Py.split c s <> [].
Proof.
  induction s as [|a s IH]; cbn; [done|].
  destruct (Ascii.eqb a c); [done|]. by destruct (Py.split c s).
Qed.

Lemma join_split (s : string) : Py.join Py.nl (Py.split Py.newline s) = s.
Proof.
  induction s as [|a s IH]; [reflexivity|].
  cbn [Py.split]. destruct (Ascii.eqb_spec a Py.newline) as [->|Hne].
  - pose proof (split_not_nil Py.newline s) as Hnn.
    destruct (Py.split Py.newline s) as [|h t] eqn:E; [done|].
    change (Py.join Py.nl ("" :: h :: t)) with (Py.nl +:+ Py.join Py.nl (h :: t)).
    by rewrite IH.
  - pose proof (split_not_nil Py.newline s) as Hnn.
    destruct (Py.split Py.newline s) as [|h t] eqn:E; [done|].
    destruct t as [|h' t].
    + cbn in IH. cbn. by rewrite IH.
    + change (Py.join Py.nl (String a h :: h' :: t))
        with (String a (h +:+ Py.nl +:+ Py.join Py.nl (h' :: t))).
      change (Py.join Py.nl (h :: h' :: t))
        with (h +:+ Py.nl +:+ Py.join Py.nl (h' :: t)) in IH.
      by rewrite IH.
Qed.

Lemma no_newline_cons (a : ascii) (s : string) :
  no_newline (String a s) -> a <> Py.newline /\ no_newline s.
Proof.
  unfold no_newline. cbn [contains_char].
  destruct (Ascii.eqb_spec a Py.newline); [done|]. by intros.
Qed.

Lemma split_app_no_newline (l rest : string) :
  no_newline l ->
  Py.split Py.newline (l +:+ Py.nl +:+ rest) = l :: Py.split Py.newline rest.
Proof.
  induction l as [|a l IH]; intros Hl.
  - reflexivity.
  - apply no_newline_cons in Hl as [Ha Hl].
    change (String a l +:+ Py.nl +:+ rest) with (String a (l +:+ Py.nl +:+ rest)).
    cbn [Py.split]. destruct (Ascii.eqb_spec a Py.newline); [done|].
    by rewrite IH.
Qed.

Lemma split_no_newline (l : string) :
  no_newline l -> Py.split Py.newline l = [l].
Proof.
  induction l as [|a l IH]; intros Hl; [reflexivity|].
  apply no_newline_cons in Hl as [Ha Hl].
  cbn [Py.split]. destruct (Ascii.eqb_spec a Py.newline); [done|].
  by rewrite IH.
Qed.

Lemma split_join (lines : list string) :
  lines <> [] -> Forall no_newline lines ->
  Py.split Py.newline (Py.join Py.nl lines) = lines.
Proof.
  induction lines as [|l lines IH]; [done|]. intros _ Hall.
  apply Forall_cons in Hall as [Hl Hall].
  destruct lines as [|l' lines].
  - cbn. by apply split_no_newline.
  - change (Py.join Py.nl (l :: l' :: lines))
      with (l +:+ Py.nl +:+ Py.join Py.nl (l' :: lines)).
    rewrite split_app_no_newline by done. f_equal. by apply IH.
Qed.

(** ** Scanning: segments and spans partition the text *)

Lemma scan_rebuild (r : Re.regex) (fuel pos : nat) (rest seg : string) :
  alternating ((Re.scan r fuel pos rest seg).1.*1 ++ [(Re.scan r fuel pos rest seg).2])
              (Re.scan r fuel pos rest seg).1.*2
  = seg +:+ rest.
Proof.
  revert pos rest seg. induction fuel as [|fuel IH]; intros pos rest seg.
  - reflexivity.
  - cbn [Re.scan].
    assert (Hskip :
      let sk := match rest with
                | "" => ([], seg)
                | String c rest' => Re.scan r fuel (S pos) rest' (seg +:+ String c "")
                end in
      alternating (sk.1.*1 ++ [sk.2]) sk.1.*2 = seg +:+ rest).
    { destruct rest as [|c rest']; cbn zeta.
      - cbn. by rewrite sapp_nil_r.
      - rewrite IH. by rewrite sapp_assoc. }
    destruct (Re.exec_at r pos rest) as [[e g]|]; [|exact Hskip].
    destruct (pos <? e)%nat; [|exact Hskip].
    specialize (IH e (Py.drop (e - pos) rest) "").
    destruct (Re.scan r fuel e (Py.drop (e - pos) rest) "") as [ms last].
    cbn in IH |- *. rewrite IH. by rewrite take_drop.
Qed.

Lemma split_findall_rebuild (r : Re.regex) (s : string) :
  alternating (Re.split r s) (Re.findall r s) = s.
Proof. unfold Re.split, Re.findall, Re.scan_all. by rewrite scan_rebuild. Qed.

Lemma split_findall_length (r : Re.regex) (s : string) :
  length (Re.split r s) = S (length (Re.findall r s)).
Proof.
  unfold Re.split, Re.findall. rewrite length_app, !length_fmap. cbn. lia.
Qed.

Lemma findall_nil_split (r : Re.regex) (s : string) :
  Re.findall r s = [] -> Re.split r s = [s].
Proof.
  intros H. pose proof (split_findall_rebuild r s) as Hr.
  pose proof (split_findall_length r s) as Hl. rewrite H in Hr, Hl.
  destruct (Re.split r s) as [|seg [|] ]; cbn in Hl; try lia.
  cbn in Hr. by rewrite Hr.
Qed.

Lemma zip_chain_alternating (segs reps : list string) :
  length segs = S (length reps) ->
  Py.join "" (Py.zip_chain segs (reps ++ [""])) = alternating segs reps.
Proof.
  revert segs. induction reps as [|rep reps IH]; intros [|seg segs] Hlen;
    cbn in Hlen; try lia.
  - destruct segs; [|cbn in Hlen; lia].
    cbn [app Py.zip_chain alternating]. by rewrite !join_empty_cons, sapp_nil_r.
  - cbn [app Py.zip_chain alternating]. rewrite !join_empty_cons, IH by lia.
    reflexivity.
Qed.

(** ** The matcher on sample texts

    The results are those of Python's [re] on the same patterns and
    texts. *)

Example findall_sample :
  Re.findall MdxLiquidTags.LIQUID_TAG "ab{% x y %}cd{%%}{%}%}e{%"
  = ["{% x y %}"; "{%%}"; "{%}%}"].
Proof. vm_compute. reflexivity. Qed.

Example split_sample :
  Re.split MdxLiquidTags.LIQUID_TAG "ab{% x y %}cd{%%}{%}%}e{%"
  = ["ab"; "cd"; ""; "e{%"].
Proof. vm_compute. reflexivity. Qed.

Example findall_nested :
  Re.findall MdxLiquidTags.LIQUID_TAG "{%{% a %}%}" = ["{%{% a %}"]
  /\ Re.split MdxLiquidTags.LIQUID_TAG "{%{% a %}%}" = [""; "%}"].
Proof. split; vm_compute; reflexivity. Qed.

Example extract_tag_sample :
  Re.group (default (Re.mkMatch "" 0 0 ∅)
              (Re.match_ MdxLiquidTags.EXTRACT_TAG " a  1 2  ")) 1 = Some "a"
  /\ Re.sub_empty_once MdxLiquidTags.EXTRACT_TAG " a  1 2  " = "1 2  "
  /\ Re.match_ MdxLiquidTags.EXTRACT_TAG " " = None
  /\ Re.sub_empty_once MdxLiquidTags.EXTRACT_TAG " " = " ".
Proof. repeat split; vm_compute; reflexivity. Qed.

Example format_sample :
  Notebook.notebook_args " nb  cells[1:2]language[c++] "
    = Py.Ok (Notebook.mkArgs (Some "nb") 1 (Some 2%Z) (Some "c++"))
  /\ Notebook.notebook_args "nbcells[1:2]"
    = Py.Ok (Notebook.mkArgs (Some "nbcells[1:2]") 0 None None)
  /\ Notebook.notebook_args "nb cells[1:2]x" = Py.Raise Notebook.syntax_error
  /\ Notebook.notebook_args "a b c" = Py.Raise Notebook.syntax_error
  /\ Notebook.notebook_args "nb cells[-:5]" = Py.Raise (Py.int_error "-").
Proof. repeat split; vm_compute; reflexivity. Qed.

Example slice_sample :
  Py.slice_list (Some (-2)%Z) None [1; 2; 3; 4] = [3; 4]
  /\ Py.slice_list (Some 1%Z) (Some (-1)%Z) [1; 2; 3; 4] = [2; 3]
  /\ Py.slice_list (Some (-20)%Z) (Some 10%Z) [1; 2; 3; 4] = [1; 2; 3; 4]
  /\ Py.slice_list (Some 3%Z) (Some 1%Z) [1; 2; 3; 4] = []
  /\ Py.slice_str (Some 2%Z) (Some (-2)%Z) "{% x %}" = " x "
  /\ Py.slice_str (Some 2%Z) (Some (-2)%Z) "{%%}" = "".
Proof. repeat split; vm_compute; reflexivity. Qed.

(** ** Decimal numerals *)

Lemma digits_value_acc (u : Decimal.uint) (p : positive) :
  Py.digits_value (Zpos p) (NilEmpty.string_of_uint u)
  = Some (Zpos (Pos.of_uint_acc u p)).
Proof.
  revert p. induction u; intros p; cbn [NilEmpty.string_of_uint Py.digits_value Pos.of_uint_acc];
    [reflexivity|..];
    change (Py.isdigit _) with true; cbv iota; rewrite <- IHu; f_equal;
    match goal with
    | |- context [Z.of_nat ?x] =>
        let v := eval vm_compute in (Z.of_nat x) in change (Z.of_nat x) with v
    end; lia.
Qed.

Lemma digits_value_uint (u : Decimal.uint) :
  Py.digits_value 0 (NilEmpty.string_of_uint u) = Some (Z.of_N (Pos.of_uint u)).
Proof.
  induction u; cbn [NilEmpty.string_of_uint Py.digits_value Pos.of_uint];
    [reflexivity|..]; change (Py.isdigit _) with true; cbv iota;
    [exact IHu|..]; cbn [Z.of_N]; rewrite <- digits_value_acc; f_equal.
Qed.

Lemma all_digits_uint (u : Decimal.uint) :
  all_chars Py.isdigit (NilEmpty.string_of_uint u) = true.
Proof. induction u; cbn [NilEmpty.string_of_uint all_chars]; [reflexivity|..]; exact IHu. Qed.

Lemma string_of_uint_nonnil (u : Decimal.uint) :
  u <> Decimal.Nil ->
  exists c s, NilEmpty.string_of_uint u = String c s /\ Py.isdigit c = true.
Proof. destruct u; [done|..]; intros _; cbn; eauto. Qed.

Lemma str_int_shape (z : Z) :
  exists c ds, all_chars Py.isdigit (String c ds) = true
    /\ Py.digits_value 0 (String c ds) = Some (Z.abs z)
    /\ str_int z = (if (z <? 0)%Z then "-" else "") +:+ String c ds.
Proof.
  destruct z as [|p|p]; unfold str_int; cbn [Z.to_int NilZero.string_of_int Z.ltb Z.compare Z.abs].
  - exists "0"%char, "". repeat split.
  - pose proof (DecimalPos.Unsigned.to_uint_nonnil p) as Hnn.
    destruct (string_of_uint_nonnil _ Hnn) as (c & s & E & Hc).
    exists c, s. rewrite <- E. split; [apply all_digits_uint|]. split.
    + rewrite digits_value_uint. by rewrite DecimalPos.Unsigned.of_to.
    + unfold NilZero.string_of_uint. by destruct (Pos.to_uint p).
  - pose proof (DecimalPos.Unsigned.to_uint_nonnil p) as Hnn.
    destruct (string_of_uint_nonnil _ Hnn) as (c & s & E & Hc).
    exists c, s. rewrite <- E. split; [apply all_digits_uint|]. split.
    + rewrite digits_value_uint. by rewrite DecimalPos.Unsigned.of_to.
    + unfold NilZero.string_of_uint. by destruct (Pos.to_uint p).
Qed.

Lemma isdigit_not_sign (c : ascii) :
  Py.isdigit c = true -> Ascii.eqb c "-" = false /\ Ascii.eqb c "+" = false
                         /\ Ascii.eqb "-" c = false.
Proof.
  destruct c as [[] [] [] [] [] [] [] []]; vm_compute; intros; try discriminate; auto.
Qed.

Lemma int_str_int (z : Z) : Py.int (str_int z) = Py.Ok z.
Proof.
  destruct (str_int_shape z) as (c & ds & Hall & Hv & ->).
  assert (Hc : Py.isdigit c = true) by (cbn in Hall; by destruct (Py.isdigit c)).
  destruct (isdigit_not_sign c Hc) as (Hm & Hp & _).
  destruct (Z.ltb_spec z 0) as [Hneg|Hpos].
  - change ("-" +:+ String c ds) with (String "-" (String c ds)).
    unfold Py.int. change (Ascii.eqb "-" "-") with true. cbv iota.
    rewrite Hv. f_equal. lia.
  - change ("" +:+ String c ds) with (String c ds).
    unfold Py.int. rewrite Hm, Hp, Hv. f_equal. lia.
Qed.

(** ** The matcher on texts with unknown parts *)

Lemma slength_app (s t : string) :
  String.length (s +:+ t) = String.length s + String.length t.
Proof. induction s as [|c s IH]; [reflexivity|]. rewrite sapp_cons. cbn. by rewrite IH. Qed.

Lemma all_chars_app (p : ascii -> bool) (s t : string) :
  all_chars p (s +:+ t) = all_chars p s && all_chars p t.
Proof.
  induction s as [|c s IH]; [done|]. rewrite sapp_cons. cbn [all_chars].
  by rewrite IH, andb_assoc.
Qed.

Section Matching.
Implicit Types (r : Re.regex) (g : gmap nat (nat * nat)) (k : Re.cont).
Implicit Types (m : nat * gmap nat (nat * nat)).

Lemma exec_Cat r1 r2 pos rest g k :
  Re.exec (Re.Cat r1 r2) pos rest g k
  = Re.exec r1 pos rest g (fun pos' rest' g' => Re.exec r2 pos' rest' g' k).
Proof. reflexivity. Qed.

Lemma exec_Group n r pos rest g k :
  Re.exec (Re.Group n r) pos rest g k
  = Re.exec r pos rest g (fun pos' rest' g' => k pos' rest' (<[n := (pos, pos')]> g')).
Proof. reflexivity. Qed.

Lemma exec_Chr_hit p c rest pos g k :
  p c = true -> Re.exec (Re.Chr p) pos (String c rest) g k = k (S pos) rest g.
Proof. intros H. cbn. by rewrite H. Qed.

Lemma exec_Chr_stop p rest pos g k :
  stops_at p rest = true -> Re.exec (Re.Chr p) pos rest g k = None.
Proof. destruct rest as [|c rest]; cbn; [done|]. by destruct (p c). Qed.

Lemma exec_Opt_skip r pos rest g k :
  Re.exec r pos rest g k = None -> Re.exec (Re.Opt r) pos rest g k = k pos rest g.
Proof. intros H. cbn. by rewrite H. Qed.

Lemma exec_Opt_take r pos rest g k m :
  Re.exec r pos rest g k = Some m -> Re.exec (Re.Opt r) pos rest g k = Some m.
Proof. intros H. cbn. by rewrite H. Qed.

(** A greedy repetition of a class takes a whole run of the class when the
    match can be completed after the run. *)
Lemma star_loop_class p ds rest g k m fuel pos :
  all_chars p ds = true -> stops_at p rest = true ->
  String.length ds < fuel ->
  k (pos + String.length ds) rest g = Some m ->
  Re.star_loop (Re.exec (Re.Chr p)) k fuel pos (ds +:+ rest) g = Some m.
Proof.
  revert fuel pos. induction ds as [|c ds IH]; intros fuel pos Hall Hstop Hfuel Hk.
  - rewrite sapp_nil_l. cbn in Hk. rewrite Nat.add_0_r in Hk.
    destruct fuel as [|fuel]; cbn [Re.star_loop]; [done|].
    by rewrite exec_Chr_stop.
  - cbn in Hall. apply andb_true_iff in Hall as [Hc Hall].
    destruct fuel as [|fuel]; [cbn in Hfuel; lia|].
    rewrite sapp_cons. cbn [Re.star_loop]. rewrite exec_Chr_hit by done.
    assert ((pos <? S pos)%nat = true) as -> by (apply Nat.ltb_lt; lia).
    rewrite (IH fuel (S pos)); [done|done|done|cbn in Hfuel; lia|].
    cbn [String.length] in Hk. by rewrite Nat.add_succ_r in Hk.
Qed.

Lemma exec_Star_class p ds rest g k m pos :
  all_chars p ds = true -> stops_at p rest = true ->
  k (pos + String.length ds) rest g = Some m ->
  Re.exec (Re.Star (Re.Chr p)) pos (ds +:+ rest) g k = Some m.
Proof.
  intros. cbn [Re.exec]. apply star_loop_class; try done.
  rewrite slength_app. lia.
Qed.

(** [\s+] in a group fails where no white space begins. *)
Lemma exec_spaces_stop n rest pos g k :
  stops_at Py.isspace rest = true ->
  Re.exec (Re.Group n Notebook.spaces) pos rest g k = None.
Proof.
  intros H. unfold Notebook.spaces, Re.Plus. rewrite exec_Group, exec_Cat.
  by apply exec_Chr_stop.
Qed.

(** A literal fails on the empty rest. *)
Lemma exec_Str_nil c s pos g k : Re.exec (Re.Str (String c s)) pos "" g k = None.
Proof. reflexivity. Qed.

Lemma exec_Star_stop p rest g k m pos :
  stops_at p rest = true -> k pos rest g = Some m ->
  Re.exec (Re.Star (Re.Chr p)) pos rest g k = Some m.
Proof.
  intros Hstop Hk. apply (exec_Star_class p "" rest); [done..|].
  by rewrite Nat.add_0_r.
Qed.

Lemma exec_Lit_app c rest pos g k :
  Re.exec (Re.Lit c) pos (String c "" +:+ rest) g k = k (S pos) rest g.
Proof. unfold Re.Lit. rewrite sapp_cons, sapp_nil_l. apply exec_Chr_hit, Ascii.eqb_refl. Qed.

Lemma exec_Str s rest pos g k :
  Re.exec (Re.Str s) pos (s +:+ rest) g k = k (pos + String.length s) rest g.
Proof.
  revert pos. induction s as [|c s IH]; intros pos.
  - cbn [Re.Str Re.exec String.length]. by rewrite sapp_nil_l, Nat.add_0_r.
  - cbn [Re.Str String.length]. rewrite exec_Cat, sapp_cons.
    unfold Re.Lit at 1. rewrite exec_Chr_hit by apply Ascii.eqb_refl.
    rewrite IH. by rewrite Nat.add_succ_r.
Qed.

Lemma exec_Bol rest g k : Re.exec Re.Bol 0 rest g k = k 0 rest g.
Proof. reflexivity. Qed.

Lemma exec_Eol_end pos g k : Re.exec Re.Eol pos "" g k = k pos "" g.
Proof. reflexivity. Qed.

Lemma search_hit r s e g :
  Re.exec_at r 0 s = Some (e, g) -> Re.search r s = Some (Re.mkMatch s 0 e g).
Proof. intros H. unfold Re.search. destruct s; cbn [Re.search_from]; by rewrite H. Qed.

End Matching.

(** ** The tag name of a span *)

Lemma exec_Star r pos rest g k :
  Re.exec (Re.Star r) pos rest g k
  = Re.star_loop (Re.exec r) k (S (String.length rest)) pos rest g.
Proof. reflexivity. Qed.

(** White space followed by something that white space cannot begin: no
    match on a text of white space only. *)
Lemma star_loop_blank (k : Re.cont) (fuel pos : nat) (rest : string)
    (g : gmap nat (nat * nat)) :
  all_chars Py.isspace rest = true ->
  (forall pos' rest' g', all_chars Py.isspace rest' = true -> k pos' rest' g' = None) ->
  Re.star_loop (Re.exec (Re.Chr Py.isspace)) k fuel pos rest g = None.
Proof.
  intros Hall Hk. revert pos rest Hall.
  induction fuel as [|fuel IH]; intros pos rest Hall; cbn [Re.star_loop].
  - by apply Hk.
  - destruct rest as [|c rest].
    + cbn [Re.exec]. by apply Hk.
    + cbn [all_chars] in Hall. apply andb_true_iff in Hall as [Hc Hall'].
      rewrite exec_Chr_hit by done.
      assert ((pos <? S pos)%nat = true) as -> by (apply Nat.ltb_lt; lia).
      rewrite IH by done. apply Hk. cbn [all_chars]. by rewrite Hc, Hall'.
Qed.

Lemma EXTRACT_TAG_blank (body : string) :
  all_chars Py.isspace body = true ->
  Re.match_ MdxLiquidTags.EXTRACT_TAG body = None.
Proof.
  intros Hall. unfold Re.match_, Re.exec_at, MdxLiquidTags.EXTRACT_TAG.
  rewrite exec_Cat, exec_Star, star_loop_blank; [done|done|].
  intros pos' rest' g' Hall'. unfold Re.Plus.
  rewrite exec_Cat, exec_Group, exec_Cat. apply exec_Chr_stop.
  destruct rest' as [|c rest']; [done|]. cbn [all_chars] in Hall'.
  apply andb_true_iff in Hall' as [Hc _]. unfold stops_at, MdxLiquidTags.nonspace.
  by rewrite Hc.
Qed.

Lemma exec_src src rest pos g k m :
  path_token src -> stops_at MdxLiquidTags.nonspace rest = true ->
  k (pos + String.length src) rest (<[2 := (pos, pos + String.length src)]> g) = Some m ->
  Re.exec (Re.Group 2 (Re.Plus (Re.Chr MdxLiquidTags.nonspace))) pos (src +:+ rest) g k = Some m.
Proof.
  destruct src as [|c src]; [by intros [] |]. intros [_ Hall] Hstop Hk.
  cbn in Hall. apply andb_true_iff in Hall as [Hc Hall].
  unfold Re.Plus. rewrite exec_Group, exec_Cat, sapp_cons, exec_Chr_hit by done.
  apply exec_Star_class; [done..|].
  cbn [String.length] in Hk. rewrite Nat.add_succ_r in Hk. exact Hk.
Qed.

Lemma exec_bound n A rest pos g k m :
  signed_digits A -> stops_at bound_end rest = true ->
  k (pos + String.length A) rest (<[n := (pos, pos + String.length A)]> g) = Some m ->
  Re.exec (Re.Group n (Re.Cat (Re.Opt (Re.Lit "-")) Notebook.digit_star))
    pos (A +:+ rest) g k = Some m.
Proof.
  intros (ds & Hds & HA) Hstop Hk.
  assert (Hstop' : stops_at Py.isdigit rest = true).
  { destruct rest as [|c rest]; [done|]. unfold stops_at, bound_end in *.
    by destruct (Py.isdigit c). }
  rewrite exec_Group, exec_Cat. unfold Notebook.digit_star.
  destruct HA as [-> | ->].
  - rewrite exec_Opt_skip.
    + by apply exec_Star_class.
    + apply exec_Chr_stop. destruct ds as [|d ds].
      * rewrite sapp_nil_l. destruct rest as [|c rest]; [done|].
        unfold stops_at, bound_end in *.
        by destruct (Py.isdigit c), (Ascii.eqb "-" c).
      * rewrite sapp_cons. unfold stops_at. cbn [all_chars] in Hds.
        apply andb_true_iff in Hds as [Hd _].
        by destruct (isdigit_not_sign d Hd) as (_ & _ & ->).
  - apply exec_Opt_take. change (("-" +:+ ds) +:+ rest) with (String "-" (ds +:+ rest)).
    unfold Re.Lit. rewrite exec_Chr_hit by reflexivity.
    apply exec_Star_class; [done..|].
    change (String.length ("-" +:+ ds)) with (S (String.length ds)) in Hk.
    rewrite Nat.add_succ_r in Hk. exact Hk.
Qed.

Lemma FORMAT_cells src A B :
  path_token src -> signed_digits A -> signed_digits B ->
  exists e g,
    Re.exec_at Notebook.FORMAT 0 (src +:+ " cells[" +:+ A +:+ ":" +:+ B +:+ "]") = Some (e, g)
    /\ g !! 2 = Some (0, String.length src)
    /\ g !! 6 = Some (String.length src + 7, String.length src + 7 + String.length A)
    /\ g !! 7 = Some (String.length src + 8 + String.length A,
                      String.length src + 8 + String.length A + String.length B)
    /\ g !! 12 = None.
Proof.
  intros Hsrc HA HB. eexists _, _. split.
  - unfold Re.exec_at, Notebook.FORMAT. cbn [Re.Seq].
    rewrite exec_Cat, exec_Bol. cbv beta.
    rewrite exec_Cat, exec_Opt_skip.
    2:{ apply exec_spaces_stop. destruct Hsrc as [Hne Hall].
        destruct src as [|c src]; [done|]. rewrite sapp_cons. cbn in Hall |- *.
        apply andb_true_iff in Hall as [Hc _]. unfold MdxLiquidTags.nonspace in Hc.
        by destruct (Py.isspace c). }
    rewrite exec_Cat. apply exec_src; [done|reflexivity|].
    rewrite exec_Cat. apply exec_Opt_take.
    unfold Notebook.spaces at 1, Re.Plus. rewrite exec_Group, exec_Cat.
    change (" cells[" +:+ A +:+ ":" +:+ B +:+ "]")
      with (String " " ("cells[" +:+ A +:+ ":" +:+ B +:+ "]")).
    rewrite exec_Chr_hit by reflexivity.
    apply exec_Star_stop; [reflexivity|].
    rewrite exec_Cat. apply exec_Opt_take. cbn [Re.Seq].
    rewrite exec_Group, exec_Cat, exec_Group, exec_Str.
    rewrite exec_Cat. apply exec_bound; [done|reflexivity|].
    rewrite exec_Cat, exec_Lit_app.
    rewrite exec_Cat. apply exec_bound; [done|reflexivity|].
    change "]" with ("]" +:+ ""). rewrite exec_Group, exec_Lit_app.
    rewrite exec_Cat, exec_Opt_skip by (by apply exec_spaces_stop).
    rewrite exec_Cat, exec_Opt_skip by reflexivity.
    rewrite exec_Cat, exec_Opt_skip by (by apply exec_spaces_stop).
    rewrite exec_Eol_end. reflexivity.
  - split; [|split; [|split] ].
    + rewrite !lookup_insert_ne by done. by rewrite lookup_insert_eq.
    + rewrite !lookup_insert_ne by done. rewrite lookup_insert_eq.
      cbn [String.length]. do 2 f_equal; lia.
    + rewrite !lookup_insert_ne by done. rewrite lookup_insert_eq.
      cbn [String.length]. do 2 f_equal; lia.
    + by rewrite !lookup_insert_ne by done.
Qed.

Lemma FORMAT_plain src :
  path_token src ->
  exists e g,
    Re.exec_at Notebook.FORMAT 0 src = Some (e, g)
    /\ g !! 2 = Some (0, String.length src)
    /\ g !! 6 = None /\ g !! 7 = None /\ g !! 12 = None.
Proof.
  intros Hsrc. eexists _, _. split.
  - unfold Re.exec_at, Notebook.FORMAT. cbn [Re.Seq].
    rewrite exec_Cat, exec_Bol.
    rewrite exec_Cat, exec_Opt_skip.
    2:{ apply exec_spaces_stop. destruct Hsrc as [Hne Hall].
        destruct src as [|c src]; [done|]. cbn in Hall |- *.
        apply andb_true_iff in Hall as [Hc _]. unfold MdxLiquidTags.nonspace in Hc.
        by destruct (Py.isspace c). }
    rewrite exec_Cat. rewrite <- (sapp_nil_r src) at 1.
    apply exec_src; [done|reflexivity|].
    rewrite exec_Cat, exec_Opt_skip by (by apply exec_spaces_stop).
    rewrite exec_Cat, exec_Opt_skip by reflexivity.
    rewrite exec_Cat, exec_Opt_skip by (by apply exec_spaces_stop).
    rewrite exec_Cat, exec_Opt_skip by reflexivity.
    rewrite exec_Cat, exec_Opt_skip by (by apply exec_spaces_stop).
    rewrite exec_Eol_end. reflexivity.
  - by rewrite lookup_insert_eq, !lookup_insert_ne, !lookup_empty by done.
Qed.

Lemma drop_app_length (u v : string) : Py.drop (String.length u) (u +:+ v) = v.
Proof. induction u as [|c u IH]; [reflexivity|]. by rewrite sapp_cons. Qed.

Lemma take_app_length (u v : string) : Py.take (String.length u) (u +:+ v) = u.
Proof.
  induction u as [|c u IH]; [by destruct v|].
  rewrite sapp_cons. cbn [String.length Py.take]. by rewrite IH.
Qed.

Lemma slice_mid (u v w : string) (a b : nat) :
  a = String.length u -> b = a + String.length v ->
  Py.take (b - a) (Py.drop a (u +:+ v +:+ w)) = v.
Proof.
  intros -> ->. rewrite drop_app_length.
  replace (String.length u + String.length v - String.length u)
    with (String.length v) by lia.
  apply take_app_length.
Qed.

Lemma slice_prefix (u w : string) :
  Py.take (String.length u - 0) (Py.drop 0 (u +:+ w)) = u.
Proof. rewrite Nat.sub_0_r. cbn [Py.drop]. apply take_app_length. Qed.

Lemma slice_whole (u : string) :
  Py.take (String.length u - 0) (Py.drop 0 u) = u.
Proof. pose proof (slice_prefix u "") as H. by rewrite sapp_nil_r in H. Qed.

Lemma signed_digits_bound_text (o : option Z) : signed_digits (bound_text o).
Proof.
  destruct o as [z|]; [|exists ""; by split; [|left] ].
  destruct (str_int_shape z) as (c & ds & Hall & _ & E). cbn [bound_text].
  exists (String c ds). split; [done|]. rewrite E.
  destruct (z <? 0)%Z; [by right | by left].
Qed.

Lemma bound_text_value (o : option Z) :
  (if Notebook.truthy (Some (bound_text o))
   then Py.int (default "" (Some (bound_text o))) else Py.Ok 0%Z)
  = Py.Ok (default 0%Z o)
  /\ (if Notebook.truthy (Some (bound_text o))
      then Py.bind (Py.int (default "" (Some (bound_text o)))) (fun e => Py.Ok (Some e))
      else Py.Ok None)
     = Py.Ok o.
Proof.
  destruct o as [z|]; [|done]. cbn [bound_text].
  change (default "" (Some (str_int z))) with (str_int z).
  assert (Notebook.truthy (Some (str_int z)) = true) as ->.
  { destruct (str_int_shape z) as (c & ds & _ & _ & ->). by destruct (z <? 0)%Z. }
  by rewrite int_str_int.
Qed.

Lemma notebook_args_cells (src : string) (a b : option Z) :
  path_token src ->
  Notebook.notebook_args (src +:+ " cells[" +:+ bound_text a +:+ ":" +:+ bound_text b +:+ "]")
  = Py.Ok (Notebook.mkArgs (Some src) (default 0%Z a) b None).
Proof.
  intros Hsrc.
  destruct (FORMAT_cells src (bound_text a) (bound_text b) Hsrc
              (signed_digits_bound_text a) (signed_digits_bound_text b))
    as (e & g & Hm & H2 & H6 & H7 & H12).
  unfold Notebook.notebook_args. rewrite (search_hit _ _ _ _ Hm).
  unfold Re.group. cbn [Re.m_spans Re.m_string]. rewrite H2, H6, H7, H12.
  rewrite slice_prefix.
  rewrite <- (sapp_assoc src " cells[").
  rewrite (slice_mid (src +:+ " cells[") (bound_text a))
    by (rewrite ?slength_app; cbn [String.length]; lia).
  rewrite <- (sapp_assoc (src +:+ " cells[") (bound_text a) (":" +:+ _)).
  rewrite <- (sapp_assoc ((src +:+ " cells[") +:+ bound_text a) ":").
  rewrite (slice_mid (((src +:+ " cells[") +:+ bound_text a) +:+ ":") (bound_text b))
    by (rewrite ?slength_app; cbn [String.length]; lia).
  destruct (bound_text_value a) as [-> _]. destruct (bound_text_value b) as [_ ->].
  reflexivity.
Qed.

Lemma notebook_args_plain (src : string) :
  path_token src ->
  Notebook.notebook_args src = Py.Ok (Notebook.mkArgs (Some src) 0 None None).
Proof.
  intros Hsrc. destruct (FORMAT_plain src Hsrc) as (e & g & Hm & H2 & H6 & H7 & H12).
  unfold Notebook.notebook_args. rewrite (search_hit _ _ _ _ Hm).
  unfold Re.group. cbn [Re.m_spans Re.m_string]. rewrite H2, H6, H7, H12.
  by rewrite slice_whole.
Qed.

(** ** The preprocessor *)

Section PreprocessorFacts.
Import MdxLiquidTags.
Context {World : Type}.
Implicit Types (self : _LiquidTagsPreprocessor) (w : World) (span : string).
Implicit Types (_tags : gmap string (handler World)).

Lemma expand_tag_registered self _tags span tag func w :
  span_tag span = Some tag -> _tags !! tag = Some func ->
  expand_tag self _tags span w = func self tag (span_argument span) w.
Proof.
  unfold span_tag, expand_tag, span_argument, span_body. intros Ht Hf.
  destruct (Re.match_ EXTRACT_TAG _) as [m|]; [|done].
  by rewrite Ht, Hf.
Qed.

Lemma expand_tag_unregistered self _tags span w :
  unregistered _tags span -> expand_tag self _tags span w = (Py.Ok span, w).
Proof.
  unfold unregistered, span_tag, expand_tag, span_body. intros (tag & Ht & Hf).
  destruct (Re.match_ EXTRACT_TAG _) as [m|]; [|done].
  by rewrite Ht, Hf.
Qed.

Lemma expand_tag_no_token self _tags span w :
  Re.match_ EXTRACT_TAG (span_body span) = None ->
  expand_tag self _tags span w =
    (Py.Raise (Py.AttributeError "'NoneType' object has no attribute 'groups'"), w).
Proof. unfold expand_tag, span_body. by intros ->. Qed.

Lemma expand_tag_blank self _tags span w :
  all_chars Py.isspace (span_body span) = true ->
  expand_tag self _tags span w =
    (Py.Raise (Py.AttributeError "'NoneType' object has no attribute 'groups'"), w).
Proof. intros H. by apply expand_tag_no_token, EXTRACT_TAG_blank. Qed.

Lemma expand_tags_replaced self _tags spans w reps w' :
  replaced self _tags spans w reps w' ->
  expand_tags self _tags spans w = (Py.Ok reps, w').
Proof.
  induction 1 as [w|span spans tag func rep reps w w1 w2 Ht Hf Hcall _ IH
                 |span spans tag reps w w2 Ht Hf _ IH]; cbn [expand_tags].
  - reflexivity.
  - rewrite (expand_tag_registered _ _ _ tag func) by done. by rewrite Hcall, IH.
  - rewrite expand_tag_unregistered by (by exists tag). by rewrite IH.
Qed.

Lemma expand_tags_length self _tags spans w reps w' :
  expand_tags self _tags spans w = (Py.Ok reps, w') -> length reps = length spans.
Proof.
  revert w reps. induction spans as [|span spans IH]; intros w reps; cbn [expand_tags].
  - by intros [= <- _].
  - destruct (expand_tag self _tags span w) as [[r|e] w1]; [|done].
    destruct (expand_tags self _tags spans w1) as [[rs|e] w2] eqn:E; [|done].
    intros [= <- ->]. cbn. f_equal. by eapply IH.
Qed.

Lemma expand_tags_unregistered_at self _tags spans w reps w' i span :
  expand_tags self _tags spans w = (Py.Ok reps, w') ->
  spans !! i = Some span -> unregistered _tags span -> reps !! i = Some span.
Proof.
  revert w reps i. induction spans as [|sp spans IH]; intros w reps i; cbn [expand_tags].
  - by intros _ ?.
  - destruct (expand_tag self _tags sp w) as [[r|e] w1] eqn:E1; [|done].
    destruct (expand_tags self _tags spans w1) as [[rs|e] w2] eqn:E2; [|done].
    intros [= <- ->] Hi Hun. destruct i as [|i]; cbn in Hi |- *.
    + injection Hi as ->. rewrite expand_tag_unregistered in E1 by done.
      by injection E1 as <- _.
    + by eapply IH.
Qed.

Lemma expand_tags_all_unregistered self _tags spans w :
  Forall (unregistered _tags) spans ->
  expand_tags self _tags spans w = (Py.Ok spans, w).
Proof.
  induction 1 as [|span spans Hun _ IH]; cbn [expand_tags]; [done|].
  by rewrite expand_tag_unregistered, IH.
Qed.

(** When the loop of [run] completes, [run] returns the lines of the
    reassembled text. *)
Lemma run_of_expand_tags self _tags lines w reps w' :
  expand_tags self _tags (Re.findall LIQUID_TAG (Py.join Py.nl lines)) w
    = (Py.Ok reps, w') ->
  run self _tags lines w
    = (Py.Ok (Py.split Py.newline
                (alternating (Re.split LIQUID_TAG (Py.join Py.nl lines)) reps)), w').
Proof.
  intros H. unfold run. rewrite H. rewrite zip_chain_alternating; [done|].
  rewrite split_findall_length. f_equal. symmetry. by eapply expand_tags_length.
Qed.

Lemma run_raises self _tags lines w e w' :
  expand_tags self _tags (Re.findall LIQUID_TAG (Py.join Py.nl lines)) w
    = (Py.Raise e, w') ->
  run self _tags lines w = (Py.Raise e, w').
Proof. intros H. unfold run. by rewrite H. Qed.

End PreprocessorFacts.


(** ** Claims about the preprocessor *)

Import MdxLiquidTags.

(** C2, the code at the failing input: a span without a token makes [run]
    raise. For the documents [{% %}] and [{%%}], whatever the registry and
    the state, [EXTRACT_TAG.match] returns [None], the call of [groups] on
    it raises [AttributeError], and [run] returns nothing. The loop body
    raises in this way for every span whose body is white space only. *)
Theorem run_span_without_token_raises {World : Type} (self : _LiquidTagsPreprocessor)
    (_tags : gmap string (handler World)) (w : World) :
  run self _tags ["{% %}"] w
    = (Py.Raise (Py.AttributeError "'NoneType' object has no attribute 'groups'"), w)
  /\ run self _tags ["{%%}"] w
    = (Py.Raise (Py.AttributeError "'NoneType' object has no attribute 'groups'"), w)
  /\ (forall span,
        all_chars Py.isspace (span_body span) = true ->
        expand_tag self _tags span w
        = (Py.Raise (Py.AttributeError "'NoneType' object has no attribute 'groups'"), w)).
Proof.
  split; [|split]; [apply run_raises..|].
  - assert (Re.findall LIQUID_TAG (Py.join Py.nl ["{% %}"]) = ["{% %}"]) as ->
      by (vm_compute; reflexivity).
    cbn [expand_tags]. by rewrite expand_tag_blank by (vm_compute; reflexivity).
  - assert (Re.findall LIQUID_TAG (Py.join Py.nl ["{%%}"]) = ["{%%}"]) as ->
      by (vm_compute; reflexivity).
    cbn [expand_tags]. by rewrite expand_tag_blank by (vm_compute; reflexivity).
  - intros span Hblank. by apply expand_tag_blank.
Qed.

(** C3 as stated fails: the empty line sequence has no tag span and comes
    back as one empty line, and a line that holds a newline comes back as
    two lines. *)
Lemma run_no_spans_not_identity :
  Re.findall LIQUID_TAG (Py.join Py.nl []) = []
  /\ run a_preprocessor two_tags [] [] = (Py.Ok [""], [])
  /\ run a_preprocessor two_tags [] [] <> (Py.Ok [], [])
  /\ Re.findall LIQUID_TAG (Py.join Py.nl ["a" +:+ Py.nl +:+ "b"]) = []
  /\ run a_preprocessor two_tags ["a" +:+ Py.nl +:+ "b"] [] = (Py.Ok ["a"; "b"], []).
Proof.
  assert (run a_preprocessor two_tags [] [] = (Py.Ok [""], [])) as E
    by (vm_compute; reflexivity).
  repeat split; try (vm_compute; reflexivity).
  rewrite E. discriminate.
Qed.

(** C3, amended: for every line sequence that is not empty, whose lines
    hold no newline and whose joined text has no tag span, [run] returns
    the line sequence it was given, and the state unchanged. *)
Theorem run_no_spans_identity {World : Type} (self : _LiquidTagsPreprocessor)
    (_tags : gmap string (handler World)) (lines : list string) (w : World) :
  lines <> [] ->
  Forall no_newline lines ->
  Re.findall LIQUID_TAG (Py.join Py.nl lines) = [] ->
  run self _tags lines w = (Py.Ok lines, w).
Proof.
  intros Hne Hnl Hnone.
  rewrite (run_of_expand_tags self _tags lines w [] w) by (by rewrite Hnone).
  rewrite (findall_nil_split _ _ Hnone). cbn [alternating].
  by rewrite split_join.
Qed.

Lemma run_no_spans_identity_witness :
  ["# Title"; ""; "some { text } 100%"] <> []
  /\ Forall no_newline ["# Title"; ""; "some { text } 100%"]
  /\ Re.findall LIQUID_TAG (Py.join Py.nl ["# Title"; ""; "some { text } 100%"]) = []
  /\ run a_preprocessor two_tags ["# Title"; ""; "some { text } 100%"] []
     = (Py.Ok ["# Title"; ""; "some { text } 100%"], []).
Proof.
  assert (Hnl : Forall no_newline ["# Title"; ""; "some { text } 100%"])
    by (repeat constructor).
  assert (Hnone : Re.findall LIQUID_TAG
                    (Py.join Py.nl ["# Title"; ""; "some { text } 100%"]) = [])
    by (vm_compute; reflexivity).
  split; [discriminate|]. split; [exact Hnl|]. split; [exact Hnone|].
  apply (run_no_spans_identity a_preprocessor two_tags _ []);
    [discriminate | exact Hnl | exact Hnone].
Defined.

(** C4: a span whose tag name is not in the registry stays as it is.
    For every registry: (1) the loop body leaves such a span's text, with
    its delimiters, as the replacement and raises nothing; (2) whenever the
    loop of [run] completes, the replacement at the position of such a span
    is the span's text, and [run] returns the lines of the text reassembled
    from these replacements; (3) when every span of the input has an
    unregistered tag name, [run] returns normally, in the same state, the
    lines of the input text, which joined give the input text again; (4)
    these lines are the input lines themselves when there is at least one
    input line and no input line holds a newline. *)
Theorem run_unregistered_untouched {World : Type} (self : _LiquidTagsPreprocessor)
    (_tags : gmap string (handler World)) :
  (forall span w,
      unregistered _tags span ->
      expand_tag self _tags span w = (Py.Ok span, w))
  /\ (forall lines w reps w' i span,
      expand_tags self _tags (Re.findall LIQUID_TAG (Py.join Py.nl lines)) w
        = (Py.Ok reps, w') ->
      Re.findall LIQUID_TAG (Py.join Py.nl lines) !! i = Some span ->
      unregistered _tags span ->
      reps !! i = Some span
      /\ run self _tags lines w
         = (Py.Ok (Py.split Py.newline
                     (alternating (Re.split LIQUID_TAG (Py.join Py.nl lines)) reps)), w'))
  /\ (forall lines w,
      Forall (unregistered _tags) (Re.findall LIQUID_TAG (Py.join Py.nl lines)) ->
      run self _tags lines w = (Py.Ok (Py.split Py.newline (Py.join Py.nl lines)), w)
      /\ Py.join Py.nl (Py.split Py.newline (Py.join Py.nl lines)) = Py.join Py.nl lines)
  /\ (forall lines w,
      Forall (unregistered _tags) (Re.findall LIQUID_TAG (Py.join Py.nl lines)) ->
      lines <> [] -> Forall no_newline lines ->
      run self _tags lines w = (Py.Ok lines, w)).
Proof.
  assert (Hall : forall lines w,
    Forall (unregistered _tags) (Re.findall LIQUID_TAG (Py.join Py.nl lines)) ->
    run self _tags lines w = (Py.Ok (Py.split Py.newline (Py.join Py.nl lines)), w)).
  { intros lines w Hall.
    rewrite (run_of_expand_tags self _tags lines w _ w
               (expand_tags_all_unregistered self _tags _ w Hall)).
    by rewrite split_findall_rebuild. }
  split; [|split; [|split] ].
  - intros span w Hun. by apply expand_tag_unregistered.
  - intros lines w reps w' i span Hloop Hi Hun. split.
    + by eapply expand_tags_unregistered_at.
    + by apply run_of_expand_tags.
  - intros lines w Hun. split; [by apply Hall | apply join_split].
  - intros lines w Hun Hne Hnl. rewrite Hall by done. by rewrite split_join.
Qed.

Lemma run_unregistered_untouched_witness :
  Forall (unregistered two_tags)
    (Re.findall LIQUID_TAG (Py.join Py.nl ["x {% youtube id %} y"; "{%include f%}"]))
  /\ run a_preprocessor two_tags ["x {% youtube id %} y"; "{%include f%}"] []
     = (Py.Ok ["x {% youtube id %} y"; "{%include f%}"], []).
Proof.
  assert (Hall : Forall (unregistered two_tags)
            (Re.findall LIQUID_TAG
               (Py.join Py.nl ["x {% youtube id %} y"; "{%include f%}"]))).
  { assert (Re.findall LIQUID_TAG
              (Py.join Py.nl ["x {% youtube id %} y"; "{%include f%}"])
            = ["{% youtube id %}"; "{%include f%}"]) as -> by (vm_compute; reflexivity).
    repeat constructor.
    - exists "youtube". split; vm_compute; reflexivity.
    - exists "include". split; vm_compute; reflexivity. }
  split; [exact Hall|].
  destruct (run_unregistered_untouched a_preprocessor two_tags) as (_ & _ & _ & H).
  apply (H ["x {% youtube id %} y"; "{%include f%}"] [] Hall);
    [discriminate | repeat constructor].
Defined.

(** C5 as stated fails: a registered handler may raise, and then [run]
    raises what the handler raised and produces no output; the handler of
    a later span is not called. *)
Lemma run_handler_raises_no_output :
  Re.findall LIQUID_TAG (Py.join Py.nl ["x{% boom nb.ipynb %}y{% a 1 %}"])
    = ["{% boom nb.ipynb %}"; "{% a 1 %}"]
  /\ run a_preprocessor failing_tags ["x{% boom nb.ipynb %}y{% a 1 %}"] []
     = (Py.Raise (Py.ValueError "File nb.ipynb could not be found"),
        [("boom", "nb.ipynb")])
  /\ Py.is_ok (run a_preprocessor failing_tags ["x{% boom nb.ipynb %}y{% a 1 %}"] []).1
     = false.
Proof. repeat split; vm_compute; reflexivity. Qed.

(** C5, amended: the reassembly rule, for spans that have a tag name and
    handlers that return. Let the spans of the input text be replaced
    first to last, each registered one by the return value of its handler
    called in the state its predecessors left, each unregistered one by its
    own text. Then the segments and the spans of the scan alternate to the
    input text, there is one segment more than there are replacements, and
    [run] returns, in the state the last handler left, the lines of segment
    0, replacement 0, segment 1, ..., last segment, which joined are exactly
    that text. *)
Theorem run_reassembles {World : Type} (self : _LiquidTagsPreprocessor)
    (_tags : gmap string (handler World)) (lines : list string) (w : World)
    (reps : list string) (w' : World) :
  replaced self _tags (Re.findall LIQUID_TAG (Py.join Py.nl lines)) w reps w' ->
  alternating (Re.split LIQUID_TAG (Py.join Py.nl lines))
              (Re.findall LIQUID_TAG (Py.join Py.nl lines)) = Py.join Py.nl lines
  /\ length (Re.split LIQUID_TAG (Py.join Py.nl lines)) = S (length reps)
  /\ run self _tags lines w
     = (Py.Ok (Py.split Py.newline
                 (alternating (Re.split LIQUID_TAG (Py.join Py.nl lines)) reps)), w')
  /\ Py.join Py.nl (Py.split Py.newline
                      (alternating (Re.split LIQUID_TAG (Py.join Py.nl lines)) reps))
     = alternating (Re.split LIQUID_TAG (Py.join Py.nl lines)) reps.
Proof.
  intros Hrep. apply expand_tags_replaced in Hrep.
  split; [apply split_findall_rebuild|]. split.
  - rewrite split_findall_length. f_equal. symmetry. by eapply expand_tags_length.
  - split; [by apply run_of_expand_tags | apply join_split].
Qed.

Lemma run_reassembles_witness :
  replaced a_preprocessor two_tags
    (Re.findall LIQUID_TAG (Py.join Py.nl ["p{% b 1 %}q{% c %}"; "r{%a  x  y %}s"]))
    [] [""; "{% c %}"; "<a:x  y>"] [("b", "1"); ("a", "x  y")]
  /\ run a_preprocessor two_tags ["p{% b 1 %}q{% c %}"; "r{%a  x  y %}s"] []
     = (Py.Ok ["pq{% c %}"; "r<a:x  y>s"], [("b", "1"); ("a", "x  y")]).
Proof.
  assert (Hrep : replaced a_preprocessor two_tags
            (Re.findall LIQUID_TAG (Py.join Py.nl ["p{% b 1 %}q{% c %}"; "r{%a  x  y %}s"]))
            [] [""; "{% c %}"; "<a:x  y>"] [("b", "1"); ("a", "x  y")]).
  { assert (Re.findall LIQUID_TAG
              (Py.join Py.nl ["p{% b 1 %}q{% c %}"; "r{%a  x  y %}s"])
            = ["{% b 1 %}"; "{% c %}"; "{%a  x  y %}"]) as -> by (vm_compute; reflexivity).
    eapply (replaced_registered _ _ _ _ "b" hush); [vm_compute; reflexivity..|].
    eapply (replaced_unregistered _ _ _ _ "c"); [vm_compute; reflexivity..|].
    eapply (replaced_registered _ _ _ _ "a" shout); [vm_compute; reflexivity..|].
    apply replaced_nil. }
  split; [exact Hrep|].
  destruct (run_reassembles a_preprocessor two_tags _ _ _ _ Hrep) as (_ & _ & -> & _).
  vm_compute. reflexivity.
Defined.

(** C6: registering a handler for a name that is already registered adds
    one warning, which names the tag, raises nothing, returns the handler,
    and leaves a registry in which the name resolves to the new handler
    and every other name resolves as before; [run] then calls the new
    handler for a span of that name. *)
Theorem register_overrides {World : Type} (tag : string)
    (old new : handler World) (_tags : gmap string (handler World))
    (warned : list string) :
  _tags !! tag = Some old ->
  register tag new (_tags, warned)
    = (new, (<[tag := new]> _tags, (warned ++ [override_warning tag])%list))
  /\ (register tag new (_tags, warned)).2.1 !! tag = Some new
  /\ (forall other, other <> tag ->
        (register tag new (_tags, warned)).2.1 !! other = _tags !! other)
  /\ (forall self span w,
        span_tag span = Some tag ->
        expand_tag self (register tag new (_tags, warned)).2.1 span w
          = new self tag (span_argument span) w).
Proof.
  intros Hold. unfold register. rewrite Hold. cbn [fst snd].
  split; [reflexivity|]. split; [apply lookup_insert_eq|]. split.
  - intros other Hne. by apply lookup_insert_ne.
  - intros self span w Ht. apply expand_tag_registered; [done|apply lookup_insert_eq].
Qed.

Lemma register_overrides_witness :
  two_tags !! "a" = Some shout
  /\ (register "a" hush (two_tags, [])).2.2 = ["Enhanced Markdown: overriding tag 'a'"]
  /\ (register "a" hush (two_tags, [])).2.1 !! "a" = Some hush.
Proof.
  assert (Hold : two_tags !! "a" = Some shout) by (vm_compute; reflexivity).
  destruct (register_overrides "a" shout hush two_tags [] Hold) as (E & Hnew & _).
  split; [exact Hold|]. split; [|exact Hnew].
  rewrite E. reflexivity.
Defined.

(** ** Claims about the plugin's installation *)

(** The membership test of [addLiquidTags] is false on a list of instances
    of [LiquidTags] and of other values that are not the class: the call
    appends a new instance to such a list. *)
Lemma install_appends_again (gen : LiquidTagsPlugin.Generator) (l : Py.loc)
    (items : list Py.value) (h : gmap Py.loc LiquidTagsPlugin.obj)
    (st : gmap string Py.value) (ext : LiquidTags) :
  h !! l = Some (LiquidTagsPlugin.OList items) ->
  Forall (fun x => forall name, x <> Py.VClass name) items ->
  h !! LiquidTagsPlugin.settings gen = Some (LiquidTagsPlugin.ODict st) ->
  LiquidTags_init (LiquidTagsPlugin.override_configs st LT_CONFIG) = Py.Ok ext ->
  LiquidTagsPlugin.install gen (Py.VRef l) h
  = (Py.Ok tt,
     <[l := LiquidTagsPlugin.OList (items ++ [Py.VRef (fresh (dom h))])]>
       (<[fresh (dom h) := LiquidTagsPlugin.OLiquidTags ext]>
          (LiquidTagsPlugin.written_config ext <$> h))).
Proof.
  intros Hl Hitems Hst Hext. unfold LiquidTagsPlugin.install. rewrite Hl.
  assert (existsb LiquidTagsPlugin.eq_LiquidTags_class items = false) as ->.
  { clear Hl. induction Hitems as [|x items Hx _ IH]; [done|]. cbn [existsb].
    rewrite IH, orb_false_r. destruct x; try done. by destruct (Hx name eq_refl). }
  rewrite Hst, Hext. unfold Py.alloc. by rewrite dom_fmap_L.
Qed.

(** C1, the code at the failing input: [addLiquidTags] called twice on one
    generator installs two instances. The membership test compares the
    class [LiquidTags] with the elements of the list, which are instances,
    so it never finds the instance that the first call appended. Both for
    empty settings and for settings with a ['MARKDOWN'] extensions list,
    each call returns normally and the list holds one instance after the
    first call and two after the second. *)
Theorem addLiquidTags_twice_appends_twice :
  (LiquidTagsPlugin.addLiquidTags a_generator empty_settings).1 = Py.Ok tt
  /\ LiquidTagsPlugin.count_LiquidTags a_generator
       (LiquidTagsPlugin.addLiquidTags a_generator empty_settings).2 = Some 1
  /\ (LiquidTagsPlugin.addLiquidTags a_generator
        (LiquidTagsPlugin.addLiquidTags a_generator empty_settings).2).1 = Py.Ok tt
  /\ LiquidTagsPlugin.count_LiquidTags a_generator
       (LiquidTagsPlugin.addLiquidTags a_generator
          (LiquidTagsPlugin.addLiquidTags a_generator empty_settings).2).2 = Some 2
  /\ LiquidTagsPlugin.count_LiquidTags a_generator
       (LiquidTagsPlugin.addLiquidTags a_generator markdown_settings).2 = Some 1
  /\ LiquidTagsPlugin.count_LiquidTags a_generator
       (LiquidTagsPlugin.addLiquidTags a_generator
          (LiquidTagsPlugin.addLiquidTags a_generator markdown_settings).2).2 = Some 2.
Proof. repeat split; vm_compute; reflexivity. Qed.

(** ** The matcher and the texts of a pattern *)

Section LoopsSound.

Variable body : nat -> string -> gmap nat (nat * nat) -> Re.cont
                -> option (nat * gmap nat (nat * nat)).
Variable P : nat -> string -> string -> Prop.
Variable k : Re.cont.

Hypothesis body_sound : forall pos rest g k' res,
  body pos rest g k' = Some res ->
  exists u v g', rest = u +:+ v /\ P pos u v
                 /\ k' (pos + String.length u) v g' = Some res.

Lemma star_loop_sound (fuel : nat) : forall pos rest g res,
  Re.star_loop body k fuel pos rest g = Some res ->
  exists u v g', rest = u +:+ v /\ repeated P pos u v
                 /\ k (pos + String.length u) v g' = Some res.
Proof.
  assert (Hstop : forall pos rest g res, k pos rest g = Some res ->
            exists u v g', rest = u +:+ v /\ repeated P pos u v
                           /\ k (pos + String.length u) v g' = Some res).
  { intros pos rest g res Hk. exists "", rest, g. rewrite sapp_nil_l.
    cbn [String.length]. rewrite Nat.add_0_r. by split; [|split; [constructor|]]. }
  induction fuel as [|fuel IH]; intros pos rest g res; cbn [Re.star_loop];
    [by apply Hstop|].
  destruct (body pos rest g _) as [m|] eqn:Hb; [|by apply Hstop].
  intros [= ->]. apply body_sound in Hb as (u1 & v1 & g1 & -> & HP & Hk).
  destruct (Nat.ltb_spec pos (pos + String.length u1)) as [Hlt|]; [|done].
  apply IH in Hk as (u2 & v & g2 & -> & Hrep & Hk).
  exists (u1 +:+ u2), v, g2. rewrite slength_app, Nat.add_assoc, sapp_assoc.
  split; [done|]. split; [|done].
  apply repeated_cons; [|done..]. intros ->. cbn [String.length] in Hlt. lia.
Qed.

Lemma lazy_loop_sound (fuel : nat) : forall pos rest g res,
  Re.lazy_loop body k fuel pos rest g = Some res ->
  exists u v g', rest = u +:+ v /\ repeated P pos u v
                 /\ k (pos + String.length u) v g' = Some res.
Proof.
  induction fuel as [|fuel IH]; intros pos rest g res; cbn [Re.lazy_loop];
    destruct (k pos rest g) as [m|] eqn:Hk0.
  1,3: intros [= ->]; exists "", rest, g; rewrite sapp_nil_l;
       cbn [String.length]; rewrite Nat.add_0_r;
       by split; [|split; [constructor|]].
  - done.
  - intros Hb. apply body_sound in Hb as (u1 & v1 & g1 & -> & HP & Hk).
    destruct (Nat.ltb_spec pos (pos + String.length u1)) as [Hlt|]; [|done].
    apply IH in Hk as (u2 & v & g2 & -> & Hrep & Hk).
    exists (u1 +:+ u2), v, g2. rewrite slength_app, Nat.add_assoc, sapp_assoc.
    split; [done|]. split; [|done].
    apply repeated_cons; [|done..]. intros ->. cbn [String.length] in Hlt. lia.
Qed.

End LoopsSound.

(** What the matcher accepts is a text of the pattern: when [exec] finds a
    match, the subject begins with a text of the pattern, after which the
    continuation succeeded. *)
Lemma exec_sound (r : Re.regex) : forall pos rest g k res,
  Re.exec r pos rest g k = Some res ->
  exists u v g', rest = u +:+ v /\ denotes r pos u v
                 /\ k (pos + String.length u) v g' = Some res.
Proof.
  induction r as [|p|r1 IH1 r2 IH2|r1 IH1|r1 IH1|r1 IH1|n r1 IH1| |];
    intros pos rest g k res; cbn [Re.exec denotes].
  - intros Hk. exists "", rest, g. rewrite sapp_nil_l. cbn [String.length].
    by rewrite Nat.add_0_r.
  - destruct rest as [|c rest]; [done|]. destruct (p c) eqn:Hc; [|done].
    intros Hk. exists (String c ""), rest, g. cbn [String.length].
    rewrite Nat.add_1_r. split; [done|]. split; [by exists c|done].
  - intros H. apply IH1 in H as (u1 & v1 & g1 & -> & H1 & H).
    apply IH2 in H as (u2 & v & g2 & -> & H2 & Hk).
    exists (u1 +:+ u2), v, g2. rewrite slength_app, Nat.add_assoc, sapp_assoc.
    split; [done|]. split; [by exists u1, u2|done].
  - destruct (Re.exec r1 pos rest g k) as [m|] eqn:H1.
    + intros [= ->]. apply IH1 in H1 as (u & v & g' & -> & H1 & Hk).
      exists u, v, g'. by auto.
    + intros Hk. exists "", rest, g. rewrite sapp_nil_l. cbn [String.length].
      rewrite Nat.add_0_r. by auto.
  - apply star_loop_sound. exact IH1.
  - apply lazy_loop_sound. exact IH1.
  - intros H. apply IH1 in H as (u & v & g' & -> & H1 & Hk). by eauto 6.
  - destruct (Nat.eqb_spec pos 0) as [->|]; [|done]. intros Hk.
    exists "", rest, g. rewrite sapp_nil_l. by auto.
  - intros H. exists "", rest, g. rewrite sapp_nil_l. cbn [String.length].
    rewrite Nat.add_0_r. destruct rest as [|c [|c' rest]]; [by auto| |done].
    destruct (Ascii.eqb_spec c Py.newline) as [->|]; [by auto|done].
Qed.

Section LoopsComplete.

Variable body : nat -> string -> gmap nat (nat * nat) -> Re.cont
                -> option (nat * gmap nat (nat * nat)).
Variable P : nat -> string -> string -> Prop.
Variable k : Re.cont.

Hypothesis body_complete : forall pos u v k',
  P pos u v -> (forall g, is_Some (k' (pos + String.length u) v g)) ->
  forall g, is_Some (body pos (u +:+ v) g k').

Lemma star_loop_complete (pos : nat) (u v : string) :
  repeated P pos u v -> (forall g, is_Some (k (pos + String.length u) v g)) ->
  forall fuel g, String.length u < fuel ->
    is_Some (Re.star_loop body k fuel pos (u +:+ v) g).
Proof.
  induction 1 as [pos v|pos u1 u2 v Hne HP Hrep IH]; intros Hk fuel g Hfuel.
  - rewrite sapp_nil_l. cbn [String.length] in Hk. rewrite Nat.add_0_r in Hk.
    destruct fuel as [|fuel]; cbn [Re.star_loop]; [done|].
    by destruct (body pos v g _).
  - destruct fuel as [|fuel]; [lia|]. cbn [Re.star_loop].
    rewrite slength_app in Hfuel, Hk. rewrite Nat.add_assoc in Hk.
    assert (Hlen : 0 < String.length u1) by (destruct u1; [done|cbn; lia]).
    rewrite sapp_assoc.
    destruct (body_complete pos u1 (u2 +:+ v)
                (fun pos' rest' g' =>
                   if (pos <? pos')%nat
                   then Re.star_loop body k fuel pos' rest' g' else None) HP) with g
      as [m ->]; [|done].
    intros g'. destruct (Nat.ltb_spec pos (pos + String.length u1)); [|lia].
    apply IH; [done|lia].
Qed.

Lemma lazy_loop_complete (pos : nat) (u v : string) :
  repeated P pos u v -> (forall g, is_Some (k (pos + String.length u) v g)) ->
  forall fuel g, String.length u < fuel ->
    is_Some (Re.lazy_loop body k fuel pos (u +:+ v) g).
Proof.
  induction 1 as [pos v|pos u1 u2 v Hne HP Hrep IH]; intros Hk fuel g Hfuel.
  - rewrite sapp_nil_l. cbn [String.length] in Hk. rewrite Nat.add_0_r in Hk.
    destruct (Hk g) as [m Hm]. destruct fuel; cbn [Re.lazy_loop]; by rewrite Hm.
  - destruct fuel as [|fuel]; [lia|]. cbn [Re.lazy_loop].
    destruct (k pos _ g); [done|].
    rewrite slength_app in Hfuel, Hk. rewrite Nat.add_assoc in Hk.
    assert (Hlen : 0 < String.length u1) by (destruct u1; [done|cbn; lia]).
    rewrite sapp_assoc. apply body_complete; [done|].
    intros g'. destruct (Nat.ltb_spec pos (pos + String.length u1)); [|lia].
    apply IH; [done|lia].
Qed.

End LoopsComplete.

(** The matcher finds a match on every text of the pattern after which the
    continuation succeeds, whatever the groups. *)
Lemma exec_complete (r : Re.regex) : forall pos u v k,
  denotes r pos u v -> (forall g, is_Some (k (pos + String.length u) v g)) ->
  forall g, is_Some (Re.exec r pos (u +:+ v) g k).
Proof.
  induction r as [|p|r1 IH1 r2 IH2|r1 IH1|r1 IH1|r1 IH1|n r1 IH1| |];
    intros pos u v k; cbn [Re.exec denotes].
  - intros -> Hk g. rewrite sapp_nil_l. cbn [String.length] in Hk.
    rewrite Nat.add_0_r in Hk. apply Hk.
  - intros (c & -> & Hc) Hk g. rewrite sapp_cons, sapp_nil_l, Hc.
    cbn [String.length] in Hk. rewrite Nat.add_1_r in Hk. apply Hk.
  - intros (u1 & u2 & -> & H1 & H2) Hk g. rewrite sapp_assoc.
    apply IH1; [done|]. intros g'. apply IH2; [done|].
    intros g''. rewrite slength_app, Nat.add_assoc in Hk. apply Hk.
  - intros [H1 | ->] Hk g.
    + by destruct (IH1 pos u v k H1 Hk g) as [m ->].
    + rewrite sapp_nil_l. cbn [String.length] in Hk. rewrite Nat.add_0_r in Hk.
      by destruct (Re.exec r1 pos v g k).
  - intros Hrep Hk g. apply (star_loop_complete _ _ _ IH1); [done..|].
    rewrite slength_app. lia.
  - intros Hrep Hk g. apply (lazy_loop_complete _ _ _ IH1); [done..|].
    rewrite slength_app. lia.
  - intros H1 Hk g. apply IH1; [done|]. intros g'. apply Hk.
  - intros [-> ->] Hk g. rewrite sapp_nil_l. apply Hk.
  - intros [-> Hv] Hk g. rewrite sapp_nil_l. cbn [String.length] in Hk.
    rewrite Nat.add_0_r in Hk.
    destruct Hv as [-> | ->]; [apply Hk|]. rewrite Ascii.eqb_refl. apply Hk.
Qed.

(** ** The texts of [FORMAT] *)

Lemma denotes_Seq_cons (r r' : Re.regex) (rs : list Re.regex) (pos : nat) (u v : string) :
  denotes (Re.Seq (r :: r' :: rs)) pos u v
  <-> exists u1 u2, u = u1 +:+ u2 /\ denotes r pos u1 (u2 +:+ v)
                    /\ denotes (Re.Seq (r' :: rs)) (pos + String.length u1) u2 v.
Proof. reflexivity. Qed.

(** A group stands for the texts of its pattern, and so does a sequence of
    one pattern. *)
Ltac ungroup H :=
  repeat match type of H with
         | denotes (Re.Seq [?r]) ?p ?u ?v => change (denotes r p u v) in H
         | denotes (Re.Group _ ?r) ?p ?u ?v => change (denotes r p u v) in H
         end.
Ltac ungroup_goal :=
  repeat match goal with
         | |- denotes (Re.Seq [?r]) ?p ?u ?v => change (denotes r p u v)
         | |- denotes (Re.Group _ ?r) ?p ?u ?v => change (denotes r p u v)
         end.

Lemma repeated_class (p : ascii -> bool) (pos : nat) (u v : string) :
  repeated (denotes (Re.Chr p)) pos u v <-> all_chars p u = true.
Proof.
  split.
  - induction 1 as [|pos u1 u2 v _ (c & -> & Hc) _ IH]; [done|].
    rewrite sapp_cons, sapp_nil_l. cbn [all_chars]. by rewrite Hc, IH.
  - revert pos. induction u as [|c u IH]; intros pos Hall; [constructor|].
    cbn [all_chars] in Hall. apply andb_true_iff in Hall as [Hc Hall].
    change (String c u) with (String c "" +:+ u).
    apply repeated_cons; [done|by exists c|by apply IH].
Qed.

Lemma denotes_Plus_class (p : ascii -> bool) (pos : nat) (u v : string) :
  denotes (Re.Plus (Re.Chr p)) pos u v <-> u <> "" /\ all_chars p u = true.
Proof.
  unfold Re.Plus. cbn [denotes]. split.
  - intros (u1 & u2 & -> & (c & -> & Hc) & Hrep%repeated_class).
    rewrite sapp_cons, sapp_nil_l. cbn [all_chars]. by rewrite Hc, Hrep.
  - intros [Hne Hall]. destruct u as [|c u]; [done|].
    cbn [all_chars] in Hall. apply andb_true_iff in Hall as [Hc Hall].
    exists (String c ""), u. split; [done|]. split; [by exists c|].
    by apply repeated_class.
Qed.

(** An optional group of white space stands for the blank texts. *)
Lemma denotes_gap (n pos : nat) (u v : string) :
  denotes (Re.Opt (Re.Group n Notebook.spaces)) pos u v
  <-> all_chars Py.isspace u = true.
Proof.
  cbn [denotes]. unfold Notebook.spaces. rewrite denotes_Plus_class. split.
  - by intros [[_ H] | ->].
  - intros H. destruct u; [by right|by left].
Qed.

Lemma denotes_Lit (c : ascii) (pos : nat) (u v : string) :
  denotes (Re.Lit c) pos u v <-> u = String c "".
Proof.
  unfold Re.Lit. cbn [denotes]. split.
  - by intros (c' & -> & ->%Ascii.eqb_eq).
  - intros ->. exists c. by rewrite Ascii.eqb_refl.
Qed.

Lemma denotes_Str (s : string) (pos : nat) (u v : string) :
  denotes (Re.Str s) pos u v <-> u = s.
Proof.
  revert pos u. induction s as [|c s IH]; intros pos u; [done|].
  cbn [Re.Str denotes]. fold (denotes (Re.Lit c)). split.
  - intros (u1 & u2 & -> & ->%denotes_Lit & ->%IH). done.
  - intros ->. exists (String c ""), s. split; [done|].
    split; [by apply denotes_Lit|by apply IH].
Qed.

(** [-?[0-9]*] stands for an optional minus sign and digits. *)
Lemma denotes_bound (pos : nat) (u v : string) :
  denotes (Re.Cat (Re.Opt (Re.Lit "-")) Notebook.digit_star) pos u v
  <-> signed_digits u.
Proof.
  cbn [denotes]. fold (denotes (Re.Lit "-")). unfold signed_digits. split.
  - intros (u1 & u2 & -> & H1 & Hrep%repeated_class). exists u2. split; [done|].
    destruct H1 as [->%denotes_Lit | ->]; [by right|by left].
  - intros (ds & Hds & [-> | ->]).
    + exists "", ds. split; [done|]. split; [by right|by apply repeated_class].
    + exists "-", ds. split; [done|].
      split; [left; by apply denotes_Lit|by apply repeated_class].
Qed.

Lemma denotes_language (pos : nat) (u v : string) :
  denotes (Re.Cat (Re.Opt (Re.Lit "-"))
             (Re.Star (Re.Chr Notebook.language_char))) pos u v
  <-> all_chars Notebook.language_char u = true.
Proof.
  cbn [denotes]. fold (denotes (Re.Lit "-")). split.
  - intros (u1 & u2 & -> & H1 & Hrep%repeated_class).
    destruct H1 as [->%denotes_Lit | ->]; [|done].
    rewrite sapp_cons, sapp_nil_l. cbn [all_chars]. by rewrite Hrep.
  - intros Hall. exists "", u. split; [done|].
    split; [by right|by apply repeated_class].
Qed.

(** The optional cells clause and the optional language clause. *)
Lemma denotes_cells (pos : nat) (u v : string) :
  denotes (Re.Opt (Re.Group 4 (Re.Seq [
      Re.Group 5 (Re.Str "cells[");
      Re.Group 6 (Re.Cat (Re.Opt (Re.Lit "-")) Notebook.digit_star);
      Re.Lit ":";
      Re.Group 7 (Re.Cat (Re.Opt (Re.Lit "-")) Notebook.digit_star);
      Re.Group 8 (Re.Lit "]") ]))) pos u v
  <-> exists c, u = cells_clause c
                /\ forall A B, c = Some (A, B) -> signed_digits A /\ signed_digits B.
Proof.
  change (denotes (Re.Opt (Re.Group 4 ?r)) pos u v)
    with (denotes r pos u v \/ u = "").
  split.
  - intros [H | ->]; [|by exists None].
    apply denotes_Seq_cons in H as (w1 & r1 & -> & H1 & H). ungroup H1.
    apply denotes_Str in H1 as ->.
    apply denotes_Seq_cons in H as (A & r2 & -> & HA & H). ungroup HA.
    apply denotes_bound in HA.
    apply denotes_Seq_cons in H as (w2 & r3 & -> & H2 & H).
    apply denotes_Lit in H2 as ->.
    apply denotes_Seq_cons in H as (B & r4 & -> & HB & H). ungroup HB. ungroup H.
    apply denotes_bound in HB. apply denotes_Lit in H as ->.
    exists (Some (A, B)). split; [done|]. by intros ? ? [= <- <-].
  - intros ([[A B]|] & -> & Hc); [left|by right].
    destruct (Hc A B eq_refl) as [HA HB]. cbn [cells_clause].
    apply denotes_Seq_cons. exists "cells[". eexists. split; [done|].
    split; [ungroup_goal; by apply denotes_Str|].
    apply denotes_Seq_cons. exists A. eexists. split; [done|].
    split; [ungroup_goal; by apply denotes_bound|].
    apply denotes_Seq_cons. exists ":". eexists. split; [done|].
    split; [by apply denotes_Lit|].
    apply denotes_Seq_cons. exists B, "]". split; [done|].
    split; [ungroup_goal; by apply denotes_bound|ungroup_goal; by apply denotes_Lit].
Qed.

Lemma denotes_language_clause (pos : nat) (u v : string) :
  denotes (Re.Opt (Re.Group 10 (Re.Seq [
      Re.Group 11 (Re.Str "language[");
      Re.Group 12 (Re.Cat (Re.Opt (Re.Lit "-"))
                     (Re.Star (Re.Chr Notebook.language_char)));
      Re.Group 13 (Re.Lit "]") ]))) pos u v
  <-> exists l, u = language_clause l
                /\ forall X, l = Some X -> all_chars Notebook.language_char X = true.
Proof.
  change (denotes (Re.Opt (Re.Group 10 ?r)) pos u v)
    with (denotes r pos u v \/ u = "").
  split.
  - intros [H | ->]; [|by exists None].
    apply denotes_Seq_cons in H as (w1 & r1 & -> & H1 & H). ungroup H1.
    apply denotes_Str in H1 as ->.
    apply denotes_Seq_cons in H as (X & r2 & -> & HX & H). ungroup HX. ungroup H.
    apply denotes_language in HX. apply denotes_Lit in H as ->.
    exists (Some X). split; [done|]. by intros ? [= <-].
  - intros ([X|] & -> & Hl); [left|by right].
    pose proof (Hl X eq_refl) as HX. cbn [language_clause].
    apply denotes_Seq_cons. exists "language[". eexists. split; [done|].
    split; [ungroup_goal; by apply denotes_Str|].
    apply denotes_Seq_cons. exists X, "]". split; [done|].
    split; [ungroup_goal; by apply denotes_language|ungroup_goal; by apply denotes_Lit].
Qed.

(** The texts of [FORMAT] are the texts of the grammar. *)
Lemma FORMAT_denotes_grammar (u v : string) :
  denotes Notebook.FORMAT 0 u v -> notebook_grammar (u +:+ v).
Proof.
  unfold Notebook.FORMAT. intros H.
  apply denotes_Seq_cons in H as (w & r0 & -> & [-> _] & H).
  apply denotes_Seq_cons in H as (lead & r1 & -> & Hlead%denotes_gap & H).
  apply denotes_Seq_cons in H as (src & r2 & -> & Hsrc & H). ungroup Hsrc.
  apply denotes_Plus_class in Hsrc.
  apply denotes_Seq_cons in H as (gap1 & r3 & -> & Hg1%denotes_gap & H).
  apply denotes_Seq_cons in H as (cc & r4 & -> & (c & -> & Hc)%denotes_cells & H).
  apply denotes_Seq_cons in H as (gap2 & r5 & -> & Hg2%denotes_gap & H).
  apply denotes_Seq_cons
    in H as (ll & r6 & -> & (l & -> & Hl)%denotes_language_clause & H).
  apply denotes_Seq_cons in H as (gap3 & r7 & -> & Hg3%denotes_gap & H).
  ungroup H. destruct H as [-> Hv].
  exists lead, src, gap1, gap2, (gap3 +:+ v), c, l.
  split; [by rewrite sapp_nil_l, sapp_nil_r, !sapp_assoc|].
  do 6 (split; [done|]). rewrite all_chars_app, Hg3. by destruct Hv as [-> | ->].
Qed.

Lemma grammar_denotes_FORMAT (markup : string) :
  notebook_grammar markup -> denotes Notebook.FORMAT 0 markup "".
Proof.
  intros (lead & src & gap1 & gap2 & gap3 & c & l
          & -> & Hlead & Hsrc & Hg1 & Hc & Hg2 & Hl & Hg3).
  unfold Notebook.FORMAT.
  apply denotes_Seq_cons. exists "". eexists. split; [done|]. split; [done|].
  apply denotes_Seq_cons. exists lead. eexists. split; [done|].
  split; [by apply denotes_gap|].
  apply denotes_Seq_cons. exists src. eexists. split; [done|].
  split; [ungroup_goal; by apply denotes_Plus_class|].
  apply denotes_Seq_cons. exists gap1. eexists. split; [done|].
  split; [by apply denotes_gap|].
  apply denotes_Seq_cons. exists (cells_clause c). eexists. split; [done|].
  split; [apply denotes_cells; by exists c|].
  apply denotes_Seq_cons. exists gap2. eexists. split; [done|].
  split; [by apply denotes_gap|].
  apply denotes_Seq_cons. exists (language_clause l). eexists. split; [done|].
  split; [apply denotes_language_clause; by exists l|].
  apply denotes_Seq_cons. exists gap3, "". split; [by rewrite sapp_nil_r|].
  split; [by apply denotes_gap|]. ungroup_goal. split; [done|by left].
Qed.

(** [FORMAT] begins with [^]: a search finds a match at the start of the
    text or nowhere. *)
Lemma search_from_FORMAT (s : string) (pos : nat) (rest : string) :
  Re.search_from Notebook.FORMAT s (S pos) rest = None.
Proof.
  revert pos. induction rest as [|c rest IH]; intros pos; cbn [Re.search_from].
  - reflexivity.
  - change (Re.exec_at Notebook.FORMAT (S pos) (String c rest)) with (@None (nat * gmap nat (nat * nat))).
    apply IH.
Qed.

(** [FORMAT.search] finds a match exactly on the texts of the grammar. *)
Lemma search_FORMAT_grammar (markup : string) :
  is_Some (Re.search Notebook.FORMAT markup) <-> notebook_grammar markup.
Proof.
  split.
  - intros [m Hm]. unfold Re.search in Hm.
    assert (exists res, Re.exec_at Notebook.FORMAT 0 markup = Some res) as [res Hres].
    { destruct markup as [|c rest]; cbn [Re.search_from] in Hm;
        destruct (Re.exec_at Notebook.FORMAT 0 _) as [res|]; eauto; [done|].
      by rewrite search_from_FORMAT in Hm. }
    apply exec_sound in Hres as (u & v & g' & -> & Hden & _).
    by apply FORMAT_denotes_grammar.
  - intros Hden%grammar_denotes_FORMAT.
    destruct (exec_complete Notebook.FORMAT 0 markup "" (fun e _ g => Some (e, g)) Hden
                ltac:(by eauto) ∅) as [[e g] Hm].
    rewrite sapp_nil_r in Hm. eexists. by apply search_hit.
Qed.

(** [int] raises its own error and no other. *)
Lemma int_raises (s : string) (e : Py.exn) :
  Py.int s = Py.Raise e -> e = Py.int_error s.
Proof.
  unfold Py.int. destruct s as [|c s]; [congruence|].
  destruct (Ascii.eqb c "-"); [|destruct (Ascii.eqb c "+")];
    try (destruct s; [congruence|]);
    destruct (Py.digits_value 0 _); congruence.
Qed.

Lemma int_error_not_syntax_error (s : string) :
  Py.int_error s <> Notebook.syntax_error.
Proof.
  unfold Py.int_error, Notebook.syntax_error. rewrite !sapp_cons. intros [=].
Qed.

(** On a text of the grammar the parsing step returns the arguments or
    raises the error of [int]: the error that shows the expected syntax is
    raised on the texts outside the grammar and on no other. *)
Lemma notebook_args_syntax_error (markup : string) :
  Notebook.notebook_args markup = Py.Raise Notebook.syntax_error
  <-> ~ notebook_grammar markup.
Proof.
  unfold Notebook.notebook_args. split.
  - intros H [m Hm]%search_FORMAT_grammar. rewrite Hm in H.
    destruct (Notebook.truthy (Re.group m 6)).
    + destruct (Py.int _) as [a|e] eqn:Ha; cbn [Py.bind] in H.
      * destruct (Notebook.truthy (Re.group m 7)); [|done].
        destruct (Py.int (default "" (Re.group m 7))) as [b|e] eqn:Hb;
          cbn [Py.bind] in H; [done|].
        apply int_raises in Hb as ->.
        apply (int_error_not_syntax_error (default "" (Re.group m 7))). congruence.
      * apply int_raises in Ha as ->.
        apply (int_error_not_syntax_error (default "" (Re.group m 6))). congruence.
    + cbn [Py.bind] in H. destruct (Notebook.truthy (Re.group m 7)); [|done].
      destruct (Py.int (default "" (Re.group m 7))) as [b|e] eqn:Hb;
        cbn [Py.bind] in H; [done|].
      apply int_raises in Hb as ->.
      apply (int_error_not_syntax_error (default "" (Re.group m 7))). congruence.
  - intros Hno. destruct (Re.search Notebook.FORMAT markup) as [m|] eqn:Hm; [|done].
    destruct Hno. apply search_FORMAT_grammar. by exists m.
Qed.

(** ** Claims about the notebook tag *)

(** C7: the cell range of the argument text. For every path token [src]
    and all bounds [a], [b], each an integer of either sign or absent, the
    argument text [src cells[a:b]] parses to [src], to start [a], or 0 when
    [a] is absent, and to end [b], or no end when [b] is absent; the
    argument text [src] alone parses to start 0 and no end. So [cells[2:5]]
    gives 2 and 5, [cells[:5]] gives 0 and 5, [cells[2:]] gives 2 and no
    end, and a negative bound is the negative integer that was written. *)
Theorem notebook_args_cell_range (src : string) (a b : option Z) :
  path_token src ->
  Notebook.notebook_args
    (src +:+ " cells[" +:+ bound_text a +:+ ":" +:+ bound_text b +:+ "]")
    = Py.Ok (Notebook.mkArgs (Some src) (default 0%Z a) b None)
  /\ Notebook.notebook_args src = Py.Ok (Notebook.mkArgs (Some src) 0 None None).
Proof.
  intros Hsrc. split; [by apply notebook_args_cells | by apply notebook_args_plain].
Qed.

Lemma notebook_args_cell_range_witness :
  path_token "nb.ipynb"
  /\ Notebook.notebook_args "nb.ipynb cells[2:5]"
     = Py.Ok (Notebook.mkArgs (Some "nb.ipynb") 2 (Some 5%Z) None)
  /\ Notebook.notebook_args "nb.ipynb cells[:5]"
     = Py.Ok (Notebook.mkArgs (Some "nb.ipynb") 0 (Some 5%Z) None)
  /\ Notebook.notebook_args "nb.ipynb cells[2:]"
     = Py.Ok (Notebook.mkArgs (Some "nb.ipynb") 2 None None)
  /\ Notebook.notebook_args "nb.ipynb"
     = Py.Ok (Notebook.mkArgs (Some "nb.ipynb") 0 None None)
  /\ Notebook.notebook_args "nb.ipynb cells[-3:-1]"
     = Py.Ok (Notebook.mkArgs (Some "nb.ipynb") (-3) (Some (-1)%Z) None)
  /\ Notebook.notebook_args "nb.ipynb cells[-12:40]"
     = Py.Ok (Notebook.mkArgs (Some "nb.ipynb") (-12) (Some 40%Z) None).
Proof.
  assert (H : path_token "nb.ipynb") by (split; [discriminate | reflexivity]).
  split; [exact H|].
  split; [exact (proj1 (notebook_args_cell_range "nb.ipynb" (Some 2%Z) (Some 5%Z) H))|].
  split; [exact (proj1 (notebook_args_cell_range "nb.ipynb" None (Some 5%Z) H))|].
  split; [exact (proj1 (notebook_args_cell_range "nb.ipynb" (Some 2%Z) None H))|].
  split; [exact (proj2 (notebook_args_cell_range "nb.ipynb" None None H))|].
  split; [exact (proj1 (notebook_args_cell_range "nb.ipynb" (Some (-3)%Z) (Some (-1)%Z) H))|].
  exact (proj1 (notebook_args_cell_range "nb.ipynb" (Some (-12)%Z) (Some 40%Z) H)).
Defined.



(** Any failure of the parsing step, a bound that [int] rejects included,
    leaves the collaborators unasked as well. *)
Lemma notebook_args_failure_asks_nothing {Cell Meta : Type}
    (env : @Notebook.Collaborators Cell Meta) (CSS_INCLUDE JS_INCLUDE : string)
    (preprocessor : _LiquidTagsPreprocessor) (tag markup : string)
    (hist : list (@Notebook.event Cell Meta)) (e : Py.exn) :
  Notebook.notebook_args markup = Py.Raise e ->
  Notebook.notebook env CSS_INCLUDE JS_INCLUDE preprocessor tag markup hist
  = (Py.Raise e, hist).
Proof. intros H. unfold Notebook.notebook. by rewrite H. Qed.



(** C9: the compilation step. The first command is [lessc - --clean-css];
    the second command, [lessc -], is run exactly when the exit code of the
    first is not zero, and it is run once. The step raises its exception
    exactly when the exit code of the last attempt is not zero or its output
    is empty, and returns the output of the last attempt otherwise; so a
    first attempt that fails and a second that exits with zero and some
    output give the output of the second and no error. *)
Theorem compile_css_retries_once {Cell Meta : Type}
    (env : @Notebook.Collaborators Cell Meta) (css : string)
    (hist : list (@Notebook.event Cell Meta)) (p1 p2 : Notebook.CompletedProcess) :
  Notebook.subprocess_run env hist ["lessc"; "-"; "--clean-css"] css = Py.Ok p1 ->
  (Notebook.returncode p1 <> 0%Z ->
   Notebook.subprocess_run env (hist ++ [first_attempt css]) ["lessc"; "-"] css
     = Py.Ok p2) ->
  (Notebook.compile_css env css hist).2
    = (hist ++ (if (Notebook.returncode p1 =? 0)%Z
                then [first_attempt css]
                else [first_attempt css; second_attempt css]))%list
  /\ ((Notebook.compile_css env css hist).1 = Py.Raise Notebook.css_error
      <-> (Notebook.returncode (if (Notebook.returncode p1 =? 0)%Z then p1 else p2) <> 0%Z
           \/ Notebook.stdout (if (Notebook.returncode p1 =? 0)%Z then p1 else p2) = ""))
  /\ ((Notebook.compile_css env css hist).1
        = Py.Ok (Notebook.stdout (if (Notebook.returncode p1 =? 0)%Z then p1 else p2))
      <-> ~ (Notebook.returncode (if (Notebook.returncode p1 =? 0)%Z then p1 else p2) <> 0%Z
             \/ Notebook.stdout (if (Notebook.returncode p1 =? 0)%Z then p1 else p2) = ""))
  /\ (Notebook.returncode p1 <> 0%Z -> Notebook.returncode p2 = 0%Z ->
      Notebook.stdout p2 <> "" ->
      Notebook.compile_css env css hist
        = (Py.Ok (Notebook.stdout p2),
           (hist ++ [first_attempt css; second_attempt css])%list)).
Proof.
  intros H1 H2. unfold Notebook.compile_css, Notebook.run_less.
  rewrite H1. cbn [removelast]. unfold first_attempt, second_attempt in *.
  destruct (Z.eqb_spec (Notebook.returncode p1) 0) as [E1|E1].
  - rewrite E1. change (0 =? 0)%Z with true. cbn [negb orb].
    destruct (String.eqb_spec (Notebook.stdout p1) "") as [E|E]; cbn [fst snd];
      repeat split; intros; first [done | congruence | intuition congruence].
  - rewrite (H2 E1). rewrite <- app_assoc. cbn [app].
    destruct (Z.eqb_spec (Notebook.returncode p2) 0) as [E2|E2]; cbn [negb orb];
      [destruct (String.eqb_spec (Notebook.stdout p2) "") as [E|E]|]; cbn [fst snd];
      repeat split; intros; first [done | congruence | intuition congruence].
Qed.

Lemma compile_css_retries_once_witness :
  Notebook.subprocess_run some_collaborators [] ["lessc"; "-"; "--clean-css"] "div{}"
    = Py.Ok (Notebook.mkCompletedProcess 1 "")
  /\ Notebook.compile_css some_collaborators "div{}" []
     = (Py.Ok "div#nb-wrapper p{margin:0}",
        [first_attempt "div{}"; second_attempt "div{}"]).
Proof.
  assert (H1 : Notebook.subprocess_run some_collaborators [] ["lessc"; "-"; "--clean-css"]
                 "div{}" = Py.Ok (Notebook.mkCompletedProcess 1 ""))
    by reflexivity.
  split; [exact H1|].
  destruct (compile_css_retries_once some_collaborators "div{}" []
              (Notebook.mkCompletedProcess 1 "")
              (Notebook.mkCompletedProcess 0 "div#nb-wrapper p{margin:0}")
              H1 (fun _ => eq_refl)) as (_ & _ & _ & H).
  apply H; [discriminate | reflexivity | discriminate].
Defined.

(** C10: [SubCell.preprocess] works on a copy. For every heap, notebook
    object and resources reference, the call returns a notebook that did
    not exist before together with the resources reference it was given;
    the new heap is the old one plus that notebook, whose cells are the
    slice [start:end] of the input's cells and whose other fields are
    equal; every object that existed, the input notebook and the resources
    among them, is what it was. *)
Theorem preprocess_slices_a_copy {Cell Meta : Type} (self : Notebook.SubCell)
    (nb resources : Py.loc) (h : gmap Py.loc (@Notebook.obj Cell Meta))
    (node : @Notebook.NotebookNode Cell Meta) :
  h !! nb = Some (Notebook.ONotebook node) ->
  exists nbc : Py.loc,
    h !! nbc = None
    /\ Notebook.preprocess self nb resources h
       = (Py.Ok (nbc, resources),
          <[nbc := Notebook.ONotebook
                     (Notebook.mkNotebookNode
                        (Py.slice_list (Notebook.sc_start self) (Notebook.sc_end self)
                           (Notebook.cells node))
                        (Notebook.metadata node) (Notebook.nbformat node)
                        (Notebook.nbformat_minor node))]> h)
    /\ (Notebook.preprocess self nb resources h).2 !! nb = Some (Notebook.ONotebook node)
    /\ (forall l o, h !! l = Some o ->
          (Notebook.preprocess self nb resources h).2 !! l = Some o).
Proof.
  intros Hnb. exists (fresh (dom h)).
  assert (Hfresh : h !! fresh (dom h) = None).
  { apply not_elem_of_dom. apply is_fresh. }
  assert (E : Notebook.preprocess self nb resources h
       = (Py.Ok (fresh (dom h), resources),
          <[fresh (dom h) := Notebook.ONotebook
                     (Notebook.mkNotebookNode
                        (Py.slice_list (Notebook.sc_start self) (Notebook.sc_end self)
                           (Notebook.cells node))
                        (Notebook.metadata node) (Notebook.nbformat node)
                        (Notebook.nbformat_minor node))]> h)).
  { unfold Notebook.preprocess, Notebook.deepcopy, Py.alloc. rewrite Hnb.
    rewrite lookup_insert_eq. by rewrite insert_insert_eq. }
  rewrite E. cbn [snd]. split; [done|]. split; [done|].
  assert (Hold : forall l o, h !! l = Some o ->
            <[fresh (dom h) := Notebook.ONotebook
                (Notebook.mkNotebookNode
                   (Py.slice_list (Notebook.sc_start self) (Notebook.sc_end self)
                      (Notebook.cells node))
                   (Notebook.metadata node) (Notebook.nbformat node)
                   (Notebook.nbformat_minor node))]> h !! l = Some o).
  { intros l o Hl. rewrite lookup_insert_ne; [done|]. intros <-. congruence. }
  split; [by apply Hold | exact Hold].
Qed.

Lemma preprocess_slices_a_copy_witness :
  a_heap !! 0 = Some (Notebook.ONotebook three_cells)
  /\ (Notebook.preprocess (Notebook.mkSubCell (Some 1%Z) (Some (-1)%Z)) 0 1 a_heap).1
     = Py.Ok (2, 1)
  /\ (Notebook.preprocess (Notebook.mkSubCell (Some 1%Z) (Some (-1)%Z)) 0 1 a_heap).2 !! 2
     = Some (Notebook.ONotebook (Notebook.mkNotebookNode ["c1"] tt 4 2))
  /\ (Notebook.preprocess (Notebook.mkSubCell (Some 1%Z) (Some (-1)%Z)) 0 1 a_heap).2 !! 0
     = Some (Notebook.ONotebook three_cells)
  /\ (Notebook.preprocess (Notebook.mkSubCell (Some 1%Z) (Some (-1)%Z)) 0 1 a_heap).2 !! 1
     = Some (Notebook.OResources (Notebook.mkResources [])).
Proof.
  assert (H0 : a_heap !! 0 = Some (Notebook.ONotebook three_cells))
    by (vm_compute; reflexivity).
  destruct (preprocess_slices_a_copy (Notebook.mkSubCell (Some 1%Z) (Some (-1)%Z))
              0 1 a_heap three_cells H0) as (nbc & _ & _ & Hnb & Hold).
  split; [exact H0|].
  split; [vm_compute; reflexivity|]. split; [vm_compute; reflexivity|].
  split; [exact Hnb|].
  apply Hold. vm_compute. reflexivity.
Defined.

(** * Further properties *)

(** ** The scanner of tag spans *)

Lemma exec_Chr_miss (p : ascii -> bool) c rest pos g (k : Re.cont) :
  p c = false -> Re.exec (Re.Chr p) pos (String c rest) g k = None.
Proof. intros H. apply exec_Chr_stop. unfold stops_at. by rewrite H. Qed.

Lemma close_k_spec pos r g :
  close_k pos r g = if starts_with "%}" r then Some (S (S pos), g) else None.
Proof.
  unfold close_k. destruct r as [|c [|d r] ]; cbn [starts_with].
  - reflexivity.
  - rewrite exec_Cat. unfold Re.Lit. destruct (Ascii.eqb "%" c) eqn:E.
    + rewrite exec_Chr_hit by done. reflexivity.
    + rewrite exec_Chr_miss by done. reflexivity.
  - rewrite exec_Cat. unfold Re.Lit. destruct (Ascii.eqb "%" c) eqn:E.
    + rewrite exec_Chr_hit by done. destruct (Ascii.eqb "}" d) eqn:E'.
      * rewrite exec_Chr_hit by done. reflexivity.
      * rewrite exec_Chr_miss by done. reflexivity.
    + rewrite exec_Chr_miss by done. reflexivity.
Qed.

Lemma starts_with_app (p s t : string) :
  starts_with p s = true -> starts_with p (s +:+ t) = true.
Proof.
  revert s. induction p as [|a p IH]; intros [|b s]; cbn [starts_with]; try done.
  rewrite sapp_cons. cbn [starts_with]. intros [-> H]%andb_true_iff. by rewrite IH.
Qed.

Lemma starts_with_self (p t : string) : starts_with p (p +:+ t) = true.
Proof. induction p as [|a p IH]; [done|]. rewrite sapp_cons. cbn [starts_with].
  by rewrite Ascii.eqb_refl, IH. Qed.

Lemma starts_with_split (p s : string) :
  starts_with p s = true -> s = p +:+ Py.drop (String.length p) s.
Proof.
  revert s. induction p as [|a p IH]; intros [|b s]; cbn [starts_with]; try done.
  intros [Hab H]%andb_true_iff. apply Ascii.eqb_eq in Hab as ->.
  rewrite sapp_cons. cbn [String.length Py.drop]. by rewrite <- IH.
Qed.

(** The closing delimiter is not met inside a body that is free of it, nor
    across the end of the body. *)
Lemma free_of_close_head c body rest :
  free_of "%}" (String c body) = true ->
  starts_with "%}" (String c (body +:+ "%}" +:+ rest)) = false.
Proof.
  cbn [free_of starts_with]. intros [H _]%andb_true_iff. apply negb_true_iff in H.
  destruct (Ascii.eqb "%" c); [|done]. cbn [andb] in *.
  destruct body as [|d body].
  - reflexivity.
  - rewrite sapp_cons. cbn [starts_with] in *. by rewrite andb_true_r in *.
Qed.

Lemma lazy_loop_body body rest pos g fuel :
  free_of "%}" body = true -> String.length body <= fuel ->
  Re.lazy_loop (Re.exec (Re.Chr dot_all)) close_k fuel pos (body +:+ "%}" +:+ rest) g
  = Some (S (S (pos + String.length body)), g).
Proof.
  revert pos fuel. induction body as [|c body IH]; intros pos fuel Hfree Hfuel.
  - rewrite sapp_nil_l. destruct fuel; cbn [Re.lazy_loop]; rewrite close_k_spec;
      rewrite starts_with_self; cbn [String.length]; by rewrite Nat.add_0_r.
  - destruct fuel as [|fuel]; [cbn in Hfuel; lia|].
    rewrite sapp_cons. cbn [Re.lazy_loop]. rewrite close_k_spec.
    rewrite free_of_close_head by done.
    rewrite exec_Chr_hit by done.
    assert ((pos <? S pos)%nat = true) as -> by (apply Nat.ltb_lt; lia).
    cbn [free_of] in Hfree. apply andb_true_iff in Hfree as [_ Hfree].
    rewrite IH by (done || cbn in Hfuel; lia).
    cbn [String.length]. do 3 f_equal. lia.
Qed.

Lemma lazy_loop_inv fuel pos rest g e g' :
  Re.lazy_loop (Re.exec (Re.Chr dot_all)) close_k fuel pos rest g = Some (e, g') ->
  exists body rest',
    rest = body +:+ "%}" +:+ rest' /\ e = S (S (pos + String.length body))
    /\ free_of "%}" body = true /\ g' = g.
Proof.
  revert pos rest. induction fuel as [|fuel IH]; intros pos rest; cbn [Re.lazy_loop];
    rewrite close_k_spec; destruct (starts_with "%}" rest) eqn:Hs.
  - intros [= <- <-]. exists "", (Py.drop 2 rest). rewrite sapp_nil_l.
    split; [by apply starts_with_split|]. cbn. by rewrite Nat.add_0_r.
  - done.
  - intros [= <- <-]. exists "", (Py.drop 2 rest). rewrite sapp_nil_l.
    split; [by apply starts_with_split|]. cbn. by rewrite Nat.add_0_r.
  - destruct rest as [|c rest]; [done|]. rewrite exec_Chr_hit by done.
    assert ((pos <? S pos)%nat = true) as -> by (apply Nat.ltb_lt; lia).
    intros (body & rest' & -> & -> & Hfree & ->)%IH.
    exists (String c body), rest'. rewrite sapp_cons. split; [done|].
    split; [cbn [String.length]; lia|]. split; [|done].
    cbn [free_of]. rewrite Hfree, andb_true_r. apply negb_true_iff.
    destruct (starts_with "%}" (String c body)) eqn:E; [|done].
    apply (starts_with_app _ _ ("%}" +:+ rest')) in E. rewrite sapp_cons in E. congruence.
Qed.

Lemma exec_LazyStar r pos rest g k :
  Re.exec (Re.LazyStar r) pos rest g k
  = Re.lazy_loop (Re.exec r) k (S (String.length rest)) pos rest g.
Proof. reflexivity. Qed.

Lemma LIQUID_TAG_open (pos : nat) (rest : string) :
  Re.exec_at LIQUID_TAG pos rest
  = if starts_with "{%" rest
    then Re.lazy_loop (Re.exec (Re.Chr dot_all)) close_k
           (S (String.length (Py.drop 2 rest))) (S (S pos)) (Py.drop 2 rest) ∅
    else None.
Proof.
  unfold Re.exec_at, LIQUID_TAG. rewrite exec_Cat. unfold Re.Lit at 1.
  destruct rest as [|c rest]; [reflexivity|]. cbn [starts_with].
  destruct (Ascii.eqb "{" c) eqn:E.
  2:{ rewrite exec_Chr_miss by done. reflexivity. }
  rewrite exec_Chr_hit by done. rewrite exec_Cat. unfold Re.Lit at 1.
  destruct rest as [|d rest]; [reflexivity|]. cbn [starts_with andb].
  destruct (Ascii.eqb "%" d) eqn:E'.
  2:{ rewrite exec_Chr_miss by done. reflexivity. }
  rewrite exec_Chr_hit by done. rewrite exec_Cat, exec_LazyStar. reflexivity.
Qed.

Lemma LIQUID_TAG_span (pos : nat) (body rest : string) :
  free_of "%}" body = true ->
  Re.exec_at LIQUID_TAG pos (tag_span body +:+ rest)
  = Some (pos + String.length (tag_span body), ∅).
Proof.
  intros Hfree. rewrite LIQUID_TAG_open. unfold tag_span.
  rewrite !sapp_assoc. rewrite starts_with_self.
  change (Py.drop 2 ("{%" +:+ body +:+ "%}" +:+ rest)) with (body +:+ "%}" +:+ rest).
  rewrite lazy_loop_body; [|done|rewrite slength_app; lia].
  rewrite !slength_app. cbn [String.length]. do 2 f_equal. lia.
Qed.

Lemma LIQUID_TAG_inv (pos e : nat) (rest : string) (g : gmap nat (nat * nat)) :
  Re.exec_at LIQUID_TAG pos rest = Some (e, g) ->
  exists body rest',
    rest = tag_span body +:+ rest' /\ e = pos + String.length (tag_span body)
    /\ free_of "%}" body = true.
Proof.
  rewrite LIQUID_TAG_open. destruct (starts_with "{%" rest) eqn:Hs; [|done].
  intros (body & rest' & Hrest & -> & Hfree & _)%lazy_loop_inv.
  exists body, rest'. split.
  - rewrite (starts_with_split _ _ Hs). cbn [String.length]. rewrite Hrest.
    unfold tag_span. by rewrite !sapp_assoc.
  - split; [|done]. unfold tag_span. rewrite !slength_app. cbn [String.length]. lia.
Qed.

Lemma tag_span_length body : String.length (tag_span body) = 4 + String.length body.
Proof. unfold tag_span. rewrite !slength_app. cbn [String.length]. lia. Qed.

Lemma scan_plain (A next : string) (fuel pos : nat) (seg : string) :
  free_of "{%" A = true -> starts_with "%" next = false ->
  String.length A <= fuel ->
  Re.scan LIQUID_TAG fuel pos (A +:+ next) seg
  = Re.scan LIQUID_TAG (fuel - String.length A) (pos + String.length A) next (seg +:+ A).
Proof.
  revert fuel pos seg. induction A as [|c A IH]; intros fuel pos seg Hfree Hnext Hfuel.
  - cbn [String.length]. by rewrite sapp_nil_l, sapp_nil_r, Nat.sub_0_r, Nat.add_0_r.
  - destruct fuel as [|fuel]; [cbn in Hfuel; lia|].
    rewrite sapp_cons. cbn [Re.scan]. rewrite LIQUID_TAG_open.
    assert (starts_with "{%" (String c (A +:+ next)) = false) as ->.
    { cbn [free_of] in Hfree. apply andb_true_iff in Hfree as [H _].
      apply negb_true_iff in H. cbn [starts_with] in *.
      destruct (Ascii.eqb "{" c); [|done]. cbn [andb] in *.
      destruct A as [|d A]; [by rewrite sapp_nil_l|].
      rewrite sapp_cons. cbn [starts_with] in *. by rewrite andb_true_r in *. }
    cbn [free_of] in Hfree. apply andb_true_iff in Hfree as [_ Hfree].
    rewrite IH by (done || cbn in Hfuel; lia).
    cbn [String.length]. rewrite Nat.add_succ_r, sapp_assoc. reflexivity.
Qed.

Lemma scan_span (body rest : string) (fuel pos : nat) (seg : string) :
  free_of "%}" body = true ->
  Re.scan LIQUID_TAG (S fuel) pos (tag_span body +:+ rest) seg
  = ((seg, tag_span body)
       :: (Re.scan LIQUID_TAG fuel (pos + String.length (tag_span body)) rest "").1,
     (Re.scan LIQUID_TAG fuel (pos + String.length (tag_span body)) rest "").2).
Proof.
  intros Hfree. cbn [Re.scan]. rewrite LIQUID_TAG_span by done.
  assert ((pos <? pos + String.length (tag_span body))%nat = true) as ->
    by (apply Nat.ltb_lt; rewrite tag_span_length; lia).
  replace (pos + String.length (tag_span body) - pos) with (String.length (tag_span body))
    by lia.
  rewrite drop_app_length, take_app_length.
  by destruct (Re.scan LIQUID_TAG fuel _ rest "").
Qed.

Lemma assemble_alternating (pieces : list (string * string)) (last : string) :
  alternating (pieces.*1 ++ [last]) pieces.*2 = assemble pieces last.
Proof.
  induction pieces as [|[seg span] ps IH]; [reflexivity|].
  cbn [fmap list_fmap fst snd app alternating assemble]. by rewrite <- IH.
Qed.

Lemma scan_assemble (pieces : list (string * string)) (last : string) (fuel pos : nat) :
  Forall plain_piece pieces -> free_of "{%" last = true ->
  String.length (assemble pieces last) < fuel ->
  Re.scan LIQUID_TAG fuel pos (assemble pieces last) "" = (pieces, last).
Proof.
  intros Hp Hlast. revert fuel pos.
  induction Hp as [|[seg span] ps [Hseg (body & Hsp & Hbody)] _ IH]; intros fuel pos Hfuel;
    cbn [assemble fst snd] in *; [|subst span].
  - rewrite <- (sapp_nil_r last) at 1. rewrite scan_plain by (done || lia).
    destruct (fuel - String.length last) as [|f] eqn:E; [lia|].
    cbn [Re.scan]. by rewrite LIQUID_TAG_open.
  - rewrite !slength_app, tag_span_length in Hfuel.
    rewrite scan_plain; [|done|reflexivity|lia].
    destruct (fuel - String.length seg) as [|f] eqn:E; [lia|].
    rewrite scan_span by done. rewrite IH by lia. reflexivity.
Qed.

Lemma findall_split_assemble (pieces : list (string * string)) (last : string) :
  Forall plain_piece pieces -> free_of "{%" last = true ->
  Re.findall LIQUID_TAG (assemble pieces last) = pieces.*2
  /\ Re.split LIQUID_TAG (assemble pieces last) = (pieces.*1 ++ [last])%list.
Proof.
  intros Hp Hlast.
  unfold Re.findall, Re.split, Re.scan_all. by rewrite scan_assemble by (done || lia).
Qed.

(** X1: the scanner on a page put together from pieces. For plain texts that
    hold no [{%] and spans [{%body%}] whose body holds no [%}],
    [LIQUID_TAG.findall] of the text plain 0, span 0, plain 1, ..., last
    plain returns exactly the spans, in order, and [LIQUID_TAG.split]
    returns exactly the plain texts: scanning undoes assembling. *)
Theorem scan_round_trip (pieces : list (string * string)) (last : string) :
  Forall plain_piece pieces -> free_of "{%" last = true ->
  Re.findall LIQUID_TAG (alternating (pieces.*1 ++ [last]) pieces.*2) = pieces.*2
  /\ Re.split LIQUID_TAG (alternating (pieces.*1 ++ [last]) pieces.*2)
     = (pieces.*1 ++ [last])%list.
Proof.
  intros Hp Hlast. rewrite assemble_alternating. by apply findall_split_assemble.
Qed.

Lemma scan_round_trip_witness :
  Re.findall LIQUID_TAG "a {% x 1 %} b {% y %}c" = ["{% x 1 %}"; "{% y %}"]
  /\ Re.split LIQUID_TAG "a {% x 1 %} b {% y %}c" = ["a "; " b "; "c"].
Proof.
  apply (scan_round_trip [("a ", "{% x 1 %}"); (" b ", "{% y %}")] "c");
    [|reflexivity].
  repeat constructor; cbn [fst snd]; [by exists " x 1 " | by exists " y "].
Defined.

Lemma scan_matches (r : Re.regex) (P : string -> Prop) :
  (forall pos rest e g, Re.exec_at r pos rest = Some (e, g) -> pos < e ->
                        P (Py.take (e - pos) rest)) ->
  forall fuel pos rest seg, Forall P (Re.scan r fuel pos rest seg).1.*2.
Proof.
  intros HP. induction fuel as [|fuel IH]; intros pos rest seg; cbn [Re.scan].
  - constructor.
  - assert (Hskip : Forall P
      (match rest with
       | "" => ([], seg)
       | String c rest' => Re.scan r fuel (S pos) rest' (seg +:+ String c "")
       end).1.*2).
    { destruct rest; [constructor | apply IH]. }
    destruct (Re.exec_at r pos rest) as [ [e g]|] eqn:E; [|exact Hskip].
    destruct (Nat.ltb_spec pos e) as [Hlt|]; [|exact Hskip].
    specialize (IH e (Py.drop (e - pos) rest) "").
    destruct (Re.scan r fuel e (Py.drop (e - pos) rest) "") as [ms last].
    cbn. constructor; [by eapply HP | exact IH].
Qed.

Lemma span_body_tag_span (body : string) : span_body (tag_span body) = body.
Proof.
  unfold span_body, Py.slice_str, Py.slice_bounds, Py.clamp_index.
  rewrite tag_span_length.
  destruct (Z.ltb_spec 2 0); [lia|]. destruct (Z.ltb_spec 2 0); [lia|].
  destruct (Z.leb_spec (Z.of_nat (4 + String.length body)) 2); [lia|].
  destruct (Z.ltb_spec (-2) 0); [|lia].
  destruct (Z.ltb_spec (-2 + Z.of_nat (4 + String.length body)) 0); [lia|].
  destruct (Z.leb_spec (Z.of_nat (4 + String.length body))
              (-2 + Z.of_nat (4 + String.length body))); [lia|].
  replace (Z.to_nat (-2 + Z.of_nat (4 + String.length body)) - Z.to_nat 2)
    with (String.length body) by lia.
  change (Z.to_nat 2) with 2. unfold tag_span.
  change (Py.drop 2 ("{%" +:+ body +:+ "%}")) with (body +:+ "%}").
  apply take_app_length.
Qed.

(** X2: every match that [LIQUID_TAG.findall] returns, on any text, is [{%],
    a body without [%}], then [%}] (the match ends at the first closing
    delimiter), and [markup[2:-2]] of the match is that body. *)
Theorem findall_spans_delimited (s : string) :
  Forall (fun span =>
            exists body, span = "{%" +:+ body +:+ "%}"
                         /\ free_of "%}" body = true
                         /\ span_body span = body)
         (Re.findall LIQUID_TAG s).
Proof.
  unfold Re.findall, Re.scan_all. apply scan_matches.
  intros pos rest e g (body & rest' & -> & -> & Hfree)%LIQUID_TAG_inv _.
  replace (pos + String.length (tag_span body) - pos) with (String.length (tag_span body))
    by lia.
  rewrite take_app_length. exists body. split; [done|]. split; [done|].
  apply span_body_tag_span.
Qed.

(** ** The preprocessor on whole pages *)

(** X3: a page in which [{%] does not occur is returned as it was given: for
    a non-empty sequence of lines without line breaks, [run] returns the
    same lines and calls no handler (the state is unchanged). *)
Theorem run_plain_text_identity {World : Type} (self : _LiquidTagsPreprocessor)
    (_tags : gmap string (handler World)) (lines : list string) (w : World) :
  lines <> [] -> Forall no_newline lines ->
  free_of "{%" (Py.join Py.nl lines) = true ->
  run self _tags lines w = (Py.Ok lines, w).
Proof.
  intros Hne Hnl Hplain.
  destruct (findall_split_assemble [] (Py.join Py.nl lines)) as [Hf Hs]; [constructor|done|].
  cbn [fmap list_fmap app assemble] in Hf, Hs.
  rewrite (run_of_expand_tags self _tags lines w [] w) by (by rewrite Hf).
  rewrite Hs. cbn [alternating]. by rewrite split_join.
Qed.

Lemma run_plain_text_identity_witness :
  run a_preprocessor two_tags ["100% { plain } text"; "a {{ b }} %}"] []
  = (Py.Ok ["100% { plain } text"; "a {{ b }} %}"], []).
Proof.
  apply (run_plain_text_identity a_preprocessor two_tags);
    [discriminate | repeat constructor | vm_compute; reflexivity].
Defined.

(** A page with one tag span: the span is expanded and its replacement
    stands where the span stood. *)
Lemma run_one_span {World : Type} (self : _LiquidTagsPreprocessor)
    (_tags : gmap string (handler World)) (lines : list string) (w : World)
    (A body B : string) :
  Py.join Py.nl lines = A +:+ "{%" +:+ body +:+ "%}" +:+ B ->
  free_of "{%" A = true -> free_of "%}" body = true -> free_of "{%" B = true ->
  run self _tags lines w
  = match expand_tag self _tags ("{%" +:+ body +:+ "%}") w with
    | (Py.Ok R, w') => (Py.Ok (Py.split Py.newline (A +:+ R +:+ B)), w')
    | (Py.Raise e, w') => (Py.Raise e, w')
    end.
Proof.
  intros Hpage HA Hbody HB.
  destruct (findall_split_assemble [(A, tag_span body)] B) as [Hf Hs]; [|done|].
  { repeat constructor; [done|]. by exists body. }
  cbn [fmap list_fmap app assemble fst snd] in Hf, Hs. unfold tag_span in *.
  rewrite <- !sapp_assoc in Hpage. rewrite <- !sapp_assoc in Hf, Hs.
  rewrite <- Hpage in Hf, Hs.
  unfold run. rewrite Hf, Hs. cbn [expand_tags].
  destruct (expand_tag self _tags ("{%" +:+ body +:+ "%}") w) as [ [R|e] w']; [|done].
  cbn [app Py.zip_chain]. rewrite !join_empty_cons. cbn [Py.join].
  by rewrite !sapp_nil_r.
Qed.

Lemma exec_token (n : nat) (tok rest : string) (pos : nat) (g : gmap nat (nat * nat))
    (k : Re.cont) (m : nat * gmap nat (nat * nat)) :
  tok <> "" -> all_chars nonspace tok = true -> stops_at nonspace rest = true ->
  k (pos + String.length tok) rest (<[n := (pos, pos + String.length tok)]> g) = Some m ->
  Re.exec (Re.Group n (Re.Plus (Re.Chr nonspace))) pos (tok +:+ rest) g k = Some m.
Proof.
  destruct tok as [|c tok]; [done|]. intros _ Hall Hstop Hk.
  cbn [all_chars] in Hall. apply andb_true_iff in Hall as [Hc Hall].
  unfold Re.Plus. rewrite exec_Group, exec_Cat, sapp_cons, exec_Chr_hit by done.
  apply exec_Star_class; [done..|].
  cbn [String.length] in Hk. rewrite Nat.add_succ_r in Hk. exact Hk.
Qed.

Lemma stops_at_token (tok rest : string) :
  tok <> "" -> all_chars nonspace tok = true -> stops_at Py.isspace (tok +:+ rest) = true.
Proof.
  destruct tok as [|c tok]; [done|]. intros _ Hall. cbn [all_chars] in Hall.
  apply andb_true_iff in Hall as [Hc _]. rewrite sapp_cons. unfold stops_at.
  unfold nonspace in Hc. by destruct (Py.isspace c).
Qed.

Lemma EXTRACT_TAG_token (lead tok gap arg : string) :
  all_chars Py.isspace lead = true -> tok <> "" -> all_chars nonspace tok = true ->
  all_chars Py.isspace gap = true -> stops_at Py.isspace arg = true ->
  stops_at nonspace (gap +:+ arg) = true ->
  Re.exec_at EXTRACT_TAG 0 (lead +:+ tok +:+ gap +:+ arg)
  = Some (String.length lead + String.length tok + String.length gap,
          <[1 := (String.length lead, String.length lead + String.length tok)]> ∅).
Proof.
  intros Hlead Hne Htok Hgap Harg Hsep. unfold Re.exec_at, EXTRACT_TAG.
  rewrite exec_Cat. apply exec_Star_class; [done|by apply stops_at_token|].
  rewrite exec_Cat. apply exec_token; [done..|].
  apply exec_Star_class; [done..|]. reflexivity.
Qed.

(** The tag name and the argument of a span [{% tok arg %}]. *)
Lemma expand_tag_parts {World : Type} (self : _LiquidTagsPreprocessor)
    (_tags : gmap string (handler World)) (lead tok gap arg : string) (w : World) :
  all_chars Py.isspace lead = true -> tok <> "" -> all_chars nonspace tok = true ->
  all_chars Py.isspace gap = true -> stops_at Py.isspace arg = true ->
  stops_at nonspace (gap +:+ arg) = true ->
  expand_tag self _tags ("{%" +:+ (lead +:+ tok +:+ gap +:+ arg) +:+ "%}") w
  = match _tags !! tok with
    | Some func => func self tok (Py.strip arg) w
    | None => (Py.Ok ("{%" +:+ (lead +:+ tok +:+ gap +:+ arg) +:+ "%}"), w)
    end.
Proof.
  intros Hlead Hne Htok Hgap Harg Hsep.
  pose proof (EXTRACT_TAG_token lead tok gap arg Hlead Hne Htok Hgap Harg Hsep) as Hm.
  unfold expand_tag.
  change (Py.slice_str (Some 2%Z) (Some (-2)%Z)
            ("{%" +:+ (lead +:+ tok +:+ gap +:+ arg) +:+ "%}"))
    with (span_body (tag_span (lead +:+ tok +:+ gap +:+ arg))).
  rewrite span_body_tag_span.
  unfold Re.sub_empty_once. rewrite (search_hit _ _ _ _ Hm).
  unfold Re.match_. rewrite Hm. unfold Re.group. cbn [Re.m_spans Re.m_string Re.m_start Re.m_end].
  rewrite lookup_insert_eq.
  rewrite (slice_mid lead tok (gap +:+ arg)) by done.
  cbn [Py.take]. rewrite sapp_nil_l.
  replace (lead +:+ tok +:+ gap +:+ arg) with ((lead +:+ tok +:+ gap) +:+ arg)
    by (by rewrite !sapp_assoc).
  replace (String.length lead + String.length tok + String.length gap)
    with (String.length (lead +:+ tok +:+ gap)) by (rewrite !slength_app; lia).
  rewrite drop_app_length. reflexivity.
Qed.

(** X4: a page with one tag [{% tok arg %}] between two plain texts [A] and
    [B], with white space [lead] and [gap] around the token [tok]. When
    [tok] is registered, [run] calls its handler once, with the tag name and
    the argument stripped of surrounding white space, and returns the lines
    of [A], the handler's text, [B], or raises what the handler raises. When
    [tok] is not registered, the page comes back as the lines of the joined
    text and no handler is called. *)
Theorem run_single_tag {World : Type} (self : _LiquidTagsPreprocessor)
    (_tags : gmap string (handler World)) (lines : list string) (w : World)
    (A B lead tok gap arg : string) :
  Py.join Py.nl lines
    = A +:+ "{%" +:+ (lead +:+ tok +:+ gap +:+ arg) +:+ "%}" +:+ B ->
  free_of "{%" A = true -> free_of "{%" B = true ->
  free_of "%}" (lead +:+ tok +:+ gap +:+ arg) = true ->
  all_chars Py.isspace lead = true -> tok <> "" -> all_chars nonspace tok = true ->
  all_chars Py.isspace gap = true -> stops_at Py.isspace arg = true ->
  stops_at nonspace (gap +:+ arg) = true ->
  run self _tags lines w
  = match _tags !! tok with
    | Some func =>
        match func self tok (Py.strip arg) w with
        | (Py.Ok R, w') => (Py.Ok (Py.split Py.newline (A +:+ R +:+ B)), w')
        | (Py.Raise e, w') => (Py.Raise e, w')
        end
    | None => (Py.Ok (Py.split Py.newline (Py.join Py.nl lines)), w)
    end.
Proof.
  intros Hpage HA HB Hbody Hlead Hne Htok Hgap Harg Hsep.
  rewrite (run_one_span self _tags lines w A _ B Hpage HA Hbody HB).
  rewrite expand_tag_parts by done.
  destruct (_tags !! tok) as [func|]; [done|]. by rewrite Hpage, !sapp_assoc.
Qed.

Lemma run_single_tag_witness :
  run a_preprocessor two_tags ["A{%  a   x  y  %}B"] []
  = (Py.Ok ["A<a:x  y>B"], [("a", "x  y")]).
Proof.
  etrans;
    [exact (run_single_tag a_preprocessor two_tags ["A{%  a   x  y  %}B"] []
              "A" "B" "  " "a" "   " "x  y  "
              eq_refl eq_refl eq_refl eq_refl eq_refl ltac:(discriminate)
              eq_refl eq_refl eq_refl eq_refl)
    | vm_compute; reflexivity].
Defined.

Lemma take_drop_while (p : ascii -> bool) (s : string) :
  take_while p s +:+ drop_while p s = s.
Proof.
  induction s as [|c s IH]; [done|]. cbn [take_while drop_while].
  destruct (p c); [|done]. by rewrite sapp_cons, IH.
Qed.

Lemma take_while_all (p : ascii -> bool) (s : string) :
  all_chars p (take_while p s) = true.
Proof.
  induction s as [|c s IH]; [done|]. cbn [take_while].
  destruct (p c) eqn:E; [|done]. cbn [all_chars]. by rewrite E, IH.
Qed.

Lemma drop_while_stops (p : ascii -> bool) (s : string) :
  stops_at p (drop_while p s) = true.
Proof.
  induction s as [|c s IH]; [done|]. cbn [drop_while].
  destruct (p c) eqn:E; [done|]. unfold stops_at. by rewrite E.
Qed.

Lemma drop_while_blank (s : string) :
  drop_while Py.isspace s = "" -> all_chars Py.isspace s = true.
Proof.
  intros H. pose proof (take_drop_while Py.isspace s) as E.
  rewrite H, sapp_nil_r in E. rewrite <- E. apply take_while_all.
Qed.

(** A text that is not blank is white space, a token, white space and the
    rest. *)
Lemma token_of_body (body : string) :
  all_chars Py.isspace body = false ->
  exists lead tok gap arg,
    body = lead +:+ tok +:+ gap +:+ arg
    /\ all_chars Py.isspace lead = true /\ tok <> ""
    /\ all_chars nonspace tok = true /\ all_chars Py.isspace gap = true
    /\ stops_at Py.isspace arg = true /\ stops_at nonspace (gap +:+ arg) = true.
Proof.
  intros Hb.
  set (r1 := drop_while Py.isspace body).
  set (r2 := drop_while nonspace r1).
  exists (take_while Py.isspace body), (take_while nonspace r1),
         (take_while Py.isspace r2), (drop_while Py.isspace r2).
  rewrite (take_drop_while Py.isspace r2).
  split; [unfold r2; rewrite (take_drop_while nonspace r1); unfold r1;
          by rewrite (take_drop_while Py.isspace body)|].
  split; [apply take_while_all|]. split.
  - pose proof (drop_while_stops Py.isspace body) as Hs. fold r1 in Hs.
    destruct r1 as [|c r1'] eqn:E.
    + apply drop_while_blank in E. congruence.
    + cbn [take_while]. unfold stops_at in Hs. unfold nonspace. by rewrite Hs.
  - split; [apply take_while_all|]. split; [apply take_while_all|].
    split; [apply drop_while_stops|]. apply drop_while_stops.
Qed.

(** X24: a span whose body is not blank always names a tag. The body is
    white space, a token that ends at the next white space or at the end of
    the body, white space again and the rest; the body of the loop of [run]
    calls the handler registered for the token with the stripped rest, or
    leaves the span when the token is not registered. So the
    [AttributeError] of a blank span is the only exception that comes from
    the loop itself. *)
Theorem expand_tag_names_a_tag {World : Type} (self : _LiquidTagsPreprocessor)
    (_tags : gmap string (handler World)) (body : string) (w : World) :
  all_chars Py.isspace body = false ->
  exists lead tok gap arg,
    body = lead +:+ tok +:+ gap +:+ arg
    /\ all_chars Py.isspace lead = true /\ all_chars Py.isspace gap = true
    /\ tok <> "" /\ all_chars nonspace tok = true
    /\ stops_at nonspace (gap +:+ arg) = true /\ stops_at Py.isspace arg = true
    /\ expand_tag self _tags ("{%" +:+ body +:+ "%}") w
       = match _tags !! tok with
         | Some func => func self tok (Py.strip arg) w
         | None => (Py.Ok ("{%" +:+ body +:+ "%}"), w)
         end.
Proof.
  intros Hb.
  destruct (token_of_body body Hb)
    as (lead & tok & gap & arg & -> & Hlead & Hne & Htok & Hgap & Harg & Hsep).
  exists lead, tok, gap, arg. do 7 (split; [done|]). by apply expand_tag_parts.
Qed.

Lemma expand_tag_names_a_tag_witness :
  exists lead tok gap arg,
    " a  x y " = lead +:+ tok +:+ gap +:+ arg
    /\ all_chars Py.isspace lead = true /\ all_chars Py.isspace gap = true
    /\ tok <> "" /\ all_chars nonspace tok = true
    /\ stops_at nonspace (gap +:+ arg) = true /\ stops_at Py.isspace arg = true
    /\ expand_tag a_preprocessor two_tags ("{%" +:+ " a  x y " +:+ "%}") []
       = match two_tags !! tok with
         | Some func => func a_preprocessor tok (Py.strip arg) []
         | None => (Py.Ok ("{%" +:+ " a  x y " +:+ "%}"), [])
         end.
Proof.
  apply (expand_tag_names_a_tag a_preprocessor two_tags " a  x y " []). reflexivity.
Defined.

Lemma expand_tags_app {World : Type} (self : _LiquidTagsPreprocessor)
    (_tags : gmap string (handler World)) (pre post : list string) (w : World) :
  expand_tags self _tags (pre ++ post)%list w
  = match expand_tags self _tags pre w with
    | (Py.Raise e, w1) => (Py.Raise e, w1)
    | (Py.Ok rs, w1) =>
        match expand_tags self _tags post w1 with
        | (Py.Raise e, w2) => (Py.Raise e, w2)
        | (Py.Ok rs', w2) => (Py.Ok (rs ++ rs')%list, w2)
        end
    end.
Proof.
  revert w. induction pre as [|span pre IH]; intros w; cbn [app expand_tags].
  - by destruct (expand_tags self _tags post w) as [ [?|?] ?].
  - destruct (expand_tag self _tags span w) as [ [r|e] w1]; [|done].
    rewrite IH. destruct (expand_tags self _tags pre w1) as [ [rs|e] w2]; [|done].
    by destruct (expand_tags self _tags post w2) as [ [?|?] ?].
Qed.

(** X5: the first handler that raises ends [run]. When the spans before a
    span are replaced normally and the expansion of the span raises, [run]
    raises that exception in the state the failing call left: no later
    handler is called and no text is returned. *)
Theorem run_first_failure {World : Type} (self : _LiquidTagsPreprocessor)
    (_tags : gmap string (handler World)) (lines : list string) (w w1 w2 : World)
    (pre post reps : list string) (span : string) (e : Py.exn) :
  Re.findall LIQUID_TAG (Py.join Py.nl lines) = (pre ++ span :: post)%list ->
  replaced self _tags pre w reps w1 ->
  expand_tag self _tags span w1 = (Py.Raise e, w2) ->
  run self _tags lines w = (Py.Raise e, w2).
Proof.
  intros Hf Hpre Hspan. apply run_raises. rewrite Hf, expand_tags_app.
  rewrite (expand_tags_replaced _ _ _ _ _ _ Hpre). cbn [expand_tags]. by rewrite Hspan.
Qed.

Lemma run_first_failure_witness :
  run a_preprocessor failing_tags ["{% a x %}{% boom y %}{% a z %}"] []
  = (Py.Raise (Py.ValueError "File y could not be found"), [("a", "x"); ("boom", "y")]).
Proof.
  apply (run_first_failure a_preprocessor failing_tags
           ["{% a x %}{% boom y %}{% a z %}"] [] [("a", "x")] _
           ["{% a x %}"] ["{% a z %}"] ["<a:x>"] "{% boom y %}").
  - vm_compute. reflexivity.
  - apply (replaced_registered a_preprocessor failing_tags "{% a x %}" [] "a" shout
             "<a:x>" [] [] [("a", "x")] [("a", "x")]);
      [vm_compute; reflexivity | vm_compute; reflexivity | vm_compute; reflexivity
      | constructor].
  - vm_compute. reflexivity.
Defined.

Lemma split_lines (s : string) :
  Py.split Py.newline s <> [] /\ Forall no_newline (Py.split Py.newline s).
Proof.
  split; [apply split_not_nil|].
  induction s as [|a s IH]; cbn [Py.split]; [by repeat constructor|].
  destruct (Ascii.eqb a Py.newline) eqn:E; [by constructor|].
  pose proof (split_not_nil Py.newline s).
  destruct (Py.split Py.newline s) as [|h t]; [done|].
  apply Forall_cons in IH as [Hh Ht]. constructor; [|done].
  unfold no_newline in *. cbn [contains_char]. by rewrite E, Hh.
Qed.

(** X6: whenever [run] returns, it returns at least one line, and no
    returned line contains a line break. *)
Theorem run_returns_lines {World : Type} (self : _LiquidTagsPreprocessor)
    (_tags : gmap string (handler World)) (lines out : list string) (w w' : World) :
  run self _tags lines w = (Py.Ok out, w') ->
  out <> [] /\ Forall no_newline out.
Proof.
  unfold run. destruct (expand_tags self _tags _ w) as [ [reps|e] w1]; [|done].
  intros [= <- _]. apply split_lines.
Qed.

Lemma run_returns_lines_witness :
  ["A<a:x>"; "B"] <> [] /\ Forall no_newline ["A<a:x>"; "B"].
Proof.
  apply (run_returns_lines a_preprocessor two_tags ["A{% a x %}"; "B"]
           ["A<a:x>"; "B"] [] [("a", "x")]).
  vm_compute. reflexivity.
Defined.




(** ** Registrations and the options of the extension *)

Lemma register_all_snoc {World : Type} (regs : list (string * handler World))
    (tag : string) (func : handler World) st :
  register_all (regs ++ [(tag, func)]) st = (register tag func (register_all regs st)).2.
Proof. unfold register_all. by rewrite fold_left_app. Qed.

(** X8: a sequence of registrations [LiquidTags.register(tag)(func)]. The
    registry afterwards maps each registered name to the handler of its last
    registration and keeps the other entries. The warnings are appended to
    the earlier ones, one for each registration that met a name already
    present: the number of new warnings plus the size of the registry is the
    old size plus the number of registrations. *)
Theorem register_all_last_wins {World : Type} (regs : list (string * handler World))
    (_tags : gmap string (handler World)) (warned : list string) :
  (register_all regs (_tags, warned)).1 = list_to_map (reverse regs) ∪ _tags
  /\ exists more,
       (register_all regs (_tags, warned)).2 = (warned ++ more)%list
       /\ length more + size (register_all regs (_tags, warned)).1
          = size _tags + length regs.
Proof.
  induction regs as [|[tag func] regs IH] using rev_ind.
  - cbn. split; [by rewrite (left_id_L ∅ (∪))|]. exists []. by rewrite app_nil_r.
  - rewrite register_all_snoc. destruct IH as [IH1 (more & IH2 & IH3)].
    destruct (register_all regs (_tags, warned)) as [tags' warned'] eqn:E.
    cbn [fst snd] in *. unfold register. cbn [fst snd].
    rewrite reverse_app. change (reverse [(tag, func)]) with [(tag, func)].
    cbn [app list_to_map foldr fst snd]. split.
    + rewrite IH1. by rewrite insert_union_l.
    + rewrite length_app. cbn [length].
      destruct (tags' !! tag) as [old|] eqn:Hl.
      * exists (more ++ [override_warning tag])%list. rewrite IH2, app_assoc.
        split; [done|]. rewrite length_app. cbn [length].
        rewrite map_size_insert_Some by done. lia.
      * exists more. split; [done|]. rewrite map_size_insert_None by done. lia.
Qed.

Lemma default_config_eq :
  default_config
  = {[ "NOTEBOOK_DIR" := (Py.VStr "notebooks", "Notebook directory for notebook subplugin") ]}.
Proof.
  apply map_eq. intros k. unfold default_config, LT_CONFIG, LT_HELP.
  rewrite map_lookup_imap. destruct (decide (k = "NOTEBOOK_DIR")) as [->|Hne].
  - by rewrite !lookup_singleton_eq.
  - by rewrite !lookup_singleton_ne.
Qed.

Lemma init_fold (kwargs : gmap string Py.value) :
  init_inv kwargs (map_fold setConfig (Py.Ok default_config) kwargs).
Proof.
  apply (map_fold_weak_ind (fun r m => init_inv m r)).
  - split; [by intros k [? ?%lookup_empty_Some]|]. by rewrite default_config_eq.
  - intros i x m r Hi Hr. destruct r as [c|e]; cbn [setConfig Py.bind init_inv] in *.
    + destruct Hr as [Hkeys ->]. destruct (decide (i = "NOTEBOOK_DIR")) as [->|Hne].
      * rewrite lookup_singleton_eq. cbn [init_inv]. rewrite lookup_insert_eq. split.
        -- intros k [v Hk]. destruct (decide (k = "NOTEBOOK_DIR")); [done|].
           rewrite lookup_insert_ne in Hk by done. apply Hkeys. by exists v.
        -- by rewrite insert_singleton_eq.
      * rewrite lookup_singleton_ne by done. cbn [init_inv]. split; [|done].
        rewrite lookup_insert_eq. by eexists.
    + destruct e; try done. destruct Hr as [[v Hv] Hk]. split; [|done].
      destruct (decide (i = key)) as [->|]; [congruence|].
      rewrite lookup_insert_ne by done. by exists v.
Qed.

(** X9: the constructor of the extension. [LiquidTags(config)] returns an
    instance exactly when every key of [config] is [NOTEBOOK_DIR]; the
    [NOTEBOOK_DIR] of the instance is then the given value, or ['notebooks']
    when none is given, and [getConfig] of any other key is the empty text.
    Otherwise it raises [KeyError] for a key of [config] that is not
    [NOTEBOOK_DIR]. *)
Theorem LiquidTags_init_options (kwargs : gmap string Py.value) :
  match LiquidTags_init kwargs with
  | Py.Ok ext =>
      (forall k, is_Some (kwargs !! k) -> k = "NOTEBOOK_DIR")
      /\ getConfig ext "NOTEBOOK_DIR"
         = default (Py.VStr "notebooks") (kwargs !! "NOTEBOOK_DIR")
      /\ forall k, k <> "NOTEBOOK_DIR" -> getConfig ext k = Py.VStr ""
  | Py.Raise e =>
      exists k, e = Py.KeyError k /\ is_Some (kwargs !! k) /\ k <> "NOTEBOOK_DIR"
  end.
Proof.
  pose proof (init_fold kwargs) as H. unfold LiquidTags_init.
  destruct (map_fold setConfig (Py.Ok default_config) kwargs) as [c|e];
    cbn [Py.bind init_inv] in *.
  - destruct H as [Hkeys ->]. split; [done|]. unfold getConfig. cbn [config]. split.
    + by rewrite lookup_singleton_eq.
    + intros k Hk. by rewrite lookup_singleton_ne.
  - destruct e; try done. by eexists.
Qed.

(** ** The installation of the extension *)

Section Installation.
Import LiquidTagsPlugin.

Lemma override_configs_lookup (st configs : gmap string Py.value) (k : string) :
  override_configs st configs !! k
  = match configs !! k with
    | Some v => Some (default v (st !! k))
    | None => None
    end.
Proof.
  revert k. unfold override_configs.
  apply (map_fold_weak_ind (fun r (m : gmap string Py.value) =>
    forall k, r !! k = match configs !! k with
                       | Some v => Some (default v (m !! k))
                       | None => None
                       end)).
  - intros k. rewrite lookup_empty. by destruct (configs !! k).
  - intros i x m r Hi IH k. destruct (decide (k = i)) as [->|Hne].
    + rewrite lookup_insert_eq. pose proof (IH i) as Hr.
      destruct (configs !! i) as [v|].
      * rewrite Hr. by rewrite lookup_insert_eq.
      * by rewrite Hr, Hr.
    + rewrite lookup_insert_ne by done. rewrite <- IH.
      destruct (r !! i); [by rewrite lookup_insert_ne|done].
Qed.

(** X10: the loop of [addLiquidTags] that copies settings into the
    configuration. The result has exactly the keys the configuration had;
    the value of a key is the setting of that name when the settings have
    one, and the default otherwise. No other setting reaches the extension. *)
Theorem override_configs_keeps_keys (st configs : gmap string Py.value) :
  dom (override_configs st configs) = dom configs
  /\ forall k v, configs !! k = Some v ->
       override_configs st configs !! k = Some (default v (st !! k)).
Proof.
  split.
  - apply set_eq. intros k. rewrite !elem_of_dom, override_configs_lookup.
    destruct (configs !! k); [by split; eauto | by split; intros []].
  - intros k v Hk. by rewrite override_configs_lookup, Hk.
Qed.

Lemma init_override (st : gmap string Py.value) :
  exists ext,
    LiquidTags_init (override_configs st LT_CONFIG) = Py.Ok ext
    /\ getConfig ext "NOTEBOOK_DIR"
       = default (Py.VStr "notebooks") (st !! "NOTEBOOK_DIR").
Proof.
  pose proof (init_fold (override_configs st LT_CONFIG)) as H.
  unfold LiquidTags_init.
  destruct (map_fold setConfig (Py.Ok default_config) (override_configs st LT_CONFIG))
    as [c|e]; cbn [Py.bind init_inv] in *.
  - destruct H as [_ ->]. eexists. split; [done|]. unfold getConfig. cbn [config].
    rewrite lookup_singleton_eq, override_configs_lookup. unfold LT_CONFIG.
    by rewrite lookup_singleton_eq.
  - destruct e; try done. destruct H as [[v Hv] Hne].
    rewrite override_configs_lookup in Hv. unfold LT_CONFIG in Hv.
    by rewrite lookup_singleton_ne in Hv.
Qed.

(** The two outcomes of a successful membership test and append. *)
Lemma install_ok (gen : Generator) (v : Py.value) (h h' : gmap Py.loc obj) :
  install gen v h = (Py.Ok tt, h') ->
  exists l items,
    v = Py.VRef l /\ h !! l = Some (OList items)
    /\ (existsb eq_LiquidTags_class items = true /\ h' = h
        \/ existsb eq_LiquidTags_class items = false
           /\ exists st ext,
                h !! settings gen = Some (ODict st)
                /\ getConfig ext "NOTEBOOK_DIR"
                   = default (Py.VStr "notebooks") (st !! "NOTEBOOK_DIR")
                /\ h' = <[l := OList (items ++ [Py.VRef (fresh (dom h))])]>
                          (<[fresh (dom h) := OLiquidTags ext]>
                             (written_config ext <$> h))).
Proof.
  unfold install. destruct v as [| | | |l|]; try done.
  destruct (h !! l) as [[items|d|ext]|] eqn:Hl; try done.
  destruct (existsb eq_LiquidTags_class items) eqn:Hc.
  - intros [= <-]. exists l, items. split; [done|]. split; [done|]. by left.
  - destruct (h !! settings gen) as [[|st|]|] eqn:Hs; try done.
    destruct (init_override st) as (ext & -> & Hnd). unfold Py.alloc. cbn zeta.
    rewrite dom_fmap_L.
    intros [= <-]. exists l, items. split; [done|]. split; [done|]. right.
    split; [done|]. by exists st, ext.
Qed.

(** A write into the dictionary of the class leaves lists and dictionaries
    as they are, and an instance an instance. *)
Lemma written_config_lookup (ext : LiquidTags) (h : gmap Py.loc obj) (p : Py.loc) :
  (written_config ext <$> h) !! p
  = match h !! p with
    | Some (OLiquidTags _) => Some (OLiquidTags ext)
    | o => o
    end.
Proof. rewrite lookup_fmap. by destruct (h !! p) as [[| |]|]. Qed.

Lemma written_config_reads (gen : Generator) (ext : LiquidTags)
    (h : gmap Py.loc obj) (l : Py.loc) :
  reads_ext_list gen h l -> reads_ext_list gen (written_config ext <$> h) l.
Proof.
  intros (st & Hs & Hpath). exists st. rewrite written_config_lookup, Hs.
  split; [done|].
  destruct Hpath as [(m & conf & Hm & Hc & He) | [Hm He]]; [left|by right].
  exists m, conf. by rewrite written_config_lookup, Hc.
Qed.

Lemma fresh_None {O : Type} (h : gmap Py.loc O) : h !! fresh (dom h) = None.
Proof. apply not_elem_of_dom. apply is_fresh. Qed.

Lemma reads_extensions (gen : Generator) (h : gmap Py.loc obj) (l : Py.loc)
    (items : list Py.value) :
  reads_ext_list gen h l -> h !! l = Some (OList items) ->
  extensions gen h = Some items.
Proof.
  intros (st & Hs & [(m & conf & Hm & Hc & He) | [Hm He]]) Hl; unfold extensions;
    rewrite Hs, Hm, ?Hc, He, Hl; done.
Qed.

Lemma extensions_reads (gen : Generator) (h : gmap Py.loc obj) (items : list Py.value) :
  extensions gen h = Some items ->
  exists l, reads_ext_list gen h l /\ h !! l = Some (OList items).
Proof.
  unfold extensions, reads_ext_list.
  destruct (h !! settings gen) as [[|st|]|] eqn:Hs; try done.
  destruct (st !! "MARKDOWN") as [[| | | |m|]|] eqn:Hm; try done.
  - destruct (h !! m) as [[|conf|]|] eqn:Hc; try done.
    destruct (conf !! "extensions") as [[| | | |l|]|] eqn:He; try done.
    destruct (h !! l) as [[its| |]|] eqn:Hl; try done. intros [= <-].
    exists l. split; [|done]. exists st. split; [done|]. left. by exists m, conf.
  - destruct (st !! "MD_EXTENSIONS") as [[| | | |l|]|] eqn:He; try done.
    destruct (h !! l) as [[its| |]|] eqn:Hl; try done. intros [= <-].
    exists l. split; [|done]. exists st. split; [done|]. by right.
Qed.

(** Appending to the list and allocating an instance leave the path from
    the settings to the list as it is. *)
Lemma reads_frame (gen : Generator) (h : gmap Py.loc obj) (l i : Py.loc)
    (items items' : list Py.value) (o : obj) :
  reads_ext_list gen h l -> h !! l = Some (OList items) -> h !! i = None ->
  reads_ext_list gen (<[l := OList items']> (<[i := o]> h)) l.
Proof.
  intros (st & Hs & Hpath) Hl Hi. exists st.
  assert (Hkeep : forall p d, h !! p = Some (ODict d) ->
            <[l := OList items']> (<[i := o]> h) !! p = Some (ODict d)).
  { intros p d Hp. rewrite !lookup_insert_ne; [done| |]; intros <-; congruence. }
  split; [by apply Hkeep|].
  destruct Hpath as [(m & conf & Hm & Hc & He) | [Hm He]]; [left|by right].
  exists m, conf. split; [done|]. split; [by apply Hkeep|done].
Qed.

Lemma find_ext_list_reads (gen : Generator) (st : gmap string Py.value)
    (h h1 : gmap Py.loc obj) (l : Py.loc) :
  h !! settings gen = Some (ODict st) ->
  find_ext_list gen st h = (Py.Ok (Py.VRef l), h1) ->
  reads_ext_list gen h1 l
  /\ (forall p, h !! p = None -> p <> l -> h1 !! p = None \/ exists d, h1 !! p = Some (ODict d))
  /\ exists st1, h1 !! settings gen = Some (ODict st1)
                 /\ st1 !! "NOTEBOOK_DIR" = st !! "NOTEBOOK_DIR".
Proof.
  intros Hs. unfold find_ext_list.
  destruct (st !! "MARKDOWN") as [[| | | |m|]|] eqn:Hm; try done.
  - destruct (h !! m) as [[|conf|]|] eqn:Hc; try done.
    destruct (conf !! "extensions") as [v|] eqn:He.
    + intros [= -> <-]. split; [|split].
      * exists st. split; [done|]. left. by exists m, conf.
      * intros p Hp _. by left.
      * by exists st.
    + unfold Py.alloc. cbn zeta. intros [= <- <-].
      pose proof (fresh_None h) as Hf. set (l := fresh (dom h)) in *.
      assert (Hml : m <> l) by (intros ->; congruence).
      assert (Hsl : settings gen <> l) by (intros E; rewrite E in Hs; congruence).
      destruct (decide (m = settings gen)) as [E|Hsm].
      * subst m. assert (conf = st) as -> by congruence.
        split; [|split].
        -- exists (<["extensions" := Py.VRef l]> st). rewrite lookup_insert_eq.
           split; [done|]. left. exists (settings gen), (<["extensions" := Py.VRef l]> st).
           rewrite lookup_insert_ne by done. rewrite lookup_insert_eq.
           split; [done|]. split; [done|]. by rewrite lookup_insert_eq.
        -- intros p Hp Hpl. left. rewrite !lookup_insert_ne; [done|done|].
           intros <-. congruence.
        -- exists (<["extensions" := Py.VRef l]> st). rewrite lookup_insert_eq.
           split; [done|]. by rewrite lookup_insert_ne.
      * split; [|split].
        -- exists st. rewrite !lookup_insert_ne by done. split; [done|]. left.
           exists m, (<["extensions" := Py.VRef l]> conf).
           rewrite lookup_insert_eq. split; [done|]. split; [done|].
           by rewrite lookup_insert_eq.
        -- intros p Hp Hpl. left. rewrite !lookup_insert_ne; [done|done|].
           intros <-. congruence.
        -- exists st. by rewrite !lookup_insert_ne.
  - destruct (st !! "MD_EXTENSIONS") as [v|] eqn:He.
    + intros [= -> <-]. split; [|split].
      * exists st. split; [done|]. by right.
      * intros p Hp _. by left.
      * by exists st.
    + unfold Py.alloc. cbn zeta. intros [= <- <-].
      pose proof (fresh_None h) as Hf. set (l := fresh (dom h)) in *.
      pose proof (fresh_None (<[l := OList []]> h)) as Hd.
      set (d := fresh (dom (<[l := OList []]> h))) in *.
      assert (Hdl : d <> l) by (intros E; rewrite E, lookup_insert_eq in Hd; done).
      rewrite lookup_insert_ne in Hd by done.
      assert (Hsl : settings gen <> l) by (intros E; rewrite E in Hs; congruence).
      assert (Hsd : settings gen <> d) by (intros E; rewrite E in Hs; congruence).
      split; [|split].
      * exists (<["MARKDOWN" := Py.VRef d]> st). rewrite lookup_insert_eq.
        split; [done|]. left. exists d, {[ "extensions" := Py.VRef l ]}.
        rewrite lookup_insert_eq. split; [done|].
        rewrite lookup_insert_ne by done. rewrite lookup_insert_eq.
        split; [done|]. by rewrite lookup_singleton_eq.
      * intros p Hp Hpl. destruct (decide (p = d)) as [->|Hpd].
        -- right. eexists. rewrite lookup_insert_ne by done.
           by rewrite lookup_insert_eq.
        -- left. rewrite !lookup_insert_ne; [done|done|done|].
           intros <-. congruence.
      * exists (<["MARKDOWN" := Py.VRef d]> st). rewrite lookup_insert_eq.
        split; [done|]. by rewrite lookup_insert_ne.
Qed.

(** X11: whenever [addLiquidTags] returns normally, the settings have an
    extensions list (under ['MARKDOWN'], or under ['MD_EXTENSIONS'] when
    there is no ['MARKDOWN']), and that list contains the class
    [LiquidTags], or it ends with a reference to an instance that did not
    exist before the call, whose [NOTEBOOK_DIR] is the setting
    [NOTEBOOK_DIR], or ['notebooks'] when the settings have none. *)
Theorem addLiquidTags_installs (gen : Generator) (h h' : gmap Py.loc obj) :
  addLiquidTags gen h = (Py.Ok tt, h') ->
  exists items,
    extensions gen h' = Some items
    /\ (existsb eq_LiquidTags_class items = true
        \/ exists front i ext st,
             items = (front ++ [Py.VRef i])%list
             /\ h !! i = None
             /\ h' !! i = Some (OLiquidTags ext)
             /\ h !! settings gen = Some (ODict st)
             /\ getConfig ext "NOTEBOOK_DIR"
                = default (Py.VStr "notebooks") (st !! "NOTEBOOK_DIR")).
Proof.
  unfold addLiquidTags.
  destruct (h !! settings gen) as [[|st|]|] eqn:Hs; try done.
  destruct (find_ext_list gen st h) as [[v|e] h1] eqn:Hf; [|done].
  intros Hi. destruct (install_ok _ _ _ _ Hi) as (l & items & -> & Hl & Hcase).
  destruct (find_ext_list_reads _ _ _ _ _ Hs Hf) as (Hreads & Hnew & st1 & Hs1 & Hnd).
  destruct Hcase as [[Hc ->] | (Hc & st' & ext & Hs' & Hext & ->)].
  - exists items. split; [by apply (reads_extensions _ _ l)|by left].
  - exists (items ++ [Py.VRef (fresh (dom h1))])%list.
    pose proof (fresh_None h1) as Hfr. set (i := fresh (dom h1)) in *.
    split.
    + apply (reads_extensions _ _ l); [|by rewrite lookup_insert_eq].
      apply (reads_frame _ _ _ _ items);
        [by apply written_config_reads
        |by rewrite written_config_lookup, Hl
        |by rewrite written_config_lookup, Hfr].
    + right. exists items, i, ext, st.
      assert (Hil : i <> l) by (intros E; rewrite E in Hfr; congruence).
      split; [done|]. split.
      { destruct (h !! i) as [o|] eqn:Hhi; [|done]. exfalso.
        (* every object of h is still in h1 *)
        revert Hf Hfr. unfold find_ext_list.
        destruct (st !! "MARKDOWN") as [[| | | |m|]|]; try done.
        - destruct (h !! m) as [[|conf|]|] eqn:Hm; try done.
          destruct (conf !! "extensions").
          + intros [= _ <-]. congruence.
          + unfold Py.alloc. cbn zeta. intros [= _ <-] Hfr.
            destruct (decide (i = m)) as [->|]; [by rewrite lookup_insert_eq in Hfr|].
            rewrite lookup_insert_ne in Hfr by done.
            destruct (decide (i = fresh (dom h))) as [E|];
              [rewrite E in Hfr; by rewrite lookup_insert_eq in Hfr|].
            rewrite lookup_insert_ne in Hfr by done. congruence.
        - destruct (st !! "MD_EXTENSIONS").
          + intros [= _ <-]. congruence.
          + unfold Py.alloc. cbn zeta. intros [= _ <-] Hfr.
            destruct (decide (i = settings gen)) as [E|];
              [rewrite E in Hfr; by rewrite lookup_insert_eq in Hfr|].
            rewrite lookup_insert_ne in Hfr by done.
            destruct (decide (i = fresh (dom (<[fresh (dom h) := OList []]> h)))) as [E|];
              [rewrite E in Hfr; by rewrite lookup_insert_eq in Hfr|].
            rewrite lookup_insert_ne in Hfr by done.
            destruct (decide (i = fresh (dom h))) as [E|];
              [rewrite E in Hfr; by rewrite lookup_insert_eq in Hfr|].
            rewrite lookup_insert_ne in Hfr by done. congruence. }
      split; [rewrite lookup_insert_ne by done; by rewrite lookup_insert_eq|].
      split; [done|].
      assert (st' = st1) as -> by congruence. by rewrite Hext, Hnd.
Qed.

Lemma addLiquidTags_installs_witness :
  exists items,
    extensions a_generator (addLiquidTags a_generator empty_settings).2 = Some items
    /\ (existsb eq_LiquidTags_class items = true
        \/ exists front i ext st,
             items = (front ++ [Py.VRef i])%list
             /\ empty_settings !! i = None
             /\ (addLiquidTags a_generator empty_settings).2 !! i = Some (OLiquidTags ext)
             /\ empty_settings !! settings a_generator = Some (ODict st)
             /\ getConfig ext "NOTEBOOK_DIR"
                = default (Py.VStr "notebooks") (st !! "NOTEBOOK_DIR")).
Proof.
  apply (addLiquidTags_installs a_generator empty_settings).
  vm_compute. reflexivity.
Defined.

(** X12: when the extensions list of the settings already contains the class
    object [LiquidTags], [addLiquidTags] returns normally and changes
    nothing. *)
Theorem addLiquidTags_class_present (gen : Generator) (h : gmap Py.loc obj)
    (items : list Py.value) :
  extensions gen h = Some items ->
  existsb eq_LiquidTags_class items = true ->
  addLiquidTags gen h = (Py.Ok tt, h).
Proof.
  intros He Hc. destruct (extensions_reads _ _ _ He) as (l & (st & Hs & Hpath) & Hl).
  unfold addLiquidTags, find_ext_list. rewrite Hs.
  destruct Hpath as [(m & conf & Hm & Hcf & Hx) | [Hm Hx]].
  - rewrite Hm, Hcf, Hx. unfold install. by rewrite Hl, Hc.
  - rewrite Hm, Hx. unfold install. by rewrite Hl, Hc.
Qed.

Lemma addLiquidTags_class_present_witness :
  extensions a_generator class_settings
    = Some [Py.VStr "markdown.extensions.extra"; Py.VClass "LiquidTags"]
  /\ addLiquidTags a_generator class_settings = (Py.Ok tt, class_settings).
Proof.
  assert (H : extensions a_generator class_settings
              = Some [Py.VStr "markdown.extensions.extra"; Py.VClass "LiquidTags"])
    by (vm_compute; reflexivity).
  split; [exact H|].
  exact (addLiquidTags_class_present a_generator class_settings _ H eq_refl).
Defined.

(** X13: settings with neither ['MARKDOWN'] nor ['MD_EXTENSIONS'].
    [addLiquidTags] creates three objects that did not exist, a list, a
    dictionary and an instance; it sets ['MARKDOWN'] to the dictionary,
    which maps ['extensions'] to the list, and keeps the other settings; the
    list holds the instance and nothing else. The constructor has written
    its options into the dictionary that all instances share: an instance
    that existed before the call holds the options of the new instance
    afterwards, and every other object is as it was. *)
Theorem addLiquidTags_fresh_settings (gen : Generator) (h : gmap Py.loc obj)
    (st : gmap string Py.value) :
  h !! settings gen = Some (ODict st) ->
  st !! "MARKDOWN" = None ->
  st !! "MD_EXTENSIONS" = None ->
  exists (l d i : Py.loc) (ext : LiquidTags) (h' : gmap Py.loc obj),
    addLiquidTags gen h = (Py.Ok tt, h')
    /\ h !! l = None /\ h !! d = None /\ h !! i = None /\ NoDup [l; d; i]
    /\ h' !! settings gen = Some (ODict (<["MARKDOWN" := Py.VRef d]> st))
    /\ h' !! d = Some (ODict {[ "extensions" := Py.VRef l ]})
    /\ h' !! l = Some (OList [Py.VRef i])
    /\ h' !! i = Some (OLiquidTags ext)
    /\ getConfig ext "NOTEBOOK_DIR"
       = default (Py.VStr "notebooks") (st !! "NOTEBOOK_DIR")
    /\ forall p, p <> settings gen -> p <> l -> p <> d -> p <> i ->
         h' !! p = match h !! p with
                   | Some (OLiquidTags _) => Some (OLiquidTags ext)
                   | o => o
                   end.
Proof.
  intros Hs Hm He. unfold addLiquidTags, find_ext_list. rewrite Hs, Hm, He.
  unfold Py.alloc. cbn zeta.
  pose proof (fresh_None h) as Hl. set (l := fresh (dom h)) in *.
  pose proof (fresh_None (<[l := OList []]> h)) as Hd.
  set (d := fresh (dom (<[l := OList []]> h))) in *.
  assert (Hdl : d <> l) by (intros E; rewrite E, lookup_insert_eq in Hd; done).
  rewrite lookup_insert_ne in Hd by done.
  assert (Hsl : settings gen <> l) by (intros E; rewrite E in Hs; congruence).
  assert (Hsd : settings gen <> d) by (intros E; rewrite E in Hs; congruence).
  set (h2 := <[settings gen := ODict (<["MARKDOWN" := Py.VRef d]> st)]>
               (<[d := ODict {[ "extensions" := Py.VRef l ]}]> (<[l := OList []]> h))).
  assert (H2l : h2 !! l = Some (OList [])).
  { unfold h2. rewrite !lookup_insert_ne by done. by rewrite lookup_insert_eq. }
  assert (H2s : h2 !! settings gen = Some (ODict (<["MARKDOWN" := Py.VRef d]> st))).
  { unfold h2. by rewrite lookup_insert_eq. }
  unfold install. rewrite H2l. cbn [existsb]. rewrite H2s.
  destruct (init_override (<["MARKDOWN" := Py.VRef d]> st)) as (ext & -> & Hnd).
  rewrite lookup_insert_ne in Hnd by done.
  unfold Py.alloc. cbn [app]. rewrite dom_fmap_L.
  pose proof (fresh_None h2) as Hi. set (i := fresh (dom h2)) in *.
  assert (Hil : i <> l) by (intros E; rewrite E in Hi; congruence).
  assert (Hid : i <> d).
  { intros E. rewrite E in Hi. unfold h2 in Hi.
    rewrite lookup_insert_ne in Hi by done. by rewrite lookup_insert_eq in Hi. }
  assert (His : i <> settings gen) by (intros E; rewrite E in Hi; congruence).
  assert (Hhi : h !! i = None).
  { unfold h2 in Hi. by rewrite !lookup_insert_ne in Hi. }
  exists l, d, i, ext. eexists. split; [reflexivity|].
  split; [done|]. split; [done|]. split; [done|].
  split.
  { rewrite !NoDup_cons, !elem_of_cons, !elem_of_nil.
    repeat split; [intros [?|[?|[]]]; congruence|intros [?|[]]; congruence|tauto|].
    apply NoDup_nil_2. }
  split. { rewrite !lookup_insert_ne by done. by rewrite written_config_lookup, H2s. }
  split. { rewrite !lookup_insert_ne by done. rewrite written_config_lookup. unfold h2.
           rewrite lookup_insert_ne by done. by rewrite lookup_insert_eq. }
  split. { by rewrite lookup_insert_eq. }
  split. { rewrite lookup_insert_ne by done. by rewrite lookup_insert_eq. }
  split; [done|].
  intros p Hps Hpl Hpd Hpi. rewrite !lookup_insert_ne by done.
  rewrite written_config_lookup. unfold h2. by rewrite !lookup_insert_ne.
Qed.

Lemma addLiquidTags_fresh_settings_witness :
  exists (l d i : Py.loc) (ext : LiquidTags) (h' : gmap Py.loc obj),
    addLiquidTags a_generator bare_settings = (Py.Ok tt, h')
    /\ bare_settings !! l = None /\ bare_settings !! d = None
    /\ bare_settings !! i = None /\ NoDup [l; d; i]
    /\ h' !! settings a_generator
       = Some (ODict (<["MARKDOWN" := Py.VRef d]> {[ "NOTEBOOK_DIR" := Py.VStr "y" ]}))
    /\ h' !! d = Some (ODict {[ "extensions" := Py.VRef l ]})
    /\ h' !! l = Some (OList [Py.VRef i])
    /\ h' !! i = Some (OLiquidTags ext)
    /\ getConfig ext "NOTEBOOK_DIR"
       = default (Py.VStr "notebooks")
           (({[ "NOTEBOOK_DIR" := Py.VStr "y" ]} : gmap string Py.value) !! "NOTEBOOK_DIR")
    /\ forall p, p <> settings a_generator -> p <> l -> p <> d -> p <> i ->
         h' !! p = match bare_settings !! p with
                   | Some (OLiquidTags _) => Some (OLiquidTags ext)
                   | o => o
                   end.
Proof.
  apply (addLiquidTags_fresh_settings a_generator bare_settings
           {[ "NOTEBOOK_DIR" := Py.VStr "y" ]}); reflexivity.
Defined.

(** The call on [bare_settings] and the call on [changed_settings] each
    make an instance for the setting ['y'], and the instance at location 3,
    made when the setting was ['x'], reads ['y'] afterwards. *)
Example addLiquidTags_rewrites_options :
  (addLiquidTags a_generator bare_settings).2 !! 3 = Some (OLiquidTags dir_y)
  /\ (addLiquidTags a_generator changed_settings).2 !! 3 = Some (OLiquidTags dir_y)
  /\ (addLiquidTags a_generator changed_settings).2 !! 4 = Some (OLiquidTags dir_y)
  /\ (addLiquidTags a_generator changed_settings).2 !! 2
     = Some (OList [Py.VRef 3; Py.VRef 4]).
Proof. repeat split; vm_compute; reflexivity. Qed.

Lemma find_ext_list_grows (gen : Generator) (st : gmap string Py.value)
    (h : gmap Py.loc obj) (p : Py.loc) (o : obj) :
  h !! settings gen = Some (ODict st) ->
  h !! p = Some o ->
  exists o1, (find_ext_list gen st h).2 !! p = Some o1
             /\ (o1 = o \/ exists d d', o = ODict d /\ o1 = ODict d' /\ d ⊆ d').
Proof.
  intros Hs Hp. unfold find_ext_list.
  destruct (st !! "MARKDOWN") as [[| | | |m|]|] eqn:Hm; try (exists o; by auto).
  - destruct (h !! m) as [[|conf|]|] eqn:Hc; try (exists o; by auto).
    destruct (conf !! "extensions") as [v|] eqn:He; [exists o; by auto|].
    unfold Py.alloc. cbn [snd]. pose proof (fresh_None h) as Hf.
    destruct (decide (p = m)) as [->|Hpm].
    + rewrite lookup_insert_eq. eexists. split; [done|]. right.
      exists conf. eexists. split; [congruence|]. split; [done|].
      by apply insert_subseteq.
    + rewrite !lookup_insert_ne; [exists o; by auto| |done].
      intros E. rewrite E in Hf. congruence.
  - destruct (st !! "MD_EXTENSIONS") as [v|] eqn:He; [exists o; by auto|].
    unfold Py.alloc. cbn [snd]. pose proof (fresh_None h) as Hf.
    pose proof (fresh_None (<[fresh (dom h) := OList []]> h)) as Hd.
    destruct (decide (p = settings gen)) as [->|Hps].
    + rewrite lookup_insert_eq. eexists. split; [done|]. right.
      exists st. eexists. split; [congruence|]. split; [done|].
      by apply insert_subseteq.
    + rewrite lookup_insert_ne by done.
      destruct (decide (p = fresh (dom h))) as [E|Hpl]; [rewrite E in Hp; congruence|].
      rewrite lookup_insert_ne.
      * rewrite lookup_insert_ne by done. exists o; by auto.
      * intros E. rewrite E in Hd. rewrite lookup_insert_ne in Hd by done. congruence.
Qed.

Lemma install_grows (gen : Generator) (v : Py.value) (h : gmap Py.loc obj)
    (p : Py.loc) (o : obj) :
  h !! p = Some o ->
  exists o', (install gen v h).2 !! p = Some o'
             /\ (o' = o
                 \/ (exists items i, o = OList items
                                     /\ o' = OList (items ++ [Py.VRef i]))
                 \/ (exists ext ext' i,
                       o = OLiquidTags ext /\ o' = OLiquidTags ext' /\ h !! i = None
                       /\ (install gen v h).2 !! i = Some o')).
Proof.
  intros Hp. unfold install.
  destruct v as [| | | |l|]; try (exists o; by auto).
  destruct (h !! l) as [[items|d|ext]|] eqn:Hl; try (exists o; by auto).
  destruct (existsb eq_LiquidTags_class items); [exists o; by auto|].
  destruct (h !! settings gen) as [[|st|]|]; try (exists o; by auto).
  destruct (LiquidTags_init _) as [ext|]; [|exists o; by auto].
  unfold Py.alloc. cbn [snd]. rewrite dom_fmap_L. pose proof (fresh_None h) as Hfr.
  set (i := fresh (dom h)) in *.
  assert (Hil : i <> l) by (intros E; rewrite E in Hfr; congruence).
  assert (Hpi : p <> i) by (intros E; rewrite E in Hp; congruence).
  destruct (decide (p = l)) as [->|Hpl].
  - rewrite lookup_insert_eq. eexists. split; [done|]. right. left.
    exists items. eexists. split; [congruence|done].
  - rewrite !lookup_insert_ne by done. rewrite written_config_lookup, Hp.
    destruct o as [its|d|ext0]; [exists (OList its); by auto|exists (ODict d); by auto|].
    exists (OLiquidTags ext). split; [done|]. right. right.
    exists ext0, ext, i. split; [done|]. split; [done|]. split; [done|].
    rewrite lookup_insert_ne by done. by rewrite lookup_insert_eq.
Qed.

(** X14: whatever the outcome of [addLiquidTags], normal or exceptional,
    every object that existed still exists: a list is unchanged or has one
    more reference at its end, a dictionary keeps all its entries, and an
    instance of the extension is still an instance. The instances share the
    dictionary of their options, so an instance that existed is either
    unchanged or holds the same options as an instance that the call
    created. *)
Theorem addLiquidTags_only_adds (gen : Generator) (h : gmap Py.loc obj)
    (p : Py.loc) (o : obj) :
  h !! p = Some o ->
  exists o',
    (addLiquidTags gen h).2 !! p = Some o' /\ grown o o'
    /\ forall ext, o = OLiquidTags ext ->
         o' = o \/ exists i, h !! i = None /\ (addLiquidTags gen h).2 !! i = Some o'.
Proof.
  assert (Hrefl : forall o, grown o o).
  { intros [items|d|ext]; cbn; [by left|by exists d|by eexists]. }
  intros Hp. unfold addLiquidTags.
  destruct (h !! settings gen) as [[|st|]|] eqn:Hs; try (exists o; by auto).
  destruct (find_ext_list_grows gen st h p o Hs Hp) as (o1 & H1 & Ho1).
  assert (Hnew : forall i, (find_ext_list gen st h).2 !! i = None -> h !! i = None).
  { intros i Hi. destruct (h !! i) as [oi|] eqn:Hhi; [|done].
    destruct (find_ext_list_grows gen st h i oi Hs Hhi) as (? & E & _). congruence. }
  destruct (find_ext_list gen st h) as [[v|e] h1] eqn:Hf; cbn [snd] in *.
  - destruct (install_grows gen v h1 p o1 H1) as (o' & H' & Ho').
    exists o'. split; [done|].
    destruct Ho1 as [->|(d & d' & -> & -> & Hd)].
    + destruct Ho' as [->|[(items & i & -> & ->)|(ext & ext' & i & -> & -> & Hi & Hi')]].
      * by auto.
      * split; [cbn; right; by eexists|done].
      * apply Hnew in Hi. split; [cbn; by eexists|]. intros _ _. right. by exists i.
    + split; [|done].
      destruct Ho' as [->|[(items & i & ? & ->)|(ext & ext' & i & ? & _)]]; [|done..].
      cbn. by exists d'.
  - exists o1. split; [done|].
    destruct Ho1 as [->|(d & d' & -> & -> & Hd)]; [by auto|].
    split; [cbn; by exists d'|done].
Qed.

Lemma addLiquidTags_only_adds_witness :
  changed_settings !! 3 = Some (OLiquidTags dir_x)
  /\ exists o',
       (addLiquidTags a_generator changed_settings).2 !! 3 = Some o'
       /\ grown (OLiquidTags dir_x) o'
       /\ forall ext, OLiquidTags dir_x = OLiquidTags ext ->
            o' = OLiquidTags dir_x
            \/ exists i, changed_settings !! i = None
                         /\ (addLiquidTags a_generator changed_settings).2 !! i = Some o'.
Proof.
  assert (H : changed_settings !! 3 = Some (OLiquidTags dir_x)) by reflexivity.
  split; [exact H|]. exact (addLiquidTags_only_adds a_generator changed_settings 3 _ H).
Defined.

Lemma install_returns (gen : Generator) (l : Py.loc) (items : list Py.value)
    (st : gmap string Py.value) (h : gmap Py.loc obj) :
  h !! l = Some (OList items) -> h !! settings gen = Some (ODict st) ->
  (install gen (Py.VRef l) h).1 = Py.Ok tt.
Proof.
  intros Hl Hs. unfold install. rewrite Hl.
  destruct (existsb eq_LiquidTags_class items); [done|]. rewrite Hs.
  destruct (init_override st) as (ext & -> & _). done.
Qed.

(** X25: on usable settings, where ['MARKDOWN'] refers to a dictionary whose
    ['extensions'], when present, refers to a list, and where without
    ['MARKDOWN'] the entry ['MD_EXTENSIONS'], when present, refers to a
    list, [addLiquidTags] returns normally. In particular the [KeyError] of
    the constructor cannot occur, whatever else the settings hold. *)
Theorem addLiquidTags_returns (gen : Generator) (h : gmap Py.loc obj)
    (st : gmap string Py.value) :
  h !! settings gen = Some (ODict st) ->
  usable_settings st h ->
  (addLiquidTags gen h).1 = Py.Ok tt.
Proof.
  intros Hs Hu. unfold addLiquidTags, find_ext_list. rewrite Hs.
  unfold usable_settings in Hu.
  destruct (st !! "MARKDOWN") as [v|] eqn:Hm.
  - destruct Hu as (m & conf & -> & Hc & Hx). rewrite Hc.
    destruct (conf !! "extensions") as [v'|] eqn:He.
    + destruct Hx as (l & items & -> & Hl). by apply (install_returns gen l items st).
    + unfold Py.alloc. cbn zeta.
      pose proof (fresh_None h) as Hf. set (l := fresh (dom h)) in *.
      assert (Hml : m <> l) by (intros ->; congruence).
      destruct (decide (m = settings gen)) as [->|Hsm].
      * eapply (install_returns gen l []).
        -- rewrite lookup_insert_ne by done. by rewrite lookup_insert_eq.
        -- by rewrite lookup_insert_eq.
      * eapply (install_returns gen l [] st).
        -- rewrite lookup_insert_ne by done. by rewrite lookup_insert_eq.
        -- assert (Hsl : settings gen <> l) by (intros E; rewrite E in Hs; congruence).
           by rewrite !lookup_insert_ne.
  - destruct (st !! "MD_EXTENSIONS") as [v'|] eqn:He.
    + destruct Hu as (l & items & -> & Hl). by apply (install_returns gen l items st).
    + unfold Py.alloc. cbn zeta.
      pose proof (fresh_None h) as Hf. set (l := fresh (dom h)) in *.
      pose proof (fresh_None (<[l := OList []]> h)) as Hd.
      set (d := fresh (dom (<[l := OList []]> h))) in *.
      assert (Hdl : d <> l) by (intros E; rewrite E, lookup_insert_eq in Hd; done).
      assert (Hsl : settings gen <> l) by (intros E; rewrite E in Hs; congruence).
      eapply (install_returns gen l []).
      * rewrite !lookup_insert_ne by done. by rewrite lookup_insert_eq.
      * by rewrite lookup_insert_eq.
Qed.

Lemma addLiquidTags_returns_witness :
  (addLiquidTags a_generator markdown_settings).1 = Py.Ok tt.
Proof.
  apply (addLiquidTags_returns a_generator markdown_settings
           {[ "MARKDOWN" := Py.VRef 1 ]}); [reflexivity|].
  exists 1, {[ "extensions" := Py.VRef 2 ]}. split; [reflexivity|].
  split; [reflexivity|].
  exists 2, [Py.VStr "markdown.extensions.extra"; Py.VStr "markdown.extensions.meta"].
  split; reflexivity.
Defined.

End Installation.

(** ** The argument text of the notebook tag *)

Lemma gap_span_lookup (n j pos : nat) (gap : string) (g : gmap nat (nat * nat)) :
  n <> j -> gap_span n pos gap g !! j = g !! j.
Proof. intros H. destruct gap; [done|]. cbn [gap_span]. by rewrite lookup_insert_ne. Qed.

Lemma exec_gap (n : nat) (gap rest : string) (pos : nat) (g : gmap nat (nat * nat))
    (k : Re.cont) (m : nat * gmap nat (nat * nat)) :
  all_chars Py.isspace gap = true -> stops_at Py.isspace rest = true ->
  k (pos + String.length gap) rest (gap_span n pos gap g) = Some m ->
  Re.exec (Re.Opt (Re.Group n Notebook.spaces)) pos (gap +:+ rest) g k = Some m.
Proof.
  intros Hgap Hstop Hk. destruct gap as [|c gap].
  - rewrite sapp_nil_l. rewrite exec_Opt_skip by (by apply exec_spaces_stop).
    cbn [String.length gap_span] in Hk. by rewrite Nat.add_0_r in Hk.
  - apply exec_Opt_take. cbn [all_chars] in Hgap.
    apply andb_true_iff in Hgap as [Hc Hgap].
    unfold Notebook.spaces, Re.Plus. rewrite exec_Group, exec_Cat, sapp_cons.
    rewrite exec_Chr_hit by done. apply exec_Star_class; [done..|].
    cbn [String.length gap_span] in Hk. by rewrite Nat.add_succ_r in Hk.
Qed.

Lemma language_char_stop (rest : string) :
  stops_at Notebook.language_char rest = true ->
  stops_at (Ascii.eqb "-") rest = true.
Proof.
  destruct rest as [|c rest]; [done|]. unfold stops_at, Notebook.language_char.
  rewrite (Ascii.eqb_sym "-" c). intros H.
  apply negb_true_iff in H. apply negb_true_iff.
  by apply orb_false_iff in H as [_ H].
Qed.

Lemma exec_language (X rest : string) (pos : nat) (g : gmap nat (nat * nat))
    (k : Re.cont) (m : nat * gmap nat (nat * nat)) :
  all_chars Notebook.language_char X = true ->
  stops_at Notebook.language_char rest = true ->
  k (pos + String.length X) rest (<[12 := (pos, pos + String.length X)]> g) = Some m ->
  Re.exec (Re.Group 12 (Re.Cat (Re.Opt (Re.Lit "-")) (Re.Star (Re.Chr Notebook.language_char))))
    pos (X +:+ rest) g k = Some m.
Proof.
  intros HX Hstop Hk. rewrite exec_Group, exec_Cat.
  destruct X as [|c X].
  - rewrite sapp_nil_l. rewrite exec_Opt_skip.
    + by apply exec_Star_stop; [|rewrite Nat.add_0_r in Hk].
    + apply exec_Chr_stop. by apply language_char_stop.
  - rewrite sapp_cons. destruct (Ascii.eqb "-" c) eqn:Hc.
    + apply exec_Opt_take. unfold Re.Lit. rewrite exec_Chr_hit by done.
      cbn [all_chars] in HX. apply andb_true_iff in HX as [_ HX].
      apply exec_Star_class; [done..|].
      cbn [String.length] in Hk. by rewrite Nat.add_succ_r in Hk.
    + rewrite exec_Opt_skip.
      * rewrite <- sapp_cons. by apply exec_Star_class.
      * unfold Re.Lit. cbn [Re.exec]. by rewrite Hc.
Qed.

Lemma stops_at_path (src rest : string) :
  path_token src -> stops_at Py.isspace (src +:+ rest) = true.
Proof. intros [Hne Hall]. by apply stops_at_token. Qed.

Lemma blank_stops (gap rest : string) :
  all_chars Py.isspace gap = true -> gap <> "" \/ rest = "" ->
  stops_at nonspace (gap +:+ rest) = true.
Proof.
  intros Hgap Hor. destruct gap as [|c gap].
  - destruct Hor as [? | ->]; done.
  - rewrite sapp_cons. cbn [all_chars] in Hgap. apply andb_true_iff in Hgap as [Hc _].
    unfold stops_at, nonspace. by rewrite Hc.
Qed.

(** The cells clause, from its opening word to its bracket. *)
Lemma exec_cells (A B rest : string) (pos : nat) (g : gmap nat (nat * nat))
    (k : Re.cont) (m : nat * gmap nat (nat * nat)) :
  signed_digits A -> signed_digits B ->
  k (pos + 6 + String.length A + 1 + String.length B + 1) rest
    (<[4 := (pos, pos + 6 + String.length A + 1 + String.length B + 1)]>
       (<[8 := (pos + 6 + String.length A + 1 + String.length B,
                pos + 6 + String.length A + 1 + String.length B + 1)]>
          (<[7 := (pos + 6 + String.length A + 1,
                   pos + 6 + String.length A + 1 + String.length B)]>
             (<[6 := (pos + 6, pos + 6 + String.length A)]>
                (<[5 := (pos, pos + 6)]> g))))) = Some m ->
  Re.exec (Re.Opt (Re.Group 4 (Re.Seq [
      Re.Group 5 (Re.Str "cells[");
      Re.Group 6 (Re.Cat (Re.Opt (Re.Lit "-")) Notebook.digit_star);
      Re.Lit ":";
      Re.Group 7 (Re.Cat (Re.Opt (Re.Lit "-")) Notebook.digit_star);
      Re.Group 8 (Re.Lit "]") ])))
    pos ("cells[" +:+ A +:+ ":" +:+ B +:+ "]" +:+ rest) g k = Some m.
Proof.
  intros HA HB Hk. apply exec_Opt_take. cbn [Re.Seq].
  rewrite exec_Group, exec_Cat, exec_Group, exec_Str.
  rewrite exec_Cat. apply exec_bound; [done|reflexivity|].
  rewrite exec_Cat, exec_Lit_app.
  rewrite exec_Cat. apply exec_bound; [done|reflexivity|].
  rewrite exec_Group, exec_Lit_app.
  cbn [String.length]. rewrite <- !Nat.add_1_r. exact Hk.
Qed.

Lemma exec_language_clause (X rest : string) (pos : nat) (g : gmap nat (nat * nat))
    (k : Re.cont) (m : nat * gmap nat (nat * nat)) :
  all_chars Notebook.language_char X = true ->
  k (pos + 9 + String.length X + 1) rest
    (<[10 := (pos, pos + 9 + String.length X + 1)]>
       (<[13 := (pos + 9 + String.length X, pos + 9 + String.length X + 1)]>
          (<[12 := (pos + 9, pos + 9 + String.length X)]>
             (<[11 := (pos, pos + 9)]> g)))) = Some m ->
  Re.exec (Re.Opt (Re.Group 10 (Re.Seq [
      Re.Group 11 (Re.Str "language[");
      Re.Group 12 (Re.Cat (Re.Opt (Re.Lit "-")) (Re.Star (Re.Chr Notebook.language_char)));
      Re.Group 13 (Re.Lit "]") ])))
    pos ("language[" +:+ X +:+ "]" +:+ rest) g k = Some m.
Proof.
  intros HX Hk. apply exec_Opt_take. cbn [Re.Seq].
  rewrite exec_Group, exec_Cat, exec_Group, exec_Str.
  rewrite exec_Cat. apply exec_language; [done|reflexivity|].
  rewrite exec_Group, exec_Lit_app.
  cbn [String.length]. rewrite <- !Nat.add_1_r. exact Hk.
Qed.

Lemma group_at (s u v w : string) (e : nat) (g : gmap nat (nat * nat)) (n a b : nat) :
  g !! n = Some (a, b) -> s = u +:+ v +:+ w ->
  a = String.length u -> b = a + String.length v ->
  Re.group (Re.mkMatch s 0 e g) n = Some v.
Proof.
  intros Hg -> Ha Hb. unfold Re.group. cbn [Re.m_spans Re.m_string]. rewrite Hg.
  by rewrite (slice_mid u v w a b).
Qed.

Lemma group_prefix (u w : string) (e : nat) (g : gmap nat (nat * nat)) (n : nat) :
  g !! n = Some (0, String.length u) ->
  Re.group (Re.mkMatch (u +:+ w) 0 e g) n = Some u.
Proof.
  intros Hg. unfold Re.group. cbn [Re.m_spans Re.m_string]. rewrite Hg.
  by rewrite slice_prefix.
Qed.

Lemma group_none (s : string) (e : nat) (g : gmap nat (nat * nat)) (n : nat) :
  g !! n = None -> Re.group (Re.mkMatch s 0 e g) n = None.
Proof. intros Hg. unfold Re.group. cbn [Re.m_spans]. by rewrite Hg. Qed.

Ltac flatten := rewrite ?sapp_assoc, ?sapp_nil_l, ?sapp_nil_r.
Ltac peel :=
  repeat first [rewrite lookup_insert_ne by done | rewrite gap_span_lookup by done].
Ltac lengths := rewrite ?slength_app; cbn [String.length]; lia.
Ltac found := peel; by rewrite lookup_insert_eq.
Ltac absent := apply group_none; peel; by rewrite lookup_empty.
Ltac FORMAT_head Hlead :=
  unfold Re.exec_at, Notebook.FORMAT; cbn [Re.Seq];
  rewrite exec_Cat, exec_Bol; rewrite exec_Cat, exec_Opt_skip by apply Hlead;
  rewrite exec_Cat; apply exec_src; [done|apply blank_stops; by auto|].

(** The argument texts that [FORMAT] takes, clause by clause, and the
    groups of the match. *)
Lemma FORMAT_clauses (src gap1 gap2 : string) (c : option (string * string))
    (l : option string) :
  path_token src ->
  all_chars Py.isspace gap1 = true -> all_chars Py.isspace gap2 = true ->
  (c <> None \/ l <> None -> gap1 <> "") ->
  (forall A B, c = Some (A, B) -> signed_digits A /\ signed_digits B) ->
  (forall X, l = Some X -> all_chars Notebook.language_char X = true) ->
  exists m,
    Re.search Notebook.FORMAT
      (src +:+ gap1 +:+ cells_clause c +:+ gap2 +:+ language_clause l) = Some m
    /\ Re.group m 2 = Some src
    /\ Re.group m 6 = fst <$> c /\ Re.group m 7 = snd <$> c
    /\ Re.group m 12 = l.
Proof.
  intros Hsrc Hg1 Hg2 Hne Hc Hl.
  assert (Hlead : forall rest pos g k,
            Re.exec (Re.Group 1 Notebook.spaces) pos (src +:+ rest) g k = None).
  { intros. apply exec_spaces_stop. by apply stops_at_path. }
  destruct c as [[A B]|], l as [X|];
    cbn [cells_clause language_clause fmap option_fmap option_map fst snd].
  - destruct (Hc A B eq_refl) as [HA HB]. pose proof (Hl X eq_refl) as HX.
    assert (Hgap : gap1 <> "") by (apply Hne; by left).
    rewrite <- (sapp_nil_r ("language[" +:+ X +:+ "]")). flatten.
    match goal with |- context [Re.search _ ?t] =>
      eassert (Hm : Re.exec_at Notebook.FORMAT 0 t = Some _) end.
    { FORMAT_head Hlead.
      rewrite exec_Cat. apply exec_gap; [done|reflexivity|].
      rewrite exec_Cat. apply exec_cells; [done..|].
      rewrite exec_Cat. apply exec_gap; [done|reflexivity|].
      rewrite exec_Cat. apply exec_language_clause; [done|].
      rewrite exec_Cat, exec_Opt_skip by reflexivity.
      rewrite exec_Eol_end. reflexivity. }
    eexists. split; [exact (search_hit _ _ _ _ Hm)|].
    split; [|split; [|split]].
    + apply group_prefix. found.
    + eapply (group_at _ (src +:+ gap1 +:+ "cells[") A
               (":" +:+ B +:+ "]" +:+ gap2 +:+ "language[" +:+ X +:+ "]"));
        [found|by flatten|lengths|reflexivity].
    + eapply (group_at _ (src +:+ gap1 +:+ "cells[" +:+ A +:+ ":") B
               ("]" +:+ gap2 +:+ "language[" +:+ X +:+ "]"));
        [found|by flatten|lengths|reflexivity].
    + eapply (group_at _ (src +:+ gap1 +:+ "cells[" +:+ A +:+ ":" +:+ B +:+ "]"
                           +:+ gap2 +:+ "language[") X "]");
        [found|by flatten|lengths|reflexivity].
  - destruct (Hc A B eq_refl) as [HA HB].
    assert (Hgap : gap1 <> "") by (apply Hne; by left).
    flatten. rewrite <- (sapp_nil_r gap2).
    match goal with |- context [Re.search _ ?t] =>
      eassert (Hm : Re.exec_at Notebook.FORMAT 0 t = Some _) end.
    { FORMAT_head Hlead.
      rewrite exec_Cat. apply exec_gap; [done|reflexivity|].
      rewrite exec_Cat. apply exec_cells; [done..|].
      rewrite exec_Cat. apply exec_gap; [done|reflexivity|].
      rewrite exec_Cat, exec_Opt_skip by reflexivity.
      rewrite exec_Cat, exec_Opt_skip by reflexivity.
      rewrite exec_Eol_end. reflexivity. }
    eexists. split; [exact (search_hit _ _ _ _ Hm)|].
    split; [|split; [|split]].
    + apply group_prefix. found.
    + eapply (group_at _ (src +:+ gap1 +:+ "cells[") A
               (":" +:+ B +:+ "]" +:+ gap2));
        [found|by flatten|lengths|reflexivity].
    + eapply (group_at _ (src +:+ gap1 +:+ "cells[" +:+ A +:+ ":") B
               ("]" +:+ gap2));
        [found|by flatten|lengths|reflexivity].
    + absent.
  - pose proof (Hl X eq_refl) as HX.
    assert (Hgap : gap1 <> "") by (apply Hne; by right).
    rewrite <- (sapp_nil_r ("language[" +:+ X +:+ "]")). flatten.
    rewrite <- (sapp_assoc gap1 gap2).
    assert (Hg : all_chars Py.isspace (gap1 +:+ gap2) = true)
      by (by rewrite all_chars_app, Hg1, Hg2).
    assert (Hgne : gap1 +:+ gap2 <> "") by (destruct gap1; done).
    match goal with |- context [Re.search _ ?t] =>
      eassert (Hm : Re.exec_at Notebook.FORMAT 0 t = Some _) end.
    { FORMAT_head Hlead.
      rewrite exec_Cat. apply exec_gap; [done|reflexivity|].
      rewrite exec_Cat, exec_Opt_skip by reflexivity.
      rewrite exec_Cat, exec_Opt_skip by (by apply exec_spaces_stop).
      rewrite exec_Cat. apply exec_language_clause; [done|].
      rewrite exec_Cat, exec_Opt_skip by reflexivity.
      rewrite exec_Eol_end. reflexivity. }
    eexists. split; [exact (search_hit _ _ _ _ Hm)|].
    split; [|split; [|split]].
    + apply group_prefix. found.
    + absent.
    + absent.
    + eapply (group_at _ (src +:+ (gap1 +:+ gap2) +:+ "language[") X "]");
        [found|by flatten|lengths|reflexivity].
  - flatten. rewrite <- (sapp_assoc src gap1 gap2). rewrite <- (sapp_nil_r gap2).
    rewrite (sapp_assoc src gap1). rewrite <- (sapp_assoc gap1 gap2).
    assert (Hg : all_chars Py.isspace (gap1 +:+ gap2) = true)
      by (by rewrite all_chars_app, Hg1, Hg2).
    match goal with |- context [Re.search _ ?t] =>
      eassert (Hm : Re.exec_at Notebook.FORMAT 0 t = Some _) end.
    { FORMAT_head Hlead.
      rewrite exec_Cat. apply exec_gap; [done|reflexivity|].
      rewrite exec_Cat, exec_Opt_skip by reflexivity.
      rewrite exec_Cat, exec_Opt_skip by reflexivity.
      rewrite exec_Cat, exec_Opt_skip by reflexivity.
      rewrite exec_Cat, exec_Opt_skip by reflexivity.
      rewrite exec_Eol_end. reflexivity. }
    eexists. split; [exact (search_hit _ _ _ _ Hm)|].
    split; [|split; [|split]].
    + apply group_prefix. found.
    + absent.
    + absent.
    + absent.
Qed.

(** The parsing step on such a text, with the conversions of the bounds
    still to be done. *)
Lemma notebook_args_text (src gap1 gap2 : string) (c : option (string * string))
    (l : option string) :
  path_token src ->
  all_chars Py.isspace gap1 = true -> all_chars Py.isspace gap2 = true ->
  (c <> None \/ l <> None -> gap1 <> "") ->
  (forall A B, c = Some (A, B) -> signed_digits A /\ signed_digits B) ->
  (forall X, l = Some X -> all_chars Notebook.language_char X = true) ->
  Notebook.notebook_args (src +:+ gap1 +:+ cells_clause c +:+ gap2 +:+ language_clause l)
  = Py.bind (if Notebook.truthy (fst <$> c) then Py.int (default "" (fst <$> c))
             else Py.Ok 0%Z)
      (fun start =>
         Py.bind (if Notebook.truthy (snd <$> c)
                  then Py.bind (Py.int (default "" (snd <$> c))) (fun e => Py.Ok (Some e))
                  else Py.Ok None)
           (fun end_ => Py.Ok (Notebook.mkArgs (Some src) start end_ l))).
Proof.
  intros Hsrc Hg1 Hg2 Hne Hc Hl.
  destruct (FORMAT_clauses src gap1 gap2 c l Hsrc Hg1 Hg2 Hne Hc Hl)
    as (m & Hm & H2 & H6 & H7 & H12).
  unfold Notebook.notebook_args. by rewrite Hm, H2, H6, H7, H12.
Qed.

(** X15: the grammar of the argument text. For a path token [src], white
    space [gap1] (not empty when a clause follows) and [gap2], an optional
    cells clause with integer or absent bounds and an optional language
    clause of characters [a-z0-9+-], the text [src gap1 cells[a:b] gap2
    language[l]] parses to [src], to start [a] or 0, to end [b] or none, and
    to the language [l], or none when the clause is absent. *)
Theorem notebook_args_clauses (src gap1 gap2 : string)
    (c : option (option Z * option Z)) (l : option string) :
  path_token src ->
  all_chars Py.isspace gap1 = true -> all_chars Py.isspace gap2 = true ->
  (c <> None \/ l <> None -> gap1 <> "") ->
  (forall X, l = Some X -> all_chars Notebook.language_char X = true) ->
  Notebook.notebook_args
    (src +:+ gap1 +:+ cells_clause (cell_range_text c) +:+ gap2 +:+ language_clause l)
  = Py.Ok (Notebook.mkArgs (Some src) (default 0%Z (c ≫= fst)) (c ≫= snd) l).
Proof.
  intros Hsrc Hg1 Hg2 Hne Hl.
  rewrite notebook_args_text; [|done|done|done| | |done].
  - destruct c as [[a b]|]; [|done].
    cbn [cell_range_text fmap option_fmap option_map fst snd mbind option_bind].
    destruct (bound_text_value a) as [-> _]. destruct (bound_text_value b) as [_ ->].
    reflexivity.
  - intros [H|H]; apply Hne; [left|by right]. by destruct c.
  - intros A B H. destruct c as [[a b]|]; [|done]. injection H as <- <-.
    split; apply signed_digits_bound_text.
Qed.

Lemma notebook_args_clauses_witness :
  Notebook.notebook_args "nb.ipynb  cells[1:-1] language[python3]"
  = Py.Ok (Notebook.mkArgs (Some "nb.ipynb") 1 (Some (-1)%Z) (Some "python3")).
Proof.
  assert (H : path_token "nb.ipynb") by (split; [discriminate | reflexivity]).
  etrans;
    [|exact (notebook_args_clauses "nb.ipynb" "  " " "
               (Some (Some 1%Z, Some (-1)%Z)) (Some "python3") H eq_refl eq_refl
               ltac:(discriminate)
               ltac:(by intros X [= <-]))].
  vm_compute. reflexivity.
Defined.

(** X16: a bound that is a lone minus sign. [FORMAT] accepts [cells[-:b]]
    and [cells[a:-]], the conversion [int('-')] fails, and the handler
    raises the [ValueError] of [int], not the error that shows the expected
    syntax; nothing was asked of any collaborator. *)
Theorem notebook_lone_minus_raises {Cell Meta : Type}
    (env : @Notebook.Collaborators Cell Meta) (CSS_INCLUDE JS_INCLUDE : string)
    (preprocessor : _LiquidTagsPreprocessor) (tag src gap : string)
    (a b : option Z) (hist : list (@Notebook.event Cell Meta)) :
  path_token src -> gap <> "" -> all_chars Py.isspace gap = true ->
  Notebook.notebook env CSS_INCLUDE JS_INCLUDE preprocessor tag
    (src +:+ gap +:+ "cells[" +:+ "-" +:+ ":" +:+ bound_text b +:+ "]") hist
  = (Py.Raise (Py.int_error "-"), hist)
  /\ Notebook.notebook env CSS_INCLUDE JS_INCLUDE preprocessor tag
       (src +:+ gap +:+ "cells[" +:+ bound_text a +:+ ":" +:+ "-" +:+ "]") hist
     = (Py.Raise (Py.int_error "-"), hist).
Proof.
  intros Hsrc Hne Hgap.
  assert (Hminus : signed_digits "-") by (exists ""; split; [done|by right]).
  split; unfold Notebook.notebook.
  - pose proof (notebook_args_text src gap "" (Some ("-", bound_text b)) None
                  Hsrc Hgap eq_refl (fun _ => Hne)) as H.
    cbn [cells_clause language_clause] in H. rewrite !sapp_nil_r in H.
    rewrite H; [done| |done].
    intros A B [= <- <-]. split; [done|apply signed_digits_bound_text].
  - pose proof (notebook_args_text src gap "" (Some (bound_text a, "-")) None
                  Hsrc Hgap eq_refl (fun _ => Hne)) as H.
    cbn [cells_clause language_clause] in H. rewrite !sapp_nil_r in H.
    rewrite H; [| |done].
    + cbn [fmap option_fmap option_map fst snd].
      destruct (bound_text_value a) as [-> _]. done.
    + intros A B [= <- <-]. split; [apply signed_digits_bound_text|done].
Qed.

Lemma notebook_lone_minus_raises_witness :
  Notebook.notebook some_collaborators "" "" a_preprocessor "notebook"
    "nb.ipynb cells[-:2]" []
  = (Py.Raise (Py.int_error "-"), [])
  /\ Notebook.notebook some_collaborators "" "" a_preprocessor "notebook"
       "nb.ipynb cells[1:-]" []
     = (Py.Raise (Py.int_error "-"), []).
Proof.
  assert (H : path_token "nb.ipynb") by (split; [discriminate | reflexivity]).
  exact (notebook_lone_minus_raises some_collaborators "" "" a_preprocessor "notebook"
           "nb.ipynb" " " (Some 1%Z) (Some 2%Z) [] H ltac:(discriminate) eq_refl).
Defined.

(** ** The notebook handler and its collaborators *)

Lemma ends_with_sep_app (s t : string) :
  t <> "" -> Notebook.ends_with_sep (s +:+ t) = Notebook.ends_with_sep t.
Proof.
  intros Ht. induction s as [|c s IH]; [done|]. rewrite sapp_cons.
  cbn [Notebook.ends_with_sep]. rewrite IH.
  destruct (s +:+ t) eqn:E; [|done]. by destruct s, t.
Qed.

Lemma path_join_content (nb_dir src : string) :
  nb_dir <> "" -> Notebook.starts_with_sep nb_dir = false ->
  Notebook.ends_with_sep nb_dir = false ->
  Notebook.path_join (Notebook.path_join "content" nb_dir) src = notebook_path nb_dir src.
Proof.
  intros Hne Hs He. unfold notebook_path, Notebook.path_join at 1.
  destruct (Notebook.starts_with_sep src); [done|].
  unfold Notebook.path_join. rewrite Hs.
  change (String.eqb "content" "" || Notebook.ends_with_sep "content") with false.
  cbv iota.
  assert (String.eqb ("content" +:+ "/" +:+ nb_dir) "" = false) as -> by done.
  change ("content" +:+ "/" +:+ nb_dir) with ("content/" +:+ nb_dir).
  rewrite ends_with_sep_app, He by done. cbn [orb].
  by rewrite sapp_assoc.
Qed.

Section Pipeline.
Context {Cell Meta : Type}.
Variable env : @Notebook.Collaborators Cell Meta.
Variables CSS_INCLUDE JS_INCLUDE : string.
Implicit Types (hist : list (@Notebook.event Cell Meta)).

Lemma compile_css_trace (css : string) hist :
  exists evs, (Notebook.compile_css env css hist).2 = (hist ++ evs)%list /\ no_stash evs.
Proof.
  unfold Notebook.compile_css, Notebook.run_less.
  destruct (Notebook.subprocess_run env hist _ css) as [p1|e]; cbn [removelast].
  - destruct (Notebook.returncode p1 =? 0)%Z eqn:E1.
    + exists [Notebook.SubprocessRun ["lessc"; "-"; "--clean-css"] css].
      split; [|by repeat constructor]. rewrite E1.
      by destruct (negb true || String.eqb (Notebook.stdout p1) "").
    + exists [Notebook.SubprocessRun ["lessc"; "-"; "--clean-css"] css;
              Notebook.SubprocessRun ["lessc"; "-"] css].
      split; [|by repeat constructor]. rewrite <- app_assoc. cbn [app].
      destruct (Notebook.subprocess_run env _ _ css) as [p2|e]; [|done].
      by destruct (negb (Notebook.returncode p2 =? 0)%Z || String.eqb (Notebook.stdout p2) "").
  - by exists [Notebook.SubprocessRun ["lessc"; "-"; "--clean-css"] css];
      split; [|repeat constructor].
Qed.

(** The handler on parsed arguments when every collaborator answers. *)
Lemma render_notebook_ok (preprocessor : _LiquidTagsPreprocessor) (a : Notebook.Args)
    (s nb_dir : string) hist hist' (nb : @Notebook.NotebookNode Cell Meta)
    (body out : string) (res : Notebook.Resources) :
  Notebook.src a = Some s ->
  getConfig (configs preprocessor) "NOTEBOOK_DIR" = Py.VStr nb_dir ->
  let path := Notebook.path_join (Notebook.path_join "content" nb_dir) s in
  let c := Notebook.mkExportConfig ".highlight-ipynb" (Notebook.start a) (Notebook.end_ a)
             "pelican_basic" (Notebook.language a) in
  Notebook.os_path_exists env hist path = true ->
  Notebook.read_notebook env (hist ++ [Notebook.PathExists path]) path = Py.Ok nb ->
  Notebook.from_notebook_node env
    (hist ++ [Notebook.PathExists path; Notebook.ReadNotebook path]) c nb
    = Py.Ok (body, res) ->
  Notebook.compile_css env (less_input CSS_INCLUDE (Notebook.inlining_css res))
    (hist ++ [Notebook.PathExists path; Notebook.ReadNotebook path;
              Notebook.FromNotebookNode c nb])
    = (Py.Ok out, hist') ->
  Notebook.render_notebook env CSS_INCLUDE JS_INCLUDE preprocessor a hist
  = (Py.Ok (Notebook.htmlStash_store env hist' (stored_html JS_INCLUDE out body) true),
     (hist' ++ [Notebook.StashStore (stored_html JS_INCLUDE out body) true])%list).
Proof.
  intros Hs Hd path c Hex Hread Hexp Hcss. unfold Notebook.render_notebook.
  rewrite Hd, Hs. fold path. rewrite Hex. cbn [negb]. rewrite Hread. fold c.
  rewrite <- !app_assoc. cbn [app]. rewrite Hexp.
  unfold less_input in Hcss.
  rewrite Hcss. reflexivity.
Qed.

End Pipeline.

(** X17: a notebook that is not there. For an argument text that parses, and
    a [NOTEBOOK_DIR] that is a relative directory name without trailing
    separator, the handler asks once whether the file exists, at ['content/'
    + NOTEBOOK_DIR + '/' + src], or at [src] itself when [src] is an
    absolute path; when it does not exist, the handler raises [ValueError]
    naming that path. It reads nothing, starts no process and stores
    nothing. *)
Theorem notebook_missing_file {Cell Meta : Type}
    (env : @Notebook.Collaborators Cell Meta) (CSS_INCLUDE JS_INCLUDE : string)
    (preprocessor : _LiquidTagsPreprocessor) (tag markup s nb_dir : string)
    (a : Notebook.Args) (hist : list (@Notebook.event Cell Meta)) :
  Notebook.notebook_args markup = Py.Ok a ->
  Notebook.src a = Some s ->
  getConfig (configs preprocessor) "NOTEBOOK_DIR" = Py.VStr nb_dir ->
  nb_dir <> "" -> Notebook.starts_with_sep nb_dir = false ->
  Notebook.ends_with_sep nb_dir = false ->
  Notebook.os_path_exists env hist (notebook_path nb_dir s) = false ->
  Notebook.notebook env CSS_INCLUDE JS_INCLUDE preprocessor tag markup hist
  = (Py.Raise (Py.ValueError ("File " +:+ notebook_path nb_dir s +:+ " could not be found")),
     (hist ++ [Notebook.PathExists (notebook_path nb_dir s)])%list).
Proof.
  intros Ha Hs Hd Hne Hst Hen Hex. unfold Notebook.notebook, Notebook.render_notebook.
  rewrite Ha, Hd, Hs, path_join_content by done. by rewrite Hex.
Qed.

Lemma notebook_missing_file_witness :
  Notebook.notebook no_files "" "" a_preprocessor "notebook" "nb.ipynb cells[1:2]" []
  = (Py.Raise (Py.ValueError "File content/notebooks/nb.ipynb could not be found"),
     [Notebook.PathExists "content/notebooks/nb.ipynb"])
  /\ Notebook.notebook no_files "" "" a_preprocessor "notebook" "/etc/nb.ipynb" []
     = (Py.Raise (Py.ValueError "File /etc/nb.ipynb could not be found"),
        [Notebook.PathExists "/etc/nb.ipynb"]).
Proof.
  split.
  - exact (notebook_missing_file no_files "" "" a_preprocessor "notebook"
             "nb.ipynb cells[1:2]" "nb.ipynb" "notebooks"
             (Notebook.mkArgs (Some "nb.ipynb") 1 (Some 2%Z) None) []
             eq_refl eq_refl eq_refl ltac:(discriminate) eq_refl eq_refl eq_refl).
  - exact (notebook_missing_file no_files "" "" a_preprocessor "notebook"
             "/etc/nb.ipynb" "/etc/nb.ipynb" "notebooks"
             (Notebook.mkArgs (Some "/etc/nb.ipynb") 0 None None) []
             eq_refl eq_refl eq_refl ltac:(discriminate) eq_refl eq_refl eq_refl).
Defined.

(** X18: for every argument text, and whatever the collaborators answer, the
    handler only extends the history of requests. It stores into the HTML
    stash exactly when it returns normally: once, as its last request, with
    [safe=True], and what it returns is the answer to that request. When it
    raises, nothing was stored. *)
Theorem notebook_stash_discipline {Cell Meta : Type}
    (env : @Notebook.Collaborators Cell Meta) (CSS_INCLUDE JS_INCLUDE : string)
    (preprocessor : _LiquidTagsPreprocessor) (tag markup : string)
    (hist : list (@Notebook.event Cell Meta)) :
  exists evs,
    (Notebook.notebook env CSS_INCLUDE JS_INCLUDE preprocessor tag markup hist).2
      = (hist ++ evs)%list
    /\ match (Notebook.notebook env CSS_INCLUDE JS_INCLUDE preprocessor tag markup hist).1 with
       | Py.Ok token =>
           exists front content,
             evs = (front ++ [Notebook.StashStore content true])%list
             /\ no_stash front
             /\ token = Notebook.htmlStash_store env (hist ++ front) content true
       | Py.Raise _ => no_stash evs
       end.
Proof.
  unfold Notebook.notebook. destruct (Notebook.notebook_args markup) as [a|e].
  2:{ exists []. split; [by rewrite app_nil_r | constructor]. }
  unfold Notebook.render_notebook.
  destruct (getConfig (configs preprocessor) "NOTEBOOK_DIR") as [| | |nb_dir| |];
    try (exists []; split; [by rewrite app_nil_r | constructor]).
  destruct (Notebook.src a) as [s|];
    [|exists []; split; [by rewrite app_nil_r | constructor] ].
  set (path := Notebook.path_join (Notebook.path_join "content" nb_dir) s).
  destruct (Notebook.os_path_exists env hist path); cbn [negb].
  2:{ exists [Notebook.PathExists path]. split; [done|by repeat constructor]. }
  destruct (Notebook.read_notebook env _ path) as [nb|e].
  2:{ exists [Notebook.PathExists path; Notebook.ReadNotebook path].
      split; [by rewrite <- app_assoc|by repeat constructor]. }
  set (c := Notebook.mkExportConfig _ _ _ _ _).
  destruct (Notebook.from_notebook_node env _ c nb) as [[body res]|e].
  2:{ exists [Notebook.PathExists path; Notebook.ReadNotebook path;
              Notebook.FromNotebookNode c nb].
      split; [by rewrite <- !app_assoc|by repeat constructor]. }
  match goal with |- context [Notebook.compile_css env ?css ?h] =>
    destruct (compile_css_trace env css h) as (evs & Hevs & Hno);
    destruct (Notebook.compile_css env css h) as [[out|e] h'] end;
    cbn [fst snd] in *; subst h'.
  - exists ([Notebook.PathExists path; Notebook.ReadNotebook path;
             Notebook.FromNotebookNode c nb] ++ evs
            ++ [Notebook.StashStore
                  (Py.join Py.nl [Notebook.CSS_WRAPPER_format out; body; JS_INCLUDE]) true])%list.
    split; [by rewrite <- !app_assoc|].
    exists ([Notebook.PathExists path; Notebook.ReadNotebook path;
             Notebook.FromNotebookNode c nb] ++ evs)%list,
           (Py.join Py.nl [Notebook.CSS_WRAPPER_format out; body; JS_INCLUDE]).
    split; [by rewrite <- !app_assoc|]. split.
    + apply Forall_app. split; [by repeat constructor|done].
    + by rewrite <- !app_assoc.
  - exists ([Notebook.PathExists path; Notebook.ReadNotebook path;
             Notebook.FromNotebookNode c nb] ++ evs)%list.
    split; [by rewrite <- !app_assoc|].
    apply Forall_app. split; [by repeat constructor|done].
Qed.

(** X19: when [lessc] cannot be started, the exception of [subprocess.run]
    leaves the compilation step as it is: after a first command that cannot
    be started there is no second attempt, and the message about installing
    less is not raised. The same holds for a second command that cannot be
    started. *)
Theorem compile_css_spawn_failure {Cell Meta : Type}
    (env : @Notebook.Collaborators Cell Meta) (css : string)
    (hist : list (@Notebook.event Cell Meta)) (e : Py.exn) :
  (Notebook.subprocess_run env hist ["lessc"; "-"; "--clean-css"] css = Py.Raise e ->
   Notebook.compile_css env css hist = (Py.Raise e, (hist ++ [first_attempt css])%list))
  /\ (forall p1,
        Notebook.subprocess_run env hist ["lessc"; "-"; "--clean-css"] css = Py.Ok p1 ->
        Notebook.returncode p1 <> 0%Z ->
        Notebook.subprocess_run env (hist ++ [first_attempt css]) ["lessc"; "-"] css
          = Py.Raise e ->
        Notebook.compile_css env css hist
          = (Py.Raise e, (hist ++ [first_attempt css; second_attempt css])%list)).
Proof.
  unfold Notebook.compile_css, Notebook.run_less, first_attempt, second_attempt. split.
  - by intros ->.
  - intros p1 -> Hcode H2. cbn [removelast].
    destruct (Z.eqb_spec (Notebook.returncode p1) 0) as [E|_]; [done|].
    rewrite H2. by rewrite <- app_assoc.
Qed.

Lemma compile_css_spawn_failure_witness :
  Notebook.compile_css no_lessc "div{}" []
  = (Py.Raise (Py.OSError "No such file or directory: 'lessc'"), [first_attempt "div{}"]).
Proof.
  exact (proj1 (compile_css_spawn_failure no_lessc "div{}" []
                  (Py.OSError "No such file or directory: 'lessc'")) eq_refl).
Defined.

(** X20: when the compilation step returns, the text it returns is not empty
    and is the standard output of a command that exited with code 0: of the
    first command, which was then the only one run, or of the second. *)
Theorem compile_css_ok_nonempty {Cell Meta : Type}
    (env : @Notebook.Collaborators Cell Meta) (css out : string)
    (hist hist' : list (@Notebook.event Cell Meta)) :
  Notebook.compile_css env css hist = (Py.Ok out, hist') ->
  out <> ""
  /\ ((hist' = (hist ++ [first_attempt css])%list
       /\ Notebook.subprocess_run env hist ["lessc"; "-"; "--clean-css"] css
          = Py.Ok (Notebook.mkCompletedProcess 0 out))
      \/ (hist' = (hist ++ [first_attempt css; second_attempt css])%list
          /\ Notebook.subprocess_run env (hist ++ [first_attempt css]) ["lessc"; "-"] css
             = Py.Ok (Notebook.mkCompletedProcess 0 out))).
Proof.
  unfold Notebook.compile_css, Notebook.run_less, first_attempt, second_attempt.
  destruct (Notebook.subprocess_run env hist _ css) as [p1|e]; [|done].
  cbn [removelast].
  destruct (Z.eqb_spec (Notebook.returncode p1) 0) as [E1|Hc1].
  - rewrite E1. change (0 =? 0)%Z with true. cbn [negb orb].
    destruct (String.eqb_spec (Notebook.stdout p1) "") as [E|Hne]; [done|].
    intros [= <- <-]. split; [done|]. left. split; [done|].
    destruct p1 as [code1 out1]. cbn in E1 |- *. by rewrite E1.
  - destruct (Notebook.subprocess_run env _ _ css) as [p2|e] eqn:E2; [|done].
    destruct (Z.eqb_spec (Notebook.returncode p2) 0) as [E|Hc2]; [|done].
    cbn [negb orb]. destruct (String.eqb_spec (Notebook.stdout p2) "") as [E'|Hne]; [done|].
    intros [= <- <-]. split; [done|]. right. rewrite <- app_assoc. split; [done|].
    destruct p2 as [code2 out2]. cbn in E |- *. by rewrite E.
Qed.

Lemma compile_css_ok_nonempty_witness :
  "div#nb-wrapper p{margin:0}" <> ""
  /\ Notebook.subprocess_run some_collaborators [first_attempt "div{}"]
       ["lessc"; "-"] "div{}"
     = Py.Ok (Notebook.mkCompletedProcess 0 "div#nb-wrapper p{margin:0}").
Proof.
  destruct (compile_css_ok_nonempty some_collaborators "div{}" "div#nb-wrapper p{margin:0}"
              [] [first_attempt "div{}"; second_attempt "div{}"] eq_refl)
    as [Hne [[H _]|[_ H]]]; [discriminate H|].
  split; [exact Hne | exact H].
Defined.

(** ** The cells that [SubCell] keeps *)

Lemma clamp_index_nat (len a : nat) :
  a <= len -> Py.clamp_index len (Z.of_nat a) = a.
Proof.
  intros H. unfold Py.clamp_index.
  destruct (Z.ltb_spec (Z.of_nat a) 0); [lia|].
  destruct (Z.ltb_spec (Z.of_nat a) 0); [lia|].
  destruct (Z.leb_spec (Z.of_nat len) (Z.of_nat a)); lia.
Qed.

Lemma clamp_index_0 (len : nat) : Py.clamp_index len 0 = 0.
Proof. exact (clamp_index_nat len 0 (Nat.le_0_l len)). Qed.

Lemma clamp_index_neg (len k : nat) :
  0 < k -> Py.clamp_index len (- Z.of_nat k) = len - k.
Proof.
  intros H. unfold Py.clamp_index.
  destruct (Z.ltb_spec (- Z.of_nat k) 0); [|lia].
  destruct (Z.ltb_spec (- Z.of_nat k + Z.of_nat len) 0); [lia|].
  destruct (Z.leb_spec (Z.of_nat len) (- Z.of_nat k + Z.of_nat len)); lia.
Qed.

Lemma slice_list_infix {A : Type} (start stop : option Z) (l : list A) :
  exists pre post, l = (pre ++ Py.slice_list start stop l ++ post)%list.
Proof.
  unfold Py.slice_list. destruct (Py.slice_bounds (length l) start stop) as [lo hi].
  exists (firstn lo l), (skipn (hi - lo) (skipn lo l)).
  by rewrite !firstn_skipn.
Qed.

Lemma slice_list_all {A : Type} (l : list A) : Py.slice_list (Some 0%Z) None l = l.
Proof.
  unfold Py.slice_list, Py.slice_bounds.
  rewrite clamp_index_0.
  cbn [skipn]. rewrite Nat.sub_0_r. apply firstn_all.
Qed.

Lemma slice_list_range {A : Type} (a b : nat) (l : list A) :
  a <= b <= length l ->
  Py.slice_list (Some (Z.of_nat a)) (Some (Z.of_nat b)) l = firstn (b - a) (skipn a l).
Proof.
  intros H. unfold Py.slice_list, Py.slice_bounds.
  by rewrite !clamp_index_nat by lia.
Qed.

Lemma slice_list_last {A : Type} (k : nat) (l : list A) :
  0 < k -> Py.slice_list (Some (- Z.of_nat k)%Z) None l = skipn (length l - k) l.
Proof.
  intros H. unfold Py.slice_list, Py.slice_bounds.
  rewrite clamp_index_neg by done.
  apply firstn_all2. rewrite length_skipn. lia.
Qed.

Lemma slice_list_but_last {A : Type} (k : nat) (l : list A) :
  0 < k -> Py.slice_list (Some 0%Z) (Some (- Z.of_nat k)%Z) l = firstn (length l - k) l.
Proof.
  intros H. unfold Py.slice_list, Py.slice_bounds.
  rewrite clamp_index_neg by done. rewrite clamp_index_0.
  cbn [skipn]. by rewrite Nat.sub_0_r.
Qed.

Lemma preprocess_eq {Cell Meta : Type} (self : Notebook.SubCell)
    (nb resources : Py.loc) (h : gmap Py.loc (@Notebook.obj Cell Meta))
    (node : @Notebook.NotebookNode Cell Meta) :
  h !! nb = Some (Notebook.ONotebook node) ->
  Notebook.preprocess self nb resources h
  = (Py.Ok (fresh (dom h), resources),
     <[fresh (dom h) := Notebook.ONotebook
         (Notebook.mkNotebookNode
            (Py.slice_list (Notebook.sc_start self) (Notebook.sc_end self)
               (Notebook.cells node))
            (Notebook.metadata node) (Notebook.nbformat node)
            (Notebook.nbformat_minor node))]> h).
Proof.
  intros Hnb. unfold Notebook.preprocess, Notebook.deepcopy, Py.alloc. rewrite Hnb.
  rewrite lookup_insert_eq. by rewrite insert_insert_eq.
Qed.

(** X21: the cells that [SubCell.preprocess] keeps. The cells of the
    returned notebook are a run of consecutive cells of the input, in their
    order. With the default traits, start 0 and no end, they are all the
    cells; for natural bounds [a <= b] within the length they are the [b -
    a] cells from index [a]; a negative start [-k] without end keeps the
    last [k] cells, and start 0 with end [-k] drops the last [k]. *)
Theorem preprocess_cell_ranges {Cell Meta : Type} (self : Notebook.SubCell)
    (nb resources : Py.loc) (h : gmap Py.loc (@Notebook.obj Cell Meta))
    (node : @Notebook.NotebookNode Cell Meta) :
  h !! nb = Some (Notebook.ONotebook node) ->
  exists (nbc : Py.loc) (node' : @Notebook.NotebookNode Cell Meta),
    (Notebook.preprocess self nb resources h).1 = Py.Ok (nbc, resources)
    /\ (Notebook.preprocess self nb resources h).2 !! nbc = Some (Notebook.ONotebook node')
    /\ (exists pre post,
          Notebook.cells node = (pre ++ Notebook.cells node' ++ post)%list)
    /\ (Notebook.sc_start self = Some 0%Z -> Notebook.sc_end self = None ->
        Notebook.cells node' = Notebook.cells node)
    /\ (forall a b : nat,
          Notebook.sc_start self = Some (Z.of_nat a) ->
          Notebook.sc_end self = Some (Z.of_nat b) ->
          a <= b <= length (Notebook.cells node) ->
          Notebook.cells node' = firstn (b - a) (skipn a (Notebook.cells node)))
    /\ (forall k : nat,
          0 < k ->
          (Notebook.sc_start self = Some (- Z.of_nat k)%Z -> Notebook.sc_end self = None ->
           Notebook.cells node'
           = skipn (length (Notebook.cells node) - k) (Notebook.cells node))
          /\ (Notebook.sc_start self = Some 0%Z ->
              Notebook.sc_end self = Some (- Z.of_nat k)%Z ->
              Notebook.cells node'
              = firstn (length (Notebook.cells node) - k) (Notebook.cells node))).
Proof.
  intros Hnb. rewrite (preprocess_eq self nb resources h node Hnb). cbn [fst snd].
  eexists _, _. split; [done|]. split; [by rewrite lookup_insert_eq|].
  cbn [Notebook.cells]. split; [apply slice_list_infix|]. split; [|split].
  - intros -> ->. apply slice_list_all.
  - intros a b -> -> H. by apply slice_list_range.
  - intros k Hk. split; intros -> ->;
      [by apply slice_list_last | by apply slice_list_but_last].
Qed.

Lemma preprocess_cell_ranges_witness :
  exists (nbc : Py.loc) (node' : @Notebook.NotebookNode string unit),
    (Notebook.preprocess (Notebook.mkSubCell (Some (-2)%Z) None) 0 1 a_heap).1
      = Py.Ok (nbc, 1)
    /\ (Notebook.preprocess (Notebook.mkSubCell (Some (-2)%Z) None) 0 1 a_heap).2 !! nbc
       = Some (Notebook.ONotebook node')
    /\ Notebook.cells node' = ["c1"; "c2"].
Proof.
  destruct (preprocess_cell_ranges (Notebook.mkSubCell (Some (-2)%Z) None) 0 1 a_heap
              three_cells eq_refl) as (nbc & node' & H1 & H2 & _ & _ & _ & Hneg).
  exists nbc, node'. split; [exact H1|]. split; [exact H2|].
  exact (proj1 (Hneg 2 ltac:(lia)) eq_refl eq_refl).
Defined.

(** ** The highlighter *)

Section HighlighterFacts.
Import Highlighter.

(** A text without [<] is found at the beginning of the replaced text
    exactly when it is found at the beginning of the text. *)
Lemma starts_with_replace (p s : string) :
  contains_char "<" p = false ->
  starts_with p (replace_from "<pre>" pre_ipynb 0 s) = starts_with p s.
Proof.
  revert s. induction p as [|a p IH]; intros s Hp; [by destruct s|].
  cbn [contains_char] in Hp. apply orb_false_iff in Hp as [Ha Hp].
  destruct s as [|c s]; [done|]. cbn [replace_from].
  destruct (starts_with "<pre>" (String c s)) eqn:E.
  - cbn [starts_with] in E. apply andb_true_iff in E as [Ec _].
    apply Ascii.eqb_eq in Ec. subst c.
    change (pre_ipynb +:+ ?x) with (String "<" ("pre class=" +:+ (String Py.dquote "ipynb" +:+ String Py.dquote ">") +:+ x)).
    cbn [starts_with]. by rewrite Ha.
  - cbn [starts_with]. by rewrite IH.
Qed.

Lemma replace_from_free (s : string) (skip : nat) :
  free_of "<pre>" (replace_from "<pre>" pre_ipynb skip s) = true.
Proof.
  revert skip. induction s as [|c s IH]; intros skip; [done|].
  cbn [replace_from]. destruct skip as [|k]; [|apply IH].
  destruct (starts_with "<pre>" (String c s)) eqn:E.
  - pose proof (IH (String.length "<pre>" - 1)) as H.
    revert H. generalize (replace_from "<pre>" pre_ipynb (String.length "<pre>" - 1) s).
    intros out H. vm_compute (pre_ipynb).
    cbn [append free_of starts_with negb andb].
    repeat (match goal with
            | |- context [Ascii.eqb ?a ?b] =>
                let v := eval vm_compute in (Ascii.eqb a b) in
                change (Ascii.eqb a b) with v
            end; cbn [andb negb]).
    exact H.
  - cbn [free_of]. rewrite IH, andb_true_r. apply negb_true_iff.
    change (starts_with "<pre>" (String c ?x))
      with (Ascii.eqb "<" c && starts_with "pre>" x) in *.
    destruct (Ascii.eqb "<" c); [|done].
    cbn [andb] in *. by rewrite (starts_with_replace "pre>" s).
Qed.

(** X22: whenever [custom_highlighter] returns, its result holds no [<pre>]:
    every occurrence in the output of the highlighter was replaced by the
    opening tag with the class [ipynb], and the replacement makes no new
    occurrence. *)
Theorem custom_highlighter_no_bare_pre
    (_pygments_highlight : string -> string -> string -> Py.result string)
    (source : string) (language : option string) (out : string) :
  custom_highlighter _pygments_highlight source language = Py.Ok out ->
  free_of "<pre>" out = true.
Proof.
  unfold custom_highlighter.
  destruct (_pygments_highlight source _ _) as [output|e]; [|done].
  cbn [Py.bind]. intros [= <-]. apply replace_from_free.
Qed.

Lemma custom_highlighter_no_bare_pre_witness :
  exists out,
    custom_highlighter plain_highlight "x = 1" None = Py.Ok out
    /\ free_of "<pre>" out = true.
Proof.
  eexists. split; [reflexivity|].
  apply (custom_highlighter_no_bare_pre plain_highlight "x = 1" None). reflexivity.
Defined.

End HighlighterFacts.

(** ** A page with a notebook tag *)

Lemma rstrip_blank (t : string) : all_chars Py.isspace t = true -> Py.rstrip t = "".
Proof.
  induction t as [|c t IH]; [done|]. cbn [all_chars Py.rstrip].
  intros [Hc Ht]%andb_true_iff. by rewrite IH, Hc.
Qed.

Lemma rstrip_app_blank (s t : string) :
  all_chars Py.isspace t = true -> Py.rstrip (s +:+ t) = Py.rstrip s.
Proof.
  intros Ht. induction s as [|c s IH]; [by apply rstrip_blank|].
  rewrite sapp_cons. cbn [Py.rstrip]. by rewrite IH.
Qed.

Lemma rstrip_end (s : string) (c : ascii) :
  Py.isspace c = false -> Py.rstrip (s +:+ String c "") = s +:+ String c "".
Proof.
  intros Hc. induction s as [|d s IH];
    [rewrite sapp_nil_l; cbn [Py.rstrip]; by rewrite Hc|].
  rewrite sapp_cons. cbn [Py.rstrip]. rewrite IH. by destruct s.
Qed.

Lemma lstrip_path (src rest : string) :
  path_token src -> Py.lstrip (src +:+ rest) = src +:+ rest.
Proof.
  intros [Hne Hall]. destruct src as [|c src]; [done|]. rewrite sapp_cons.
  cbn [all_chars] in Hall. apply andb_true_iff in Hall as [Hc _].
  unfold nonspace in Hc. cbn [Py.lstrip]. by destruct (Py.isspace c).
Qed.

(** The argument text of a tag [{% notebook src cells[a:b] %}] as the
    handler gets it. *)
Lemma strip_cells_markup (src A B : string) :
  path_token src ->
  Py.strip ((src +:+ " cells[" +:+ A +:+ ":" +:+ B +:+ "]") +:+ " ")
  = src +:+ " cells[" +:+ A +:+ ":" +:+ B +:+ "]".
Proof.
  intros Hsrc. unfold Py.strip. rewrite sapp_assoc, lstrip_path by done.
  rewrite <- sapp_assoc, rstrip_app_blank by done.
  rewrite <- !sapp_assoc. by rewrite rstrip_end.
Qed.

(** X23: a page with one tag [{% notebook src cells[a:b] %}], from the text
    to the stash. When the notebook handler is registered, the file exists,
    and reading, exporting and compiling the CSS succeed, [run] returns the
    lines of the page with the tag replaced by the token of the HTML stash.
    The exporter was given the cell range of the tag, the LESS compiler the
    styles inside a [div#nb-wrapper] block, and the stored HTML is the
    scoped style, the body and the JS include, joined by line breaks. *)
Theorem run_notebook_tag {Cell Meta : Type}
    (env : @Notebook.Collaborators Cell Meta) (CSS_INCLUDE JS_INCLUDE : string)
    (self : _LiquidTagsPreprocessor)
    (_tags : gmap string (handler (list (@Notebook.event Cell Meta))))
    (lines : list string) (A B src nb_dir : string) (a b : option Z)
    (hist hist' : list (@Notebook.event Cell Meta))
    (nb : @Notebook.NotebookNode Cell Meta) (body out : string)
    (res : Notebook.Resources) :
  let markup := src +:+ " cells[" +:+ bound_text a +:+ ":" +:+ bound_text b +:+ "]" in
  let path := Notebook.path_join (Notebook.path_join "content" nb_dir) src in
  let c := Notebook.mkExportConfig ".highlight-ipynb" (default 0%Z a) b
             "pelican_basic" None in
  let html := stored_html JS_INCLUDE out body in
  _tags !! "notebook" = Some (Notebook.notebook env CSS_INCLUDE JS_INCLUDE) ->
  Py.join Py.nl lines
    = A +:+ "{%" +:+ (" " +:+ "notebook" +:+ " " +:+ (markup +:+ " ")) +:+ "%}" +:+ B ->
  free_of "{%" A = true -> free_of "{%" B = true ->
  free_of "%}" (" " +:+ "notebook" +:+ " " +:+ (markup +:+ " ")) = true ->
  path_token src ->
  getConfig (configs self) "NOTEBOOK_DIR" = Py.VStr nb_dir ->
  Notebook.os_path_exists env hist path = true ->
  Notebook.read_notebook env (hist ++ [Notebook.PathExists path]) path = Py.Ok nb ->
  Notebook.from_notebook_node env
    (hist ++ [Notebook.PathExists path; Notebook.ReadNotebook path]) c nb
    = Py.Ok (body, res) ->
  Notebook.compile_css env (less_input CSS_INCLUDE (Notebook.inlining_css res))
    (hist ++ [Notebook.PathExists path; Notebook.ReadNotebook path;
              Notebook.FromNotebookNode c nb])
    = (Py.Ok out, hist') ->
  run self _tags lines hist
  = (Py.Ok (Py.split Py.newline
              (A +:+ Notebook.htmlStash_store env hist' html true +:+ B)),
     (hist' ++ [Notebook.StashStore html true])%list).
Proof.
  intros markup path c html Htag Hpage HA HB Hbody Hsrc Hdir Hex Hread Hexp Hcss.
  rewrite (run_one_span self _tags lines hist A _ B Hpage HA Hbody HB).
  rewrite (expand_tag_parts self _tags " " "notebook" " " (markup +:+ " ") hist);
    [|done|done|done|done| |done].
  2:{ unfold markup. rewrite sapp_assoc. by apply stops_at_path. }
  rewrite Htag. unfold markup. rewrite strip_cells_markup by done.
  unfold Notebook.notebook. rewrite notebook_args_cells by done.
  by rewrite (render_notebook_ok env CSS_INCLUDE JS_INCLUDE self
                (Notebook.mkArgs (Some src) (default 0%Z a) b None) src nb_dir
                hist hist' nb body out res eq_refl Hdir Hex Hread Hexp Hcss).
Qed.

Lemma run_notebook_tag_witness :
  run a_preprocessor {[ "notebook" := Notebook.notebook some_collaborators "" "<script/>" ]}
    a_page []
  = (Py.Ok ["Intro"; "token"; "Outro"],
     [Notebook.PathExists "content/notebooks/nb.ipynb";
      Notebook.ReadNotebook "content/notebooks/nb.ipynb";
      Notebook.FromNotebookNode
        (Notebook.mkExportConfig ".highlight-ipynb" 1 (Some 2%Z) "pelican_basic" None)
        three_cells;
      first_attempt (less_input "" ["p { margin: 0 }"]);
      second_attempt (less_input "" ["p { margin: 0 }"]);
      Notebook.StashStore
        (stored_html "<script/>" "div#nb-wrapper p{margin:0}" "<div>body</div>") true]).
Proof.
  assert (H : path_token "nb.ipynb") by (split; [discriminate | reflexivity]).
  etrans;
    [exact (run_notebook_tag some_collaborators "" "<script/>" a_preprocessor
              {[ "notebook" := Notebook.notebook some_collaborators "" "<script/>" ]}
              a_page ("Intro" +:+ Py.nl) (Py.nl +:+ "Outro") "nb.ipynb" "notebooks"
              (Some 1%Z) (Some 2%Z) []
              [Notebook.PathExists "content/notebooks/nb.ipynb";
               Notebook.ReadNotebook "content/notebooks/nb.ipynb";
               Notebook.FromNotebookNode
                 (Notebook.mkExportConfig ".highlight-ipynb" 1 (Some 2%Z)
                    "pelican_basic" None) three_cells;
               first_attempt (less_input "" ["p { margin: 0 }"]);
               second_attempt (less_input "" ["p { margin: 0 }"])]
              three_cells "<div>body</div>" "div#nb-wrapper p{margin:0}"
              (Notebook.mkResources ["p { margin: 0 }"])
              eq_refl eq_refl eq_refl eq_refl eq_refl H eq_refl eq_refl eq_refl
              eq_refl eq_refl)
    | vm_compute; reflexivity].
Defined.
